(** * OOSIT backtesting core: a shallow embedding and its checked properties

    The development follows the Python sources:
    - [oosit_utils/indicators/technical.py]  (module [TechnicalIndicators])
    - [oosit_utils/data/validator.py]        (module [DataValidator])
    - [oosit_utils/data/manager.py]          (module [DataManager])
    - [oosit_utils/backtesting/engine.py]    (module [BacktestEngine])

    Conventions.
    - A Python [float] / [numpy.float64] is modelled by [fnum = option Q]:
      [Some q] is the finite number [q] (exact rational arithmetic, so
      rounding is outside the model) and [None] is a non-finite result
      (NaN, or the infinity numpy produces when dividing by zero). A
      formula for a value is the expression the code evaluates; bounds
      and equalities that rounding can break are not stated.
    - A raised exception is a value of [exn]; code that may raise returns a
      [result]. Code that mutates the data store is written in explicit
      state-passing style.
    - Python dictionaries whose iteration order is irrelevant are [gmap]s;
      ordered ones are association lists. *)

From Stdlib Require Import ZArith QArith Lia Lqa List String Ascii Bool Sorted.
From stdpp Require Import gmap strings list fin_maps.

Set Default Proof Using "Type".
Open Scope Z_scope.

(* ================================================================== *)
(** * Python-level preliminaries *)
(* ================================================================== *)

(** Calendar dates ([pandas.Timestamp] / [datetime] at midnight). *)
Record date : Type := mkDate { year : Z; month : Z; day : Z }.

Definition date_compare (a b : date) : comparison :=
  match year a ?= year b with
  | Eq => match month a ?= month b with
          | Eq => day a ?= day b
          | c => c
          end
  | c => c
  end.

Definition date_eqb (a b : date) : bool :=
  match date_compare a b with Eq => true | _ => false end.
Definition date_ltb (a b : date) : bool :=
  match date_compare a b with Lt => true | _ => false end.
Definition date_leb (a b : date) : bool :=
  match date_compare a b with Gt => false | _ => true end.
Definition date_lt (a b : date) : Prop := date_compare a b = Lt.

(** [d.replace(day=1)] *)
Definition replace_day1 (d : date) : date :=
  {| year := year d; month := month d; day := 1 |}.

(** Exceptions, by class and by the message the source gives them. *)
Inductive message : Type :=
| msg_data_not_found (name : string)
| msg_no_daily_data
| msg_no_monthly_data
| msg_unsupported_frequency (freq : string)
| msg_negative_index (data_index : Z)
| msg_out_of_bounds
| msg_undefined_property (property name : string)
| msg_date_not_found (target : date)
| msg_period_not_found (p_start p_end : date)
| msg_strategy_not_found (name : string)
| msg_invalid_result_format (name : string)
| msg_no_backtest_function (name : string)
| msg_validation_failed
| msg_other (text : string).

Inductive exn : Type :=
| ValueError (m : message)
| IndexError (m : message)
| KeyError (key : string)
| TypeError (m : message)
| AttributeError (m : message)
| StrategyFailure (m : message).

Inductive result (A : Type) : Type :=
| Ok (a : A)
| Err (e : exn).
Arguments Ok {A} a.
Arguments Err {A} e.

Definition bind {A B : Type} (r : result A) (k : A -> result B) : result B :=
  match r with
  | Ok a => k a
  | Err e => Err e
  end.

Notation "'let?' x ':=' r 'in' k" := (bind r (fun x => k))
  (at level 10, x pattern, r at level 100, k at level 200).

(** The lookback-exceeded failure is the [IndexError] whose message starts
    with "Negative index" ([manager.py], line 247). *)
Definition LookbackExceeded (data_index : Z) : exn :=
  IndexError (msg_negative_index data_index).

(** Sequence indexing [l[i]]: a negative index counts from the end, an index
    outside [-len, len) raises [IndexError]. *)
Definition py_get {A : Type} (l : list A) (i : Z) : result A :=
  let n := Z.of_nat (length l) in
  let j := if i <? 0 then n + i else i in
  if (j <? 0) || (n <=? j) then Err (IndexError msg_out_of_bounds)
  else match nth_error l (Z.to_nat j) with
       | Some a => Ok a
       | None => Err (IndexError msg_out_of_bounds)
       end.

(** Slice [l[a:b]] for non-negative bounds (clipped to the length). *)
Definition py_slice {A : Type} (l : list A) (a b : nat) : list A :=
  firstn (b - a) (skipn a l).

(** [enumerate(l)] *)
Definition enumerate {A : Type} (l : list A) : list (nat * A) :=
  combine (seq 0 (length l)) l.

(** ** Floating-point values *)

Definition fnum : Type := option Q.

Definition NaN : fnum := None.
Definition fin (q : Q) : fnum := Some q.
Definition fofZ (z : Z) : fnum := Some (inject_Z z).

Definition lift2 (op : Q -> Q -> Q) (a b : fnum) : fnum :=
  match a, b with
  | Some x, Some y => Some (op x y)
  | _, _ => None
  end.

Definition fadd : fnum -> fnum -> fnum := lift2 Qplus.
Definition fsub : fnum -> fnum -> fnum := lift2 Qminus.
Definition fmul : fnum -> fnum -> fnum := lift2 Qmult.

(** numpy division: a zero divisor gives a non-finite value, not an
    exception. *)
Definition fdiv (a b : fnum) : fnum :=
  match a, b with
  | Some x, Some y => if Qeq_bool y 0 then None else Some (x / y)%Q
  | _, _ => None
  end.

(** Comparisons: any comparison with NaN is false. *)
Definition fgt (a b : fnum) : bool :=
  match a, b with
  | Some x, Some y => negb (Qle_bool x y)
  | _, _ => false
  end.
Definition flt (a b : fnum) : bool := fgt b a.
Definition feq0 (a : fnum) : bool :=
  match a with
  | Some x => Qeq_bool x 0
  | None => false
  end.
Definition isnan (a : fnum) : bool :=
  match a with Some _ => false | None => true end.

(** [np.sum] (0.0 on an empty array) and [np.mean] (NaN on an empty one). *)
Definition np_sum (l : list fnum) : fnum := fold_left fadd l (fin 0).
Definition np_mean (l : list fnum) : fnum :=
  match l with
  | [] => NaN
  | _ => fdiv (np_sum l) (fofZ (Z.of_nat (length l)))
  end.

(** [str.replace(pat, rep)] for a non-empty pattern: [skip] counts the
    characters of a match still to be dropped. *)
Fixpoint str_replace_from (pat rep s : string) (skip : nat) : string :=
  match s with
  | EmptyString => EmptyString
  | String c s' =>
      match skip with
      | S k => str_replace_from pat rep s' k
      | O => if String.prefix pat s
             then String.append rep (str_replace_from pat rep s' (String.length pat - 1))
             else String c (str_replace_from pat rep s' 0)
      end
  end.
Definition str_replace (pat rep s : string) : string :=
  str_replace_from pat rep s 0.

(* ================================================================== *)
(** * Data frames *)
(* ================================================================== *)

(** A loaded table: the [Date] column and the numeric columns by label.
    pandas keeps every column at [len(df)] rows ([df_wf]). Raw columns are
    finite numbers; indicator columns added later contain NaN. *)
Record dataframe : Type := mkDataframe {
  df_date : list date;
  df_columns : gmap string (list fnum)
}.

Definition df_len (df : dataframe) : nat := length (df_date df).

Definition df_wf (df : dataframe) : Prop :=
  forall label col, df_columns df !! label = Some col -> length col = df_len df.

(** [df[label]] on a numeric label; a missing label raises [KeyError]. *)
Definition df_col (df : dataframe) (label : string) : result (list fnum) :=
  match df_columns df !! label with
  | Some col => Ok col
  | None => Err (KeyError label)
  end.

(** [df[label] = values] *)
Definition df_set_col (df : dataframe) (label : string) (values : list fnum) : dataframe :=
  {| df_date := df_date df; df_columns := <[label := values]> (df_columns df) |}.

(** [default_label_by_source.get(source, 'Value')] ([manager.py], lines 58-62). *)
Definition default_label (source : string) : string :=
  if String.eqb source "yfinance" then "Open"
  else if String.eqb source "MacroMicro" then "Value"
  else if String.eqb source "FRED" then "Value"
  else "Value".

(* ================================================================== *)
(** * Indicator names *)
(* ================================================================== *)

(** The dispatcher of [compute_indicator] matches names with [re.match];
    the helpers below implement the few regular expressions it uses on
    ASCII strings. *)

Definition is_digit (c : ascii) : bool :=
  let n := nat_of_ascii c in ((48 <=? n) && (n <=? 57))%nat.

(** Longest prefix of decimal digits, and the rest. *)
Fixpoint span_digits (s : string) : string * string :=
  match s with
  | EmptyString => (EmptyString, EmptyString)
  | String c s' =>
      if is_digit c then let '(d, r) := span_digits s' in (String c d, r)
      else (EmptyString, s)
  end.

(** [int(digits)] *)
Definition int_of_digits (d : string) : nat :=
  fold_left (fun acc c => (10 * acc + (nat_of_ascii c - 48))%nat) (list_ascii_of_string d) 0%nat.

(** [$] matches at the end of the string and just before a final newline. *)
Definition at_end (s : string) : bool :=
  String.eqb s "" || String.eqb s (String (ascii_of_nat 10) "").

(** Remove a literal prefix. *)
Fixpoint strip_prefix (pre s : string) : option string :=
  match pre, s with
  | EmptyString, _ => Some s
  | String a pre', String b s' => if Ascii.eqb a b then strip_prefix pre' s' else None
  | String _ _, EmptyString => None
  end.

(** [(\d+)] : a non-empty run of digits, returned with the rest. *)
Definition take_number (s : string) : option (nat * string) :=
  let '(d, r) := span_digits s in
  if String.eqb d "" then None else Some (int_of_digits d, r).

(** [^PRE(\d+)$] *)
Definition match_prefix_number (pre name : string) : option nat :=
  match strip_prefix pre name with
  | Some r =>
      match take_number r with
      | Some (k, r') => if at_end r' then Some k else None
      | None => None
      end
  | None => None
  end.

(** [^PRE(\d+)?SUF$] : the group is [None] when absent. *)
Definition match_prefix_optnumber (pre suf name : string) : option (option nat) :=
  match strip_prefix pre name with
  | Some r =>
      let '(g, r') := match take_number r with
                      | Some (k, r') => (Some k, r')
                      | None => (None, r)
                      end in
      match strip_prefix suf r' with
      | Some r'' => if at_end r'' then Some g else None
      | None => None
      end
  | None => None
  end.

(** [^PRE(?:(\d+)(?:,(\d+)(?:,(\d+))?)?)?$] with at most [groups]
    numbers (2 for [%K], 3 for [%D]); absent groups are [None]. *)
Definition match_number_list (pre : string) (groups : nat) (name : string)
  : option (option nat * option nat * option nat) :=
  match strip_prefix pre name with
  | None => None
  | Some r =>
      match take_number r with
      | None => if at_end r then Some (None, None, None) else None
      | Some (a, r1) =>
          match strip_prefix "," r1 with
          | None => if at_end r1 then Some (Some a, None, None) else None
          | Some r2 =>
              match take_number r2 with
              | None => None
              | Some (b, r3) =>
                  match strip_prefix "," r3 with
                  | None => if at_end r3 then Some (Some a, Some b, None) else None
                  | Some r4 =>
                      if (groups <? 3)%nat then None
                      else match take_number r4 with
                           | None => None
                           | Some (c, r5) =>
                               if at_end r5 then Some (Some a, Some b, Some c) else None
                           end
                  end
              end
          end
      end
  end.

(* ================================================================== *)
(** * [TechnicalIndicators]  (indicators/technical.py) *)
(* ================================================================== *)

Module TechnicalIndicators.

(** Outcome of pandas' [Series.rolling(window).mean()], and the kernels of
    the indicator families that no property below speaks about ([MAX],
    [STDEV], the stochastic oscillator, the MACD line, the directional
    movement index). They are arguments of the dispatcher. *)
Record kernels : Type := mkKernels {
  pd_rolling_mean : nat -> list fnum -> list fnum;
  k_compute_max : dataframe -> string -> Z -> result (list fnum);
  k_compute_moving_std : dataframe -> string -> nat -> result (list fnum);
  k_compute_stochastic : dataframe -> nat -> nat -> nat -> result (list fnum * list fnum);
  k_compute_macd_line : dataframe -> string -> result (list fnum);
  k_compute_dmi : dataframe -> result (list fnum * list fnum)
}.

(** ** Moving average ([_compute_moving_average]) *)

(** Body of the loop at index [i]: [open_vals[i]] alone when [i == 0],
    otherwise today's open plus the closes of
    [close_vals[max(0, i-(period-1)):i]], over [period]. *)
Definition ma_value (period : nat) (open_vals close_vals : list fnum) (i : nat) : fnum :=
  if (i =? 0)%nat then nth i open_vals NaN
  else
    let lo := Z.to_nat (Z.max 0 (Z.of_nat i - (Z.of_nat period - 1))) in
    let past_sum := np_sum (py_slice close_vals lo i) in
    fdiv (fadd (nth i open_vals NaN) past_sum) (fofZ (Z.of_nat period)).

(** The array filled by [for i in range(period - 1, n)]. With [period = 0]
    the range starts at [-1]: on an empty table [open_vals[-1]] raises; on
    a non-empty one the slot written at [i = -1] (the last one) is written
    again at [i = n-1], so the final array is the one below. *)
Definition ma_open_close (period : nat) (open_vals close_vals : list fnum) (n : nat)
  : result (list fnum) :=
  if (n <? period)%nat then Ok (repeat NaN n)
  else if ((period =? 0) && (n =? 0))%nat then Err (IndexError msg_out_of_bounds)
  else Ok (map (fun i => if (i <? period - 1)%nat then NaN
                         else ma_value period open_vals close_vals i)
               (seq 0 n)).

Definition _compute_moving_average (K : kernels) (df : dataframe) (source : string)
    (period : nat) : result (list fnum) :=
  let n := df_len df in
  if (n <? period)%nat then Ok (repeat NaN n)
  else
    match df_col df "Open", df_col df "Close" with
    | Ok open_vals, Ok close_vals => ma_open_close period open_vals close_vals n
    | _, _ =>
        (* except KeyError: simple rolling mean of the default column *)
        let? values := df_col df (default_label source) in
        Ok (pd_rolling_mean K period values)
    end.

(** ** Wilder's RSI ([_compute_rsi]) *)

(** [deltas[0] = 0], [deltas[1:] = prices[1:] - prices[:-1]] *)
Definition rsi_deltas (prices : list fnum) : list fnum :=
  match prices with
  | [] => []
  | _ :: tl => fin 0 :: zip_with fsub tl prices
  end.

Definition fneg (a : fnum) : fnum := fsub (fin 0) a.

(** [np.where(deltas > 0, deltas, 0.0)] and [np.where(deltas < 0, -deltas, 0.0)] *)
Definition rsi_gains (deltas : list fnum) : list fnum :=
  map (fun d => if fgt d (fin 0) then d else fin 0) deltas.
Definition rsi_losses (deltas : list fnum) : list fnum :=
  map (fun d => if flt d (fin 0) then fneg d else fin 0) deltas.

(** [100.0] when the average loss is zero, else [100 - 100 / (1 + rs)]. *)
Definition rsi_value (avg_gain avg_loss : fnum) : fnum :=
  if feq0 avg_loss then fin 100
  else
    let rs := fdiv avg_gain avg_loss in
    fsub (fin 100) (fdiv (fin 100) (fadd (fin 1) rs)).

(** One step of Wilder's smoothing: [(avg * (period - 1) + today) / period]. *)
Definition wilder_step (period : nat) (avg today : fnum) : fnum :=
  fdiv (fadd (fmul avg (fofZ (Z.of_nat period - 1))) today) (fofZ (Z.of_nat period)).

(** The smoothing loop from index [period + 1] on; it yields, for every
    index, the pair of averages and the RSI. *)
Fixpoint wilder_loop (period : nat) (avg_gain avg_loss : fnum)
    (gl : list (fnum * fnum)) : list (fnum * fnum * fnum) :=
  match gl with
  | [] => []
  | (g, l) :: rest =>
      let ag := wilder_step period avg_gain g in
      let al := wilder_step period avg_loss l in
      (ag, al, rsi_value ag al) :: wilder_loop period ag al rest
  end.

(** The three arrays [avg_gain], [avg_loss], [rsi] as one list of triples. *)
Definition rsi_table (period : nat) (prices : list fnum) : list (fnum * fnum * fnum) :=
  let n := length prices in
  let deltas := rsi_deltas prices in
  let gains := rsi_gains deltas in
  let losses := rsi_losses deltas in
  if (period <? n)%nat then
    let g0 := np_mean (py_slice gains 1 (period + 1)) in
    let l0 := np_mean (py_slice losses 1 (period + 1)) in
    repeat (NaN, NaN, NaN) period
      ++ (g0, l0, rsi_value g0 l0)
      :: wilder_loop period g0 l0 (skipn (period + 1) (combine gains losses))
  else repeat (NaN, NaN, NaN) n.

Definition rsi_of_prices (period : nat) (prices : list fnum) : list fnum :=
  map snd (rsi_table period prices).

(** [prices] is the [Close] column, or the default column of the source
    when there is no [Close] column. *)
Definition _compute_rsi (df : dataframe) (source : string) (period : nat)
  : result (list fnum) :=
  let? prices := match df_col df "Close" with
                 | Ok c => Ok c
                 | Err _ => df_col df (default_label source)
                 end in
  Ok (rsi_of_prices period prices).

(** ** Exponential moving average ([_compute_ema]) *)

(** First index holding a number. *)
Fixpoint first_valid_idx (prices : list fnum) : option nat :=
  match prices with
  | [] => None
  | p :: rest => if isnan p then option_map S (first_valid_idx rest) else Some 0%nat
  end.

(** [alpha = 2.0 / (period + 1.0)] *)
Definition ema_alpha (period : nat) : fnum :=
  fdiv (fin 2) (fofZ (Z.of_nat period + 1)).

(** The loop after the seed: a NaN input carries the previous value
    forward; otherwise the value is updated when the previous one is a
    number (and the slot stays NaN when it is not). *)
Fixpoint ema_loop (alpha prev : fnum) (prices : list fnum) : list fnum :=
  match prices with
  | [] => []
  | p :: rest =>
      let cur := if isnan p then prev
                 else if isnan prev then NaN
                 else fadd (fmul (fsub p prev) alpha) prev in
      cur :: ema_loop alpha cur rest
  end.

(** With [period = 0] the seed is the mean of an empty block (NaN), written
    at index [first_valid_idx - 1]; every later slot then stays NaN. *)
Definition _compute_ema (prices : list fnum) (period : nat) : list fnum :=
  let n := length prices in
  match first_valid_idx prices with
  | None => repeat NaN n
  | Some k =>
      if (n - k <? period)%nat then repeat NaN n
      else
        let valid_block := py_slice prices k (k + period) in
        let valid_block_no_nan := List.filter (fun p => negb (isnan p)) valid_block in
        if (length valid_block_no_nan <? period)%nat then repeat NaN n
        else
          match period with
          | O => repeat NaN n
          | S _ =>
              let initial_ema := np_mean valid_block_no_nan in
              let init_ema_index := (k + period - 1)%nat in
              repeat NaN init_ema_index
                ++ initial_ema
                :: ema_loop (ema_alpha period) initial_ema (skipn (init_ema_index + 1) prices)
          end
  end.

(** ** Dispatcher ([compute_indicator]) *)

(** [None] is Python's [None]: the name is not an indicator. *)
Definition default_to (d : nat) (o : option nat) : nat :=
  match o with Some k => k | None => d end.

Definition compute_indicator (K : kernels) (df : dataframe) (source : string)
    (max_lookback_days : Z) (indicator_name : string) : result (option (list fnum)) :=
  if String.eqb indicator_name "MAX" then
    let? v := k_compute_max K df source max_lookback_days in Ok (Some v)
  else match match_prefix_number "MA" indicator_name with
  | Some period =>
    let? v := _compute_moving_average K df source period in Ok (Some v)
  | None =>
  match match_prefix_number "STDEV" indicator_name with
  | Some period =>
    let? v := k_compute_moving_std K df source period in Ok (Some v)
  | None =>
  match match_prefix_optnumber "RSI" "" indicator_name with
  | Some g =>
    let? v := _compute_rsi df source (default_to 14 g) in Ok (Some v)
  | None =>
  match match_prefix_optnumber "RSI" " EMA" indicator_name with
  | Some g =>
    let? rsi_values := _compute_rsi df source (default_to 14 g) in
    Ok (Some (_compute_ema rsi_values 9))
  | None =>
  match match_number_list "%K" 2 indicator_name with
  | Some (a, b, _) =>
    let? kd := k_compute_stochastic K df (default_to 14 a) (default_to 3 b) 3 in
    Ok (Some (fst kd))
  | None =>
  match match_number_list "%D" 3 indicator_name with
  | Some (a, b, c) =>
    let? kd := k_compute_stochastic K df (default_to 14 a) (default_to 3 b) (default_to 3 c) in
    Ok (Some (snd kd))
  | None =>
  if String.eqb indicator_name "MACD line" then
    let? v := k_compute_macd_line K df source in Ok (Some v)
  else if String.eqb indicator_name "MACD signal" then
    let? macd_values := k_compute_macd_line K df source in
    Ok (Some (_compute_ema macd_values 9))
  else if String.eqb indicator_name "+DI" then
    let? di := k_compute_dmi K df in Ok (Some (fst di))
  else if String.eqb indicator_name "-DI" then
    let? di := k_compute_dmi K df in Ok (Some (snd di))
  else Ok None
  end end end end end end.

End TechnicalIndicators.

(* ================================================================== *)
(** * [DataValidator]  (data/validator.py) *)
(* ================================================================== *)

Module DataValidator.

(** A cell of a table read by [pandas.read_csv]: a number, a missing value
    (NaN / None), or a string. A column has a numeric dtype exactly when it
    holds no string. *)
Inductive cell : Type :=
| CNum (q : Q)
| CNull
| CStr (s : string).

Record table : Type := mkTable {
  t_date : list date;
  t_columns : list (string * list cell)
}.

(** The fields [_extract_from_filename] reads from a file name. *)
Record file_fields : Type := mkFields {
  ff_name : string;
  ff_start_date : date;
  ff_end_date : date;
  ff_frequency : string
}.

(** Index of a month, and the first day of the month with a given index. *)
Definition month_index (d : date) : Z := 12 * year d + (month d - 1).
Definition month_start (k : Z) : date :=
  {| year := k / 12; month := k mod 12 + 1; day := 1 |}.

(** [pd.date_range(start, end, freq='MS').tolist()]: the first days of the
    months lying in [start, end]. *)
Definition pd_date_range_MS (start_date end_date : date) : list date :=
  let first := if day start_date =? 1 then month_index start_date
               else month_index start_date + 1 in
  let last := month_index end_date in
  map (fun k => month_start (first + Z.of_nat k))
      (seq 0 (Z.to_nat (last - first + 1))).

Section Validator.

(** [pandas_market_calendars]' NYSE schedule between two dates. *)
Variable nyse_open_dates : date -> date -> list date.
(** Whether [pd.to_numeric] accepts a string. *)
Variable parses_as_number : string -> bool.

Definition _get_nyse_open_dates (start_date end_date : date) : list date :=
  nyse_open_dates start_date end_date.

Definition is_null (c : cell) : bool :=
  match c with CNull => true | _ => false end.
Definition is_blank (c : cell) : bool :=
  match c with CStr s => String.eqb s "" | _ => false end.
Definition is_string (c : cell) : bool :=
  match c with CStr _ => true | _ => false end.

(** [pd.api.types.is_numeric_dtype(column)] *)
Definition is_numeric_dtype (col : list cell) : bool :=
  negb (existsb is_string col).

(** [pd.to_numeric(column)] does not raise. *)
Definition to_numeric_ok (col : list cell) : bool :=
  forallb (fun c => match c with
                    | CStr s => parses_as_number s
                    | _ => true
                    end) col.

Definition column_quality (col : list cell) : bool :=
  if existsb is_null col || existsb is_blank col then false
  else if negb (is_numeric_dtype col) then to_numeric_ok col
  else true.

Definition _validate_data_quality (dataframe : table) : bool :=
  forallb (fun c => column_quality (snd c)) (t_columns dataframe).

(** The length test followed by the position-wise comparison. *)
Definition dates_match (actual expected : list date) : bool :=
  (length expected =? length actual)%nat
  && forallb (fun p => date_eqb (fst p) (snd p)) (combine actual expected).

Definition _validate_daily_data (dataframe : table) (start_date end_date : date) : bool :=
  let expected_dates := _get_nyse_open_dates start_date end_date in
  if dates_match (t_date dataframe) expected_dates
  then _validate_data_quality dataframe
  else false.

Definition _validate_monthly_data (dataframe : table) (start_date end_date : date) : bool :=
  let expected_dates := pd_date_range_MS start_date end_date in
  if dates_match (t_date dataframe) expected_dates
  then _validate_data_quality dataframe
  else false.

(** [fields] is the outcome of parsing the file name; any exception inside
    the body (a malformed name, [iloc[0]] on an empty table) is caught and
    gives [False]. *)
Definition _validate_single_file (fields : result file_fields) (dataframe : table) : bool :=
  match fields with
  | Err _ => false
  | Ok f =>
      match py_get (t_date dataframe) 0, py_get (t_date dataframe) (-1) with
      | Ok first_date, Ok last_date =>
          if negb (date_eqb first_date (ff_start_date f)) then false
          else if negb (date_eqb last_date (ff_end_date f)) then false
          else if String.eqb (ff_frequency f) "daily"
               then _validate_daily_data dataframe (ff_start_date f) (ff_end_date f)
          else if String.eqb (ff_frequency f) "monthly"
               then _validate_monthly_data dataframe (ff_start_date f) (ff_end_date f)
          else false
      | _, _ => false
      end
  end.

(** The validator of the specification: name, declared range, frequency
    and table. *)
Definition validate (name : string) (declared_start declared_end : date)
    (frequency : string) (dataframe : table) : bool :=
  _validate_single_file
    (Ok {| ff_name := name; ff_start_date := declared_start;
           ff_end_date := declared_end; ff_frequency := frequency |})
    dataframe.

(** The calendar-expanded sequence for a declared range and frequency. *)
Definition expand (declared_start declared_end : date) (frequency : string) : list date :=
  if String.eqb frequency "daily" then _get_nyse_open_dates declared_start declared_end
  else pd_date_range_MS declared_start declared_end.

(** A cell that is populated with a numeric value. *)
Definition cell_numeric (c : cell) : bool :=
  match c with
  | CNum _ => true
  | CNull => false
  | CStr s => negb (String.eqb s "") && parses_as_number s
  end.

Definition fully_numeric (dataframe : table) : bool :=
  forallb (fun c => forallb cell_numeric (snd c)) (t_columns dataframe).

End Validator.

End DataValidator.

(* ================================================================== *)
(** * [DataManager]  (data/manager.py) *)
(* ================================================================== *)

Module DataManager.

(** The fields [FilenameParser] extracts from a loaded file name. Every
    name in [filenames] has been parsed when the store was built, so the
    map holds the parsed form. *)
Record file_info : Type := mkInfo {
  fi_source : string;
  fi_frequency : string;
  fi_start_date : date;
  fi_end_date : date
}.

(** The mutable attributes of a [DataManager] instance. *)
Record store : Type := mkStore {
  use_extended_data : bool;
  redirect_dict : list (string * string);
  max_lookback_days : Z;
  dataframes : gmap string dataframe;
  filenames : gmap string file_info;
  data_arrays : gmap string (list fnum);
  date_arrays : gmap string (list date);
  metadata : gmap string file_info;
  daily_date_range : option (list date);
  monthly_date_range : option (list date);
  daily_data_start_index : gmap string Z;
  monthly_data_start_index : gmap string Z;
  original_dataframes_backup : gmap string dataframe;
  original_daily_indices_backup : gmap string Z;
  original_monthly_indices_backup : gmap string Z
}.

(** Values handed to a strategy. *)
Inductive scalar : Type :=
| SNum (x : fnum)
| SDate (d : date).

(** Functional updates of single attributes. *)
Definition set_dataframes (self : store) (v : gmap string dataframe) : store :=
  mkStore (use_extended_data self) (redirect_dict self) (max_lookback_days self)
    v (filenames self) (data_arrays self) (date_arrays self) (metadata self)
    (daily_date_range self) (monthly_date_range self)
    (daily_data_start_index self) (monthly_data_start_index self)
    (original_dataframes_backup self) (original_daily_indices_backup self)
    (original_monthly_indices_backup self).
Definition set_data_arrays (self : store) (v : gmap string (list fnum)) : store :=
  mkStore (use_extended_data self) (redirect_dict self) (max_lookback_days self)
    (dataframes self) (filenames self) v (date_arrays self) (metadata self)
    (daily_date_range self) (monthly_date_range self)
    (daily_data_start_index self) (monthly_data_start_index self)
    (original_dataframes_backup self) (original_daily_indices_backup self)
    (original_monthly_indices_backup self).
Definition set_date_arrays (self : store) (v : gmap string (list date)) : store :=
  mkStore (use_extended_data self) (redirect_dict self) (max_lookback_days self)
    (dataframes self) (filenames self) (data_arrays self) v (metadata self)
    (daily_date_range self) (monthly_date_range self)
    (daily_data_start_index self) (monthly_data_start_index self)
    (original_dataframes_backup self) (original_daily_indices_backup self)
    (original_monthly_indices_backup self).
Definition set_metadata (self : store) (v : gmap string file_info) : store :=
  mkStore (use_extended_data self) (redirect_dict self) (max_lookback_days self)
    (dataframes self) (filenames self) (data_arrays self) (date_arrays self) v
    (daily_date_range self) (monthly_date_range self)
    (daily_data_start_index self) (monthly_data_start_index self)
    (original_dataframes_backup self) (original_daily_indices_backup self)
    (original_monthly_indices_backup self).
Definition set_daily_data_start_index (self : store) (v : gmap string Z) : store :=
  mkStore (use_extended_data self) (redirect_dict self) (max_lookback_days self)
    (dataframes self) (filenames self) (data_arrays self) (date_arrays self)
    (metadata self) (daily_date_range self) (monthly_date_range self)
    v (monthly_data_start_index self)
    (original_dataframes_backup self) (original_daily_indices_backup self)
    (original_monthly_indices_backup self).
Definition set_monthly_data_start_index (self : store) (v : gmap string Z) : store :=
  mkStore (use_extended_data self) (redirect_dict self) (max_lookback_days self)
    (dataframes self) (filenames self) (data_arrays self) (date_arrays self)
    (metadata self) (daily_date_range self) (monthly_date_range self)
    (daily_data_start_index self) v
    (original_dataframes_backup self) (original_daily_indices_backup self)
    (original_monthly_indices_backup self).
Definition set_backups (self : store) (dfs : gmap string dataframe)
    (daily monthly : gmap string Z) : store :=
  mkStore (use_extended_data self) (redirect_dict self) (max_lookback_days self)
    (dataframes self) (filenames self) (data_arrays self) (date_arrays self)
    (metadata self) (daily_date_range self) (monthly_date_range self)
    (daily_data_start_index self) (monthly_data_start_index self)
    dfs daily monthly.

(** ** [_binary_search_date] *)

(** The [while left <= right] loop; [fuel] bounds the number of iterations
    and [None] means it ran out. *)
Fixpoint bsearch_loop (fuel : nat) (date_list : list date) (target_date : date)
    (left right : Z) : option (result Z) :=
  match fuel with
  | O => None
  | S fuel' =>
      if left <=? right then
        let mid := (left + right) / 2 in
        match py_get date_list mid with
        | Err e => Some (Err e)
        | Ok d =>
            if date_eqb d target_date then Some (Ok mid)
            else if date_ltb d target_date
                 then bsearch_loop fuel' date_list target_date (mid + 1) right
                 else bsearch_loop fuel' date_list target_date left (mid - 1)
        end
      else Some (Err (ValueError (msg_date_not_found target_date)))
  end.

(** The search with one more iteration than the list has elements, which
    always suffices ([bsearch_loop_total]). *)
Definition binary_search_run (date_list : list date) (target_date : date)
  : option (result Z) :=
  bsearch_loop (S (length date_list)) date_list target_date
    0 (Z.of_nat (length date_list) - 1).

Definition _binary_search_date (date_list : list date) (target_date : date) : result Z :=
  match binary_search_run date_list target_date with
  | Some r => r
  | None => Err (ValueError (msg_date_not_found target_date))
  end.

(** ** [get_data_accessor] *)

(** What the closure [get_value] captures: the start date and the two
    start indices computed once. *)
Record accessor : Type := mkAccessor {
  acc_start_date : date;
  acc_daily_start_index : option Z;
  acc_monthly_start_index : option Z
}.

(** [if self.daily_date_range:] holds for a non-empty list. *)
Definition truthy_range (r : option (list date)) : option (list date) :=
  match r with
  | Some ((_ :: _) as l) => Some l
  | _ => None
  end.

Definition get_data_accessor (self : store) (backtest_start_date : date) : result accessor :=
  let start_date := backtest_start_date in
  let? daily_start_index :=
    match truthy_range (daily_date_range self) with
    | Some grid => let? i := _binary_search_date grid start_date in Ok (Some i)
    | None => Ok None
    end in
  let? monthly_start_index :=
    match truthy_range (monthly_date_range self) with
    | Some grid =>
        let? i := _binary_search_date grid (replace_day1 start_date) in Ok (Some i)
    | None => Ok None
    end in
  Ok {| acc_start_date := start_date;
        acc_daily_start_index := daily_start_index;
        acc_monthly_start_index := monthly_start_index |}.

Section Accessor.

Variable K : TechnicalIndicators.kernels.

(** [dict[key]] *)
Definition dict_get {V : Type} (m : gmap string V) (key : string) : result V :=
  match m !! key with
  | Some v => Ok v
  | None => Err (KeyError key)
  end.

(** [self.daily_date_range[i]] *)
Definition range_get (r : option (list date)) (i : Z) : result date :=
  match r with
  | Some l => py_get l i
  | None => Err (TypeError (msg_other "NoneType object is not subscriptable"))
  end.

(** Name resolution: the [ext_] variant when extended data is preferred and
    loaded. *)
Definition actual_name_of (self : store) (name : string) : string :=
  if use_extended_data self then
    let ext_name := String.append "ext_" name in
    if bool_decide (is_Some (dataframes self !! ext_name)) then ext_name else name
  else name.

(** The index computation of [get_value] (lines 229-242), before the
    negative-index guard. *)
Definition data_index_of (self : store) (acc : accessor) (actual_name frequency : string)
    (date_range_index : Z) : result Z :=
  if String.eqb frequency "daily" then
    match acc_daily_start_index acc with
    | None => Err (ValueError msg_no_daily_data)
    | Some daily_start_index =>
        let? own := dict_get (daily_data_start_index self) actual_name in
        Ok (daily_start_index + date_range_index - own)
    end
  else if String.eqb frequency "monthly" then
    match acc_monthly_start_index acc with
    | None => Err (ValueError msg_no_monthly_data)
    | Some monthly_start_index =>
        let? date1 := match acc_daily_start_index acc with
                      | Some daily_start_index =>
                          range_get (daily_date_range self) daily_start_index
                      | None => Ok (acc_start_date acc)
                      end in
        let? date2 := match acc_daily_start_index acc with
                      | Some daily_start_index =>
                          range_get (daily_date_range self)
                                    (daily_start_index + date_range_index)
                      | None => Ok (acc_start_date acc)
                      end in
        let months_diff := 12 * (year date2 - year date1) + (month date2 - month date1) in
        let? own := dict_get (monthly_data_start_index self) actual_name in
        Ok (monthly_start_index + months_diff - own)
    end
  else Err (ValueError (msg_unsupported_frequency frequency)).

(** ** [_get_property_value] *)

(** [_get_property_value] is reached with a property other than [''] and
    ['Date'], so [property_name in dataframe.columns] is a lookup among the
    numeric columns. The second attempt ([try: dataframe[property_name]
    ... except KeyError: pass]) can only fail at this point and is a
    no-op. The function returns the outcome and the store it leaves. *)
Definition _get_property_value (self : store) (name source : string) (data_index : Z)
    (property_name : string) : result scalar * store :=
  match dict_get (dataframes self) name with
  | Err e => (Err e, self)
  | Ok dataframe =>
      match df_columns dataframe !! property_name with
      | Some col => (let? value := py_get col data_index in Ok (SNum value), self)
      | None =>
          let cache_key := String.append name (String.append "_" property_name) in
          match data_arrays self !! cache_key with
          | Some arr => (let? value := py_get arr data_index in Ok (SNum value), self)
          | None =>
              match TechnicalIndicators.compute_indicator
                      K dataframe source (max_lookback_days self) property_name with
              | Err e => (Err e, self)
              | Ok None => (Err (ValueError (msg_undefined_property property_name name)), self)
              | Ok (Some computed_values) =>
                  let self1 :=
                    set_dataframes self
                      (<[name := df_set_col dataframe property_name computed_values]>
                         (dataframes self)) in
                  let self2 :=
                    set_data_arrays self1 (<[cache_key := computed_values]> (data_arrays self1)) in
                  (let? value := py_get computed_values data_index in Ok (SNum value), self2)
              end
          end
      end
  end.

(** ** The accessor [get_value] *)

Definition get_value (acc : accessor) (self : store) (name : string)
    (date_range_index : Z) (optional_property : string) : result scalar * store :=
  let actual_name := actual_name_of self name in
  match dataframes self !! actual_name with
  | None => (Err (ValueError (msg_data_not_found actual_name)), self)
  | Some dataframe =>
      match dict_get (filenames self) actual_name with
      | Err e => (Err e, self)
      | Ok filename =>
          let source := fi_source filename in
          let frequency := fi_frequency filename in
          match data_index_of self acc actual_name frequency date_range_index with
          | Err e => (Err e, self)
          | Ok data_index =>
              if data_index <? 0 then (Err (LookbackExceeded data_index), self)
              else if String.eqb optional_property "" then
                match data_arrays self !! actual_name with
                | Some arr => (let? value := py_get arr data_index in Ok (SNum value), self)
                | None =>
                    (let? col := df_col dataframe (default_label source) in
                     let? value := py_get col data_index in Ok (SNum value), self)
                end
              else if String.eqb optional_property "Date" then
                match date_arrays self !! actual_name with
                | Some arr => (let? value := py_get arr data_index in Ok (SDate value), self)
                | None =>
                    (let? value := py_get (df_date dataframe) data_index in
                     Ok (SDate value), self)
                end
              else _get_property_value self actual_name source data_index optional_property
          end
      end
  end.

End Accessor.

(** ** Redirection *)

(** One pass of the loop body of [_apply_redirection]. *)
Definition redirect_one (self : store) (pair : string * string) : store :=
  let '(original_name, new_source_name) := pair in
  match dataframes self !! original_name, dataframes self !! new_source_name with
  | Some df_original, Some df_new =>
      let s1 := set_backups self
                  (<[original_name := df_original]> (original_dataframes_backup self))
                  (original_daily_indices_backup self)
                  (original_monthly_indices_backup self) in
      let s2 := set_dataframes s1 (<[original_name := df_new]> (dataframes s1)) in
      let s3 := match data_arrays s2 !! original_name, data_arrays s2 !! new_source_name with
                | Some _, Some a => set_data_arrays s2 (<[original_name := a]> (data_arrays s2))
                | _, _ => s2
                end in
      let s4 := match date_arrays s3 !! original_name, date_arrays s3 !! new_source_name with
                | Some _, Some a => set_date_arrays s3 (<[original_name := a]> (date_arrays s3))
                | _, _ => s3
                end in
      let s5 := match metadata s4 !! original_name, metadata s4 !! new_source_name with
                | Some _, Some a => set_metadata s4 (<[original_name := a]> (metadata s4))
                | _, _ => s4
                end in
      let s6 := match daily_data_start_index s5 !! original_name,
                      daily_data_start_index s5 !! new_source_name with
                | Some old, Some new =>
                    set_daily_data_start_index
                      (set_backups s5 (original_dataframes_backup s5)
                         (<[original_name := old]> (original_daily_indices_backup s5))
                         (original_monthly_indices_backup s5))
                      (<[original_name := new]> (daily_data_start_index s5))
                | _, _ => s5
                end in
      match monthly_data_start_index s6 !! original_name,
            monthly_data_start_index s6 !! new_source_name with
      | Some old, Some new =>
          set_monthly_data_start_index
            (set_backups s6 (original_dataframes_backup s6)
               (original_daily_indices_backup s6)
               (<[original_name := old]> (original_monthly_indices_backup s6)))
            (<[original_name := new]> (monthly_data_start_index s6))
      | _, _ => s6
      end
  | _, _ => self
  end.

Definition _apply_redirection (self : store) : store :=
  fold_left redirect_one (redirect_dict self) self.

(** [apply(map)]: install a redirection map and apply it, as the
    constructor does with its [redirect_dict] argument. *)
Definition apply (self : store) (redirection : list (string * string)) : store :=
  _apply_redirection
    (mkStore (use_extended_data self) redirection (max_lookback_days self)
       (dataframes self) (filenames self) (data_arrays self) (date_arrays self)
       (metadata self) (daily_date_range self) (monthly_date_range self)
       (daily_data_start_index self) (monthly_data_start_index self)
       (original_dataframes_backup self) (original_daily_indices_backup self)
       (original_monthly_indices_backup self)).

(** [dict.update]: the entries of [new] override those of [old]. *)
Definition dict_update {V : Type} (old new : gmap string V) : gmap string V := new ∪ old.

Definition restore_original_data (self : store) : store :=
  if bool_decide (original_dataframes_backup self = ∅) then self
  else
    let s1 := set_dataframes self
                (dict_update (dataframes self) (original_dataframes_backup self)) in
    let s2 := set_daily_data_start_index s1
                (dict_update (daily_data_start_index s1) (original_daily_indices_backup s1)) in
    let s3 := set_monthly_data_start_index s2
                (dict_update (monthly_data_start_index s2)
                             (original_monthly_indices_backup s2)) in
    set_backups s3 ∅ ∅ ∅.

End DataManager.

(* ================================================================== *)
(** * [BacktestEngine]  (backtesting/engine.py) *)
(* ================================================================== *)

Module BacktestEngine.

Record BacktestPeriod : Type := mkPeriod {
  period_name : string;
  period_start_date : date;
  period_end_date : date
}.

(** A rebalancing-log entry [(date, from, to)]; the date is [None] when
    [pd.to_datetime] cannot read it. *)
Definition log_entry : Type := (option date * string * string)%type.

Record BacktestResult : Type := mkResult {
  res_strategy_name : string;
  res_display_name : string;
  res_period_name : string;
  res_date_range : list date;
  res_portfolio_values : list fnum;
  res_normalized_values : list fnum;
  res_total_return : fnum;
  res_max_drawdown : fnum;
  res_rebalancing_log : option (list log_entry)
}.

(** ** Metrics *)

(** Portfolio values are numpy arrays (the strategies fill [np.zeros]), so
    a zero first value gives non-finite entries instead of raising. *)
Definition _normalize_to_percents (portfolio_values : list fnum) : list fnum :=
  match portfolio_values with
  | [] => []
  | initial_value :: _ =>
      map (fun x => fmul (fdiv x initial_value) (fin 100)) portfolio_values
  end.

Definition _calculate_return (portfolio_values : list fnum) : fnum :=
  if (length portfolio_values <? 2)%nat then fin 0
  else
    let initial_value := nth 0 portfolio_values NaN in
    let final_value := List.last portfolio_values NaN in
    fmul (fdiv (fsub final_value initial_value) initial_value) (fin 100).

Definition drawdown_step (st : fnum * fnum) (value : fnum) : fnum * fnum :=
  let '(peak, max_drawdown) := st in
  let peak := if fgt value peak then value else peak in
  let drawdown := fdiv (fsub peak value) peak in
  (peak, if fgt drawdown max_drawdown then drawdown else max_drawdown).

Definition _calculate_max_drawdown (portfolio_values : list fnum) : fnum :=
  match portfolio_values with
  | [] => fin 0
  | first :: _ =>
      fmul (snd (fold_left drawdown_step portfolio_values (first, fin 0))) (fin 100)
  end.

(** [strategy_name.replace('_backtest', '')], starred for a default strategy. *)
Definition _get_display_name (default_strategy_names : list string)
    (strategy_name : string) : string :=
  let base_name := str_replace "_backtest" "" strategy_name in
  if bool_decide (base_name ∈ default_strategy_names)
  then String.append "*" base_name
  else base_name.

(** ** Sub-period extraction *)

(** The scan for the first index with [date >= start] and the last index
    with [date <= end]. *)
Definition scan_step (extract_start_date extract_end_date : date)
    (st : option nat * option nat) (p : nat * date) : option nat * option nat :=
  let '(start_idx, end_idx) := st in
  let '(i, d) := p in
  let start_idx := if date_leb extract_start_date d && negb (bool_decide (is_Some start_idx))
                   then Some i else start_idx in
  let end_idx := if date_leb d extract_end_date then Some i else end_idx in
  (start_idx, end_idx).

Definition scan_indices (date_range : list date) (extract_start_date extract_end_date : date)
  : option nat * option nat :=
  fold_left (scan_step extract_start_date extract_end_date) (enumerate date_range) (None, None).

Definition in_period (extract_start_date extract_end_date : date) (e : log_entry) : bool :=
  match fst (fst e) with
  | Some log_date => date_leb extract_start_date log_date && date_leb log_date extract_end_date
  | None => false
  end.

Definition _extract_period_from_full_result (full_result : BacktestResult)
    (period : BacktestPeriod) (strategy_name : string) : result BacktestResult :=
  let extract_start_date := period_start_date period in
  let extract_end_date := period_end_date period in
  match scan_indices (res_date_range full_result) extract_start_date extract_end_date with
  | (Some start_idx, Some end_idx) =>
      let extracted_date_range :=
        py_slice (res_date_range full_result) start_idx (end_idx + 1) in
      let extracted_portfolio_values :=
        py_slice (res_portfolio_values full_result) start_idx (end_idx + 1) in
      let extracted_rebalancing_log :=
        match res_rebalancing_log full_result with
        | Some ((_ :: _) as entries) =>
            Some (List.filter (in_period extract_start_date extract_end_date) entries)
        | _ => None
        end in
      Ok {| res_strategy_name := strategy_name;
            res_display_name := res_display_name full_result;
            res_period_name := period_name period;
            res_date_range := extracted_date_range;
            res_portfolio_values := extracted_portfolio_values;
            res_normalized_values := _normalize_to_percents extracted_portfolio_values;
            res_total_return := _calculate_return extracted_portfolio_values;
            res_max_drawdown := _calculate_max_drawdown extracted_portfolio_values;
            res_rebalancing_log := extracted_rebalancing_log |}
  | _ => Err (ValueError (msg_period_not_found extract_start_date extract_end_date))
  end.

(** ** Strategy execution and the batch *)

Section Batch.

(** Everything a strategy run can read and modify (the data manager with
    its caches), and the keyword overrides of a strategy. *)
Context {World Kwargs : Type}.
Variable no_kwargs : Kwargs.

(** What a strategy's [backtest] function hands back. *)
Inductive strategy_return : Type :=
| Ret2 (date_range : list date) (portfolio_values : list fnum)
| Ret3 (date_range : list date) (portfolio_values : list fnum)
       (rebalancing_log : option (list log_entry))
| RetOther.

Definition backtest_fn : Type :=
  date -> date -> Kwargs -> World -> result strategy_return * World.

(** A loaded strategy module: its [backtest] attribute, when it has one. *)
Record strategy_module : Type := mkModule { backtest : option backtest_fn }.

(** The loaded [StrategyManager]. *)
Record StrategyManager : Type := mkManager {
  default_strategies : list (string * strategy_module);
  test_strategies : list (string * strategy_module);
  default_strategy_names : list string
}.

(** Records written with [logger.error]. *)
Inductive log_record : Type :=
| ErrorExecuting (strategy_name : string) (e : exn)
| ErrorFullPeriod (strategy_name : string) (e : exn)
| ErrorExtracting (period : string) (strategy_name : string) (e : exn).

Fixpoint assoc {V : Type} (l : list (string * V)) (key : string) : option V :=
  match l with
  | [] => None
  | (k, v) :: rest => if String.eqb k key then Some v else assoc rest key
  end.

(** [StrategyManager.execute_strategy]: the outcome, the records logged and
    the world left behind. *)
Definition execute_strategy (sm : StrategyManager) (strategy_name : string)
    (start_date end_date : date) (w : World) (kwargs : Kwargs)
  : result (list date * list fnum * option (list log_entry)) * list log_record * World :=
  let found := match assoc (default_strategies sm) strategy_name with
               | Some m => Some m
               | None => assoc (test_strategies sm) strategy_name
               end in
  match found with
  | None => (Err (ValueError (msg_strategy_not_found strategy_name)), [], w)
  | Some m =>
      match backtest m with
      | None =>
          let e := AttributeError (msg_no_backtest_function strategy_name) in
          (Err e, [ErrorExecuting strategy_name e], w)
      | Some f =>
          match f start_date end_date kwargs w with
          | (Err e, w') => (Err e, [ErrorExecuting strategy_name e], w')
          | (Ok (Ret2 dates values), w') => (Ok (dates, values, None), [], w')
          | (Ok (Ret3 dates values log), w') => (Ok (dates, values, log), [], w')
          | (Ok RetOther, w') =>
              let e := ValueError (msg_invalid_result_format strategy_name) in
              (Err e, [ErrorExecuting strategy_name e], w')
          end
      end
  end.

Definition _execute_single_backtest (sm : StrategyManager) (strategy_name : string)
    (period : BacktestPeriod) (w : World) (kwargs : Kwargs)
  : result BacktestResult * list log_record * World :=
  match execute_strategy sm strategy_name (period_start_date period)
          (period_end_date period) w kwargs with
  | (Err e, logs, w') => (Err e, logs, w')
  | (Ok (date_range, portfolio_values, rebalancing_log), logs, w') =>
      (Ok {| res_strategy_name := strategy_name;
             res_display_name := _get_display_name (default_strategy_names sm) strategy_name;
             res_period_name := period_name period;
             res_date_range := date_range;
             res_portfolio_values := portfolio_values;
             res_normalized_values := _normalize_to_percents portfolio_values;
             res_total_return := _calculate_return portfolio_values;
             res_max_drawdown := _calculate_max_drawdown portfolio_values;
             res_rebalancing_log := rebalancing_log |}, logs, w')
  end.

(** The state of the batch loop: [all_results], the error log, the world. *)
Record batch : Type := mkBatch {
  all_results : gmap string (gmap string BacktestResult);
  error_log : list log_record;
  world : World
}.

(** The inner loop over [periods[1:]]: a failed extraction is logged and
    skipped. *)
Definition extract_step (full_result : BacktestResult) (strategy_name : string)
    (st : gmap string BacktestResult * list log_record) (period : BacktestPeriod)
  : gmap string BacktestResult * list log_record :=
  let '(strategy_results, logs) := st in
  match _extract_period_from_full_result full_result period strategy_name with
  | Ok extracted_result => (<[period_name period := extracted_result]> strategy_results, logs)
  | Err e => (strategy_results, logs ++ [ErrorExtracting (period_name period) strategy_name e])
  end.

(** [strategy_params[strategy_name]] when present, else [{}]. *)
Definition kwargs_of (strategy_params : gmap string Kwargs) (strategy_name : string) : Kwargs :=
  match strategy_params !! strategy_name with
  | Some k => k
  | None => no_kwargs
  end.

(** One iteration of [for strategy_name in all_strategies.keys()]. On a
    failure of the full-period run the [except] clause logs and executes
    [continue], which skips the assignment to [all_results]. *)
Definition run_strategy (sm : StrategyManager) (strategy_params : gmap string Kwargs)
    (full_period : BacktestPeriod) (sub_periods : list BacktestPeriod)
    (b : batch) (strategy_name : string) : batch :=
  let kwargs := kwargs_of strategy_params strategy_name in
  match _execute_single_backtest sm strategy_name full_period (world b) kwargs with
  | (Err e, logs, w') =>
      {| all_results := all_results b;
         error_log := error_log b ++ logs ++ [ErrorFullPeriod strategy_name e];
         world := w' |}
  | (Ok full_result, logs, w') =>
      let '(strategy_results, logs') :=
        fold_left (extract_step full_result strategy_name) sub_periods
                  (<["Full Period" := full_result]> ∅, error_log b ++ logs) in
      {| all_results := <[strategy_name := strategy_results]> (all_results b);
         error_log := logs';
         world := w' |}
  end.

(** Keys of [{**default_strategies, **test_strategies}], in order. *)
Definition all_strategy_names (sm : StrategyManager) : list string :=
  map fst (default_strategies sm)
  ++ List.filter (fun k => negb (bool_decide (is_Some (assoc (default_strategies sm) k))))
                 (map fst (test_strategies sm)).

(** [run_full_backtest] up to the assignment [self.results = all_results]
    (the summary tables built afterwards are pandas objects outside this
    model). [load] is the outcome of [load_all_strategies]. *)
Definition run_full_backtest (load : result StrategyManager)
    (full_start_date full_end_date : date) (test_periods : list BacktestPeriod)
    (strategy_params : gmap string Kwargs) (w : World) : result batch :=
  let? sm := load in
  let full_period := mkPeriod "Full Period" full_start_date full_end_date in
  Ok (fold_left (run_strategy sm strategy_params full_period test_periods)
                (all_strategy_names sm)
                {| all_results := ∅; error_log := []; world := w |}).

(** [get_results_for_strategy]: [self.results.get(strategy_name, {})] *)
Definition get_results_for_strategy (b : batch) (strategy_name : string)
  : gmap string BacktestResult :=
  match all_results b !! strategy_name with
  | Some r => r
  | None => ∅
  end.

End Batch.

End BacktestEngine.

(* ================================================================== *)
(** * Vocabulary of the statements *)
(* ================================================================== *)

Module Terms.
Import TechnicalIndicators.

(** A value that is NaN or a non-negative number. *)
Definition nonneg (a : fnum) : Prop :=
  match a with
  | Some q => (0 <= q)%Q
  | None => True
  end.

(** A non-negative number (never NaN). *)
Definition nonneg_fin (a : fnum) : Prop := exists q, a = fin q /\ (0 <= q)%Q.

(** A row of the RSI table: non-negative averages and the RSI they give. *)
Definition row_ok (row : fnum * fnum * fnum) : Prop :=
  let '(avg_gain, avg_loss, r) := row in
  nonneg avg_gain /\ nonneg avg_loss /\ r = rsi_value avg_gain avg_loss.

(** Sum of [Close[i-(N-1)]], ..., [Close[i-1]], written over the indices. *)
Definition window_sum (closes : list Q) (i N : nat) : Q :=
  fold_right (fun j acc => (nth j closes 0 + acc)%Q) 0%Q (seq (i - (N - 1)) (N - 1)).

(** The valid (non-NaN) values of a series, in order. *)
Definition valid_values (prices : list fnum) : list fnum :=
  List.filter (fun p => negb (isnan p)) prices.

(** A date grid in strictly increasing order. *)
Definition increasing (grid : list date) : Prop := StronglySorted date_lt grid.

(** The own coverage of the asset stored under [name] starts after [d]:
    its start offset points, in the grid of its frequency, at a date later
    than [d]. *)
Definition coverage_starts_after (grid : list date) (start_index : gmap string Z)
    (name : string) (d : date) : Prop :=
  exists s first_date,
    start_index !! name = Some s /\ 0 <= s
    /\ grid !! Z.to_nat s = Some first_date /\ date_lt d first_date.

End Terms.

(* ================================================================== *)
(** * Concrete inputs used by the examples *)
(* ================================================================== *)

Module Examples.
Import BacktestEngine.

(** The indicator kernels outside the model are never reached by the
    examples below, which only ask for moving averages. *)
Definition not_modelled {A : Type} : result A :=
  Err (ValueError (msg_other "kernel outside the model")).
Definition no_kernels : TechnicalIndicators.kernels :=
  {| TechnicalIndicators.pd_rolling_mean := fun _ values => map (fun _ => NaN) values;
     TechnicalIndicators.k_compute_max := fun _ _ _ => not_modelled;
     TechnicalIndicators.k_compute_moving_std := fun _ _ _ => not_modelled;
     TechnicalIndicators.k_compute_stochastic := fun _ _ _ _ => not_modelled;
     TechnicalIndicators.k_compute_macd_line := fun _ _ => not_modelled;
     TechnicalIndicators.k_compute_dmi := fun _ => not_modelled |}.

(** Two-day tables with the same opens (1, 1) and the given closes. *)
Definition two_day_frame (close0 close1 : Q) : dataframe :=
  {| df_date := [mkDate 2020 1 2; mkDate 2020 1 3];
     df_columns := <["Open"%string := [fin 1; fin 1]]>
                     (<["Close"%string := [fin close0; fin close1]]> ∅) |}.

(** A batch of two strategies: the first raises the lookback-exceeded
    error, the second returns a two-day series. *)
Definition failing_backtest : @backtest_fn unit unit :=
  fun _ _ _ w => (Err (LookbackExceeded (-3)), w).
Definition steady_backtest : @backtest_fn unit unit :=
  fun s e _ w => (Ok (Ret3 [s; e] [fin 1; fin 2] (Some [])), w).
Definition two_strategies : @StrategyManager unit unit :=
  {| default_strategies := [];
     test_strategies := [("lookback"%string, mkModule (Some failing_backtest));
                         ("steady"%string, mkModule (Some steady_backtest))];
     default_strategy_names := [] |}.

(** A monthly table covering February and March 2020, for a file whose
    name declares the range 2020.01.15 - 2020.03.01. The NYSE calendar and
    [pd.to_numeric] are not consulted on it. *)
Definition monthly_table : DataValidator.table :=
  {| DataValidator.t_date := [mkDate 2020 2 1; mkDate 2020 3 1];
     DataValidator.t_columns := [("Value"%string, [DataValidator.CNum 1; DataValidator.CNum 2])] |}.
Definition no_calendar : date -> date -> list date := fun _ _ => [].
Definition no_parse : string -> bool := fun _ => false.

(** A store with two daily assets, [A] and [B], covering 2020-01-02 and
    2020-01-03, a daily asset [LATE] that starts on 2020-01-03, and a
    monthly asset [CPI] covering January to March 2020. The caches and
    offsets are those the constructor computes. *)
Definition day1 : date := mkDate 2020 1 2.
Definition day2 : date := mkDate 2020 1 3.
Definition price_frame (dates : list date) (opens closes : list Q) : dataframe :=
  {| df_date := dates;
     df_columns := <["Open"%string := map fin opens]>
                     (<["Close"%string := map fin closes]> ∅) |}.
Definition frame_A : dataframe := price_frame [day1; day2] [10; 11]%Q [12; 13]%Q.
Definition frame_B : dataframe := price_frame [day1; day2] [20; 21]%Q [22; 23]%Q.
Definition frame_LATE : dataframe := price_frame [day2] [30]%Q [31]%Q.
Definition frame_CPI : dataframe :=
  {| df_date := [mkDate 2020 1 1; mkDate 2020 2 1; mkDate 2020 3 1];
     df_columns := <["Value"%string := [fin 1; fin 2; fin 3]]> ∅ |}.
Definition daily_info (first_day : date) : DataManager.file_info :=
  DataManager.mkInfo "yfinance" "daily" first_day day2.
Definition cpi_info : DataManager.file_info :=
  DataManager.mkInfo "FRED" "monthly" (mkDate 2020 1 1) (mkDate 2020 3 1).

Definition small_store : DataManager.store :=
  {| DataManager.use_extended_data := false;
     DataManager.redirect_dict := [];
     DataManager.max_lookback_days := 400;
     DataManager.dataframes :=
       <["A"%string := frame_A]> (<["B"%string := frame_B]>
         (<["LATE"%string := frame_LATE]> (<["CPI"%string := frame_CPI]> ∅)));
     DataManager.filenames :=
       <["A"%string := daily_info day1]> (<["B"%string := daily_info day1]>
         (<["LATE"%string := daily_info day2]> (<["CPI"%string := cpi_info]> ∅)));
     DataManager.data_arrays :=
       <["A"%string := map fin [10; 11]%Q]> (<["B"%string := map fin [20; 21]%Q]>
         (<["LATE"%string := map fin [30]%Q]> (<["CPI"%string := [fin 1; fin 2; fin 3]]> ∅)));
     DataManager.date_arrays :=
       <["A"%string := [day1; day2]]> (<["B"%string := [day1; day2]]>
         (<["LATE"%string := [day2]]>
            (<["CPI"%string := [mkDate 2020 1 1; mkDate 2020 2 1; mkDate 2020 3 1]]> ∅)));
     DataManager.metadata :=
       <["A"%string := daily_info day1]> (<["B"%string := daily_info day1]>
         (<["LATE"%string := daily_info day2]> (<["CPI"%string := cpi_info]> ∅)));
     DataManager.daily_date_range := Some [day1; day2];
     DataManager.monthly_date_range :=
       Some [mkDate 2020 1 1; mkDate 2020 2 1; mkDate 2020 3 1];
     DataManager.daily_data_start_index :=
       <["A"%string := 0]> (<["B"%string := 0]> (<["LATE"%string := 1]> ∅));
     DataManager.monthly_data_start_index := <["CPI"%string := 0]> ∅;
     DataManager.original_dataframes_backup := ∅;
     DataManager.original_daily_indices_backup := ∅;
     DataManager.original_monthly_indices_backup := ∅ |}.

(** The accessor [get_data_accessor] returns on [small_store] for the
    start date 2020-01-02. *)
Definition accessor_day1 : DataManager.accessor :=
  {| DataManager.acc_start_date := day1;
     DataManager.acc_daily_start_index := Some 0;
     DataManager.acc_monthly_start_index := Some 0 |}.

(** A store that holds monthly data only. *)
Definition monthly_only_store : DataManager.store :=
  {| DataManager.use_extended_data := false;
     DataManager.redirect_dict := [];
     DataManager.max_lookback_days := 400;
     DataManager.dataframes := <["CPI"%string := frame_CPI]> ∅;
     DataManager.filenames := <["CPI"%string := cpi_info]> ∅;
     DataManager.data_arrays := <["CPI"%string := [fin 1; fin 2; fin 3]]> ∅;
     DataManager.date_arrays :=
       <["CPI"%string := [mkDate 2020 1 1; mkDate 2020 2 1; mkDate 2020 3 1]]> ∅;
     DataManager.metadata := <["CPI"%string := cpi_info]> ∅;
     DataManager.daily_date_range := None;
     DataManager.monthly_date_range :=
       Some [mkDate 2020 1 1; mkDate 2020 2 1; mkDate 2020 3 1];
     DataManager.daily_data_start_index := ∅;
     DataManager.monthly_data_start_index := <["CPI"%string := 0]> ∅;
     DataManager.original_dataframes_backup := ∅;
     DataManager.original_daily_indices_backup := ∅;
     DataManager.original_monthly_indices_backup := ∅ |}.

(** A store covering the first quarter of 2020: the daily asset [SPY] on
    the 41 NYSE sessions from 2020-01-02 to 2020-03-02 (closed on 01-20 and
    02-17), and the monthly asset [CPI] from January to March. Caches and
    offsets are those the constructor computes. *)
Definition q1_sessions : list date :=
  map (mkDate 2020 1) [2; 3; 6; 7; 8; 9; 10; 13; 14; 15; 16; 17; 21; 22; 23; 24; 27; 28;
                       29; 30; 31]
  ++ map (mkDate 2020 2) [3; 4; 5; 6; 7; 10; 11; 12; 13; 14; 18; 19; 20; 21; 24; 25; 26;
                          27; 28]
  ++ [mkDate 2020 3 2].
Definition frame_SPY : dataframe :=
  price_frame q1_sessions
    (map (fun d => inject_Z (100 * month d + day d)) q1_sessions)
    (map (fun d => inject_Z (100 * month d + day d + 1)) q1_sessions).
Definition spy_info : DataManager.file_info :=
  DataManager.mkInfo "yfinance" "daily" (mkDate 2020 1 2) (mkDate 2020 3 2).
Definition quarter_store : DataManager.store :=
  {| DataManager.use_extended_data := false;
     DataManager.redirect_dict := [];
     DataManager.max_lookback_days := 400;
     DataManager.dataframes :=
       <["SPY"%string := frame_SPY]> (<["CPI"%string := frame_CPI]> ∅);
     DataManager.filenames :=
       <["SPY"%string := spy_info]> (<["CPI"%string := cpi_info]> ∅);
     DataManager.data_arrays :=
       <["SPY"%string := map (fun d => fin (inject_Z (100 * month d + day d))) q1_sessions]>
         (<["CPI"%string := [fin 1; fin 2; fin 3]]> ∅);
     DataManager.date_arrays :=
       <["SPY"%string := q1_sessions]>
         (<["CPI"%string := [mkDate 2020 1 1; mkDate 2020 2 1; mkDate 2020 3 1]]> ∅);
     DataManager.metadata :=
       <["SPY"%string := spy_info]> (<["CPI"%string := cpi_info]> ∅);
     DataManager.daily_date_range := Some q1_sessions;
     DataManager.monthly_date_range :=
       Some [mkDate 2020 1 1; mkDate 2020 2 1; mkDate 2020 3 1];
     DataManager.daily_data_start_index := <["SPY"%string := 0]> ∅;
     DataManager.monthly_data_start_index := <["CPI"%string := 0]> ∅;
     DataManager.original_dataframes_backup := ∅;
     DataManager.original_daily_indices_backup := ∅;
     DataManager.original_monthly_indices_backup := ∅ |}.

End Examples.

(* ================================================================== *)
(** * Further functions of the engine *)
(* ================================================================== *)

Module EngineMore.
Import BacktestEngine.

(** [extract_period_data]: the normalised values of a sub-period of a
    stored result ([engine.py], lines 437-474). *)
Definition extract_period_data (results : gmap string (gmap string BacktestResult))
    (strategy_name period_name : string) (extract_start extract_end : date)
  : result (list fnum) :=
  match results !! strategy_name with
  | None => Err (ValueError (msg_other "No results found"))
  | Some strategy_results =>
      match strategy_results !! period_name with
      | None => Err (ValueError (msg_other "No results found"))
      | Some res =>
          match scan_indices (res_date_range res) extract_start extract_end with
          | (Some start_idx, Some end_idx) =>
              let extracted_values :=
                py_slice (res_portfolio_values res) start_idx (end_idx + 1) in
              Ok (_normalize_to_percents extracted_values)
          | _ => Err (ValueError (msg_period_not_found extract_start extract_end))
          end
      end
  end.

(** [get_results_for_period]: the result of every strategy that has one
    for the period. *)
Definition get_results_for_period (results : gmap string (gmap string BacktestResult))
    (period_name : string) : gmap string BacktestResult :=
  omap (fun strategy_results : gmap string BacktestResult => strategy_results !! period_name)
       results.

(** Index of the first date on or after [s], and of the last date on or
    before [e]. *)
Fixpoint first_at_or_after (s : date) (l : list date) : option nat :=
  match l with
  | [] => None
  | d :: rest => if date_leb s d then Some 0%nat
                 else option_map S (first_at_or_after s rest)
  end.

Fixpoint last_at_or_before (e : date) (l : list date) : option nat :=
  match l with
  | [] => None
  | d :: rest =>
      match last_at_or_before e rest with
      | Some j => Some (S j)
      | None => if date_leb d e then Some 0%nat else None
      end
  end.

(** A date lies in the period [[s, e]]. *)
Definition in_window (s e d : date) : bool := date_leb s d && date_leb d e.

End EngineMore.

(** ** The state of a store between [_apply_redirection] and
    [restore_original_data] *)

Module Redirection.
Import DataManager.

(** [s] is a redirected version of [orig]: updating the current frames and
    offsets with the backups gives those of [orig]; a name without a frame
    backup still has the frame and the offsets of [orig], and no offset
    backup. *)
Definition redirected_from (orig s : store) : Prop :=
  (forall k, dict_update (dataframes s) (original_dataframes_backup s) !! k
             = dataframes orig !! k)
  /\ (forall k, dict_update (daily_data_start_index s)
                  (original_daily_indices_backup s) !! k
                = daily_data_start_index orig !! k)
  /\ (forall k, dict_update (monthly_data_start_index s)
                  (original_monthly_indices_backup s) !! k
                = monthly_data_start_index orig !! k)
  /\ (forall k, original_dataframes_backup s !! k = None ->
        dataframes s !! k = dataframes orig !! k
        /\ daily_data_start_index s !! k = daily_data_start_index orig !! k
        /\ monthly_data_start_index s !! k = monthly_data_start_index orig !! k
        /\ original_daily_indices_backup s !! k = None
        /\ original_monthly_indices_backup s !! k = None).

(** No backup is pending. *)
Definition no_backups (s : store) : Prop :=
  original_dataframes_backup s = ∅
  /\ original_daily_indices_backup s = ∅
  /\ original_monthly_indices_backup s = ∅.

End Redirection.

(** ** The caches and offsets built by the constructor of [DataManager]
    ([manager.py], lines 91-175) *)

Module ManagerInit.
Import DataManager.

(** A [for] loop whose body may raise: the first exception ends it. *)
Fixpoint for_each {A S : Type} (body : S -> A -> result S) (items : list A) (s : S)
  : result S :=
  match items with
  | [] => Ok s
  | x :: rest => let? s' := body s x in for_each body rest s'
  end.

(** [self.filenames.items()]. The maps of the model carry no insertion
    order; each loop below writes one key per entry. *)
Definition items {V : Type} (m : gmap string V) : list (string * V) := map_to_list m.

Section Cache.

(** [FilenameParser.parse] ([common/cache.py], lines 89-102): the fields of
    a file name, or the [ValueError] it raises on a name that does not match
    its pattern. The dates are the digits of the name, not yet checked. *)
Variable parse_filename : string -> result file_info.

(** The body of the loop of [_create_numpy_cache], on an entry of
    [self.filenames]. The source keeps the raw file names and parses them at
    every use; this loop is the first to do so. *)
Definition cache_asset (self : store) (item : string * string) : result store :=
  let '(name, filename) := item in
  let? df := dict_get (dataframes self) name in
  let? fields := parse_filename filename in
  let source := fi_source fields in
  let s1 := set_metadata self (<[name := fields]> (metadata self)) in
  let label := default_label source in
  let s2 := match df_columns df !! label with
            | Some col => set_data_arrays s1 (<[name := col]> (data_arrays s1))
            | None => s1
            end in
  Ok (set_date_arrays s2 (<[name := df_date df]> (date_arrays s2))).

(** [raw_filenames] is [self.filenames] as the validator returned it. *)
Definition _create_numpy_cache (raw_filenames : gmap string string) (self : store)
  : result store :=
  for_each cache_asset (items raw_filenames) self.

End Cache.

Definition set_daily_date_range (self : store) (v : option (list date)) : store :=
  mkStore (use_extended_data self) (redirect_dict self) (max_lookback_days self)
    (dataframes self) (filenames self) (data_arrays self) (date_arrays self)
    (metadata self) v (monthly_date_range self)
    (daily_data_start_index self) (monthly_data_start_index self)
    (original_dataframes_backup self) (original_daily_indices_backup self)
    (original_monthly_indices_backup self).
Definition set_monthly_date_range (self : store) (v : option (list date)) : store :=
  mkStore (use_extended_data self) (redirect_dict self) (max_lookback_days self)
    (dataframes self) (filenames self) (data_arrays self) (date_arrays self)
    (metadata self) (daily_date_range self) v
    (daily_data_start_index self) (monthly_data_start_index self)
    (original_dataframes_backup self) (original_daily_indices_backup self)
    (original_monthly_indices_backup self).

(** [min(dates)] and [max(dates)] of a non-empty list, given by its first
    element and the rest. *)
Definition min_date (first : date) (rest : list date) : date :=
  fold_left (fun m d => if date_ltb d m then d else m) rest first.
Definition max_date (first : date) (rest : list date) : date :=
  fold_left (fun m d => if date_ltb m d then d else m) rest first.

Definition is_daily (item : string * file_info) : bool :=
  String.eqb (fi_frequency (snd item)) "daily".
Definition is_monthly (item : string * file_info) : bool :=
  negb (is_daily item) && String.eqb (fi_frequency (snd item)) "monthly".

(** The bodies of the two loops that compute the start indices. *)
Definition index_daily (grid : list date) (self : store) (item : string * file_info)
  : result store :=
  let '(name, filename) := item in
  let? i := _binary_search_date grid (fi_start_date filename) in
  Ok (set_daily_data_start_index self (<[name := i]> (daily_data_start_index self))).
Definition index_monthly (grid : list date) (self : store) (item : string * file_info)
  : result store :=
  let '(name, filename) := item in
  let? i := _binary_search_date grid (replace_day1 (fi_start_date filename)) in
  Ok (set_monthly_data_start_index self (<[name := i]> (monthly_data_start_index self))).

Section Indices.

(** [NYSEDateCache.get_nyse_dates]: the trading days between two dates. *)
Variable get_nyse_dates : date -> date -> list date.

(** The block "Create daily date range" of [_create_date_indices]
    (lines 129-146). *)
Definition create_daily_range (self : store) : result store :=
  let daily_files := List.filter is_daily (items (filenames self)) in
  match daily_files with
  | [] => Ok self
  | first :: rest =>
      let start_first := fi_start_date (snd first) in
      let start_rest := map (fun it => fi_start_date (snd it)) rest in
      let end_first := fi_end_date (snd first) in
      let end_rest := map (fun it => fi_end_date (snd it)) rest in
      let grid := get_nyse_dates (min_date start_first start_rest)
                                 (max_date end_first end_rest) in
      for_each (index_daily grid) daily_files
               (set_daily_date_range self (Some grid))
  end.

(** The block "Create monthly date range" (lines 148-175). *)
Definition create_monthly_range (self : store) : result store :=
  let monthly_files := List.filter is_monthly (items (filenames self)) in
  match monthly_files with
  | [] => Ok self
  | first :: rest =>
      let start_first := fi_start_date (snd first) in
      let start_rest := map (fun it => fi_start_date (snd it)) rest in
      let end_first := fi_end_date (snd first) in
      let end_rest := map (fun it => fi_end_date (snd it)) rest in
      let grid := DataValidator.pd_date_range_MS (min_date start_first start_rest)
                                                 (max_date end_first end_rest) in
      for_each (index_monthly grid) monthly_files
               (set_monthly_date_range self (Some grid))
  end.

(** The two lists of files are collected first; no block changes
    [filenames], so each block may as well collect its own. *)
Definition _create_date_indices (self : store) : result store :=
  let? s1 := create_daily_range self in
  create_monthly_range s1.

End Indices.

End ManagerInit.

(** ** A store that prefers extended data *)

Module MoreExamples.
Import Examples.

(** [small_store] with [use_extended_data] set and an extended variant
    [ext_A] of the asset [A], holding the data of [B]. *)
Definition extended_store : DataManager.store :=
  {| DataManager.use_extended_data := true;
     DataManager.redirect_dict := [];
     DataManager.max_lookback_days := 400;
     DataManager.dataframes :=
       <["ext_A"%string := frame_B]> (DataManager.dataframes small_store);
     DataManager.filenames :=
       <["ext_A"%string := daily_info day1]> (DataManager.filenames small_store);
     DataManager.data_arrays :=
       <["ext_A"%string := map fin [20; 21]%Q]> (DataManager.data_arrays small_store);
     DataManager.date_arrays :=
       <["ext_A"%string := [day1; day2]]> (DataManager.date_arrays small_store);
     DataManager.metadata :=
       <["ext_A"%string := daily_info day1]> (DataManager.metadata small_store);
     DataManager.daily_date_range := Some [day1; day2];
     DataManager.monthly_date_range :=
       Some [mkDate 2020 1 1; mkDate 2020 2 1; mkDate 2020 3 1];
     DataManager.daily_data_start_index :=
       <["ext_A"%string := 0]> (DataManager.daily_data_start_index small_store);
     DataManager.monthly_data_start_index := <["CPI"%string := 0]> ∅;
     DataManager.original_dataframes_backup := ∅;
     DataManager.original_daily_indices_backup := ∅;
     DataManager.original_monthly_indices_backup := ∅ |}.

End MoreExamples.

(* ================================================================== *)
(** * Properties *)
(* ================================================================== *)

(** ** Arithmetic on [fnum] *)

Lemma Qeq_bool_false_neq (x y : Q) : Qeq_bool x y = false -> ~ (x == y)%Q.
Proof. intros H E. apply Qeq_bool_iff in E. congruence. Qed.

Lemma Qeq_bool_neq_false (x y : Q) : ~ (x == y)%Q -> Qeq_bool x y = false.
Proof.
  intros H. destruct (Qeq_bool x y) eqn:E; [|reflexivity].
  apply Qeq_bool_iff in E. contradiction.
Qed.

Lemma fdiv_fin (x y : Q) : ~ (y == 0)%Q -> fdiv (fin x) (fin y) = fin (x / y).
Proof. intros H. unfold fdiv, fin. now rewrite (Qeq_bool_neq_false _ _ H). Qed.

(** ** Dates and Python indexing *)

Lemma date_compare_eq (a b : date) : date_compare a b = Eq <-> a = b.
Proof.
  destruct a as [y1 m1 d1], b as [y2 m2 d2]. unfold date_compare. cbn.
  split.
  - destruct (y1 ?= y2) eqn:Ey; try discriminate.
    destruct (m1 ?= m2) eqn:Em; try discriminate.
    intros Ed. apply Z.compare_eq_iff in Ey, Em, Ed. now subst.
  - intros H. inversion H; subst. now rewrite !Z.compare_refl.
Qed.

Lemma date_eqb_eq (a b : date) : date_eqb a b = true <-> a = b.
Proof.
  unfold date_eqb. rewrite <- date_compare_eq.
  destruct (date_compare a b); split; congruence.
Qed.

Lemma date_eqb_refl (a : date) : date_eqb a a = true.
Proof. now apply date_eqb_eq. Qed.

Lemma nth_error_lookup {A : Type} (l : list A) (i : nat) : nth_error l i = l !! i.
Proof. revert i. induction l as [|x l IH]; intros [|i]; cbn; auto. Qed.

(** In range, [py_get] is plain indexing. *)
Lemma py_get_nonneg {A : Type} (l : list A) (i : Z) :
  0 <= i ->
  py_get l i = match l !! Z.to_nat i with
               | Some a => Ok a
               | None => Err (IndexError msg_out_of_bounds)
               end.
Proof.
  intros Hi. unfold py_get.
  destruct (i <? 0) eqn:E; [apply Z.ltb_lt in E; lia|]. rewrite E. cbn [orb].
  rewrite nth_error_lookup.
  destruct (Z.of_nat (length l) <=? i) eqn:E2; [|reflexivity].
  apply Z.leb_le in E2.
  rewrite (proj2 (lookup_ge_None l (Z.to_nat i))); [reflexivity|lia].
Qed.

Lemma py_get_Ok_elem {A : Type} (l : list A) (i : Z) (a : A) :
  py_get l i = Ok a -> In a l.
Proof.
  unfold py_get. destruct (_ || _); [discriminate|].
  destruct (nth_error _ _) eqn:E; [|discriminate].
  intros H. inversion H; subst. eapply nth_error_In; eauto.
Qed.

Lemma py_get_first {A : Type} (l : list A) (a : A) :
  py_get l 0 = Ok a <-> head l = Some a.
Proof.
  rewrite py_get_nonneg by lia. rewrite head_lookup.
  change (Z.to_nat 0) with 0%nat.
  destruct (l !! 0%nat); split; congruence.
Qed.

Lemma py_get_last {A : Type} (l : list A) (a : A) :
  py_get l (-1) = Ok a <-> last l = Some a.
Proof.
  unfold py_get. cbn [Z.ltb Z.compare]. rewrite last_lookup, nth_error_lookup.
  destruct l as [|x l]; [cbn; split; discriminate|].
  replace (Z.of_nat (length (x :: l)) + -1 <? 0) with false
    by (symmetry; apply Z.ltb_ge; cbn [length]; lia).
  replace (Z.of_nat (length (x :: l)) <=? Z.of_nat (length (x :: l)) + -1) with false
    by (symmetry; apply Z.leb_gt; lia).
  cbn [orb].
  replace (Z.to_nat (Z.of_nat (length (x :: l)) + -1)) with (pred (length (x :: l)))
    by (cbn [length]; lia).
  destruct (_ !! _); split; congruence.
Qed.

(** ** Indicators *)

Module IndicatorFacts.
Import TechnicalIndicators Terms Examples.

Lemma Qle_bool_false_lt (x y : Q) : Qle_bool x y = false -> (y < x)%Q.
Proof.
  intros H. apply Qnot_le_lt. intros Hle. apply Qle_bool_iff in Hle. congruence.
Qed.

Lemma Qpos_of_nonneg_nonzero (x : Q) : (0 <= x)%Q -> ~ (x == 0)%Q -> (0 < x)%Q.
Proof.
  intros H Hne. apply Qle_lteq in H. destruct H as [H|H]; [exact H|].
  exfalso. apply Hne. symmetry. exact H.
Qed.

Lemma gains_nonneg (deltas : list fnum) : Forall nonneg_fin (rsi_gains deltas).
Proof.
  unfold rsi_gains. apply Forall_map. apply Forall_forall. intros d _.
  destruct (fgt d (fin 0)) eqn:E.
  - destruct d as [q|]; [|discriminate]. exists q. split; [reflexivity|].
    cbn in E. apply negb_true_iff in E. apply Qle_bool_false_lt in E. lra.
  - exists 0%Q. split; [reflexivity|lra].
Qed.

Lemma losses_nonneg (deltas : list fnum) : Forall nonneg_fin (rsi_losses deltas).
Proof.
  unfold rsi_losses. apply Forall_map. apply Forall_forall. intros d _.
  destruct (flt d (fin 0)) eqn:E.
  - destruct d as [q|]; [|discriminate]. exists (0 - q)%Q. split; [reflexivity|].
    cbn in E. apply negb_true_iff in E. apply Qle_bool_false_lt in E. lra.
  - exists 0%Q. split; [reflexivity|lra].
Qed.

Lemma fold_fadd_nonneg (l : list fnum) (acc : Q) :
  Forall nonneg_fin l -> (0 <= acc)%Q ->
  exists s, fold_left fadd l (fin acc) = fin s /\ (0 <= s)%Q.
Proof.
  intros Hl. revert acc. induction Hl as [|x l [q [-> Hq]] _ IH]; intros acc Hacc.
  - exists acc. split; [reflexivity|exact Hacc].
  - cbn [fold_left]. apply (IH (acc + q)%Q). lra.
Qed.

Lemma np_mean_nonneg (l : list fnum) : Forall nonneg_fin l -> nonneg (np_mean l).
Proof.
  intros Hl. destruct l as [|x l]; [exact I|].
  unfold np_mean. destruct (fold_fadd_nonneg (x :: l) 0 Hl) as [s [Hs Hs0]]; [lra|].
  unfold np_sum. rewrite Hs. unfold fdiv, fin, fofZ.
  destruct (Qeq_bool _ 0) eqn:E; [exact I|]. cbn.
  apply Qeq_bool_false_neq in E.
  apply Qle_shift_div_l; [|lra].
  apply Qpos_of_nonneg_nonzero; [|exact E].
  change 0%Q with (inject_Z 0). rewrite <- Zle_Qle. lia.
Qed.

Lemma wilder_step_nonneg (period : nat) (avg today : fnum) :
  nonneg avg -> nonneg_fin today -> nonneg (wilder_step period avg today).
Proof.
  intros Ha [t [-> Ht]]. unfold wilder_step.
  destruct avg as [a|]; [|exact I]. cbn in Ha.
  unfold fdiv, fadd, fmul, lift2, fofZ, fin.
  destruct (Qeq_bool _ 0) eqn:E; [exact I|]. cbn.
  apply Qeq_bool_false_neq in E.
  assert (Hp : (0 <= inject_Z (Z.of_nat period))%Q).
  { change 0%Q with (inject_Z 0). rewrite <- Zle_Qle. lia. }
  assert (Hp1 : (0 <= inject_Z (Z.of_nat period - 1))%Q).
  { change 0%Q with (inject_Z 0). rewrite <- Zle_Qle.
    destruct period; [exfalso; apply E; reflexivity|lia]. }
  apply Qle_shift_div_l; [now apply Qpos_of_nonneg_nonzero|].
  assert (0 <= a * inject_Z (Z.of_nat period - 1))%Q by (apply Qmult_le_0_compat; assumption).
  lra.
Qed.

(** The value computed from two non-negative averages lies in [0, 100],
    and is 100 when the average loss is zero. *)
Lemma rsi_value_range (avg_gain avg_loss : fnum) (r : Q) :
  nonneg avg_gain -> nonneg avg_loss ->
  rsi_value avg_gain avg_loss = fin r -> (0 <= r <= 100)%Q.
Proof.
  intros Hg Hl. unfold rsi_value.
  destruct (feq0 avg_loss) eqn:E0.
  - intros H. inversion H; subst. lra.
  - destruct avg_gain as [g|], avg_loss as [l|]; cbn; try discriminate.
    cbn in E0, Hg, Hl. rewrite E0. cbn.
    apply Qeq_bool_false_neq in E0.
    assert (Hlpos : (0 < l)%Q) by now apply Qpos_of_nonneg_nonzero.
    assert (Hrs : (0 <= g / l)%Q) by (apply Qle_shift_div_l; lra).
    destruct (Qeq_bool (1 + g / l) 0) eqn:E1; [discriminate|].
    intros H. inversion H; subst r. clear H.
    assert (H1 : (0 < 1 + g / l)%Q) by lra.
    assert (H2 : (0 <= 100 / (1 + g / l))%Q) by (apply Qle_shift_div_l; lra).
    assert (H3 : (100 / (1 + g / l) <= 100)%Q) by (apply Qle_shift_div_r; lra).
    lra.
Qed.

Lemma rsi_value_zero_loss (avg_gain : fnum) (l : Q) :
  (l == 0)%Q -> rsi_value avg_gain (fin l) = fin 100.
Proof.
  intros H. unfold rsi_value, feq0, fin.
  now rewrite (proj2 (Qeq_bool_iff l 0) H).
Qed.

Lemma wilder_loop_ok (period : nat) (gl : list (fnum * fnum)) :
  forall avg_gain avg_loss,
  Forall (fun p => nonneg_fin (fst p) /\ nonneg_fin (snd p)) gl ->
  nonneg avg_gain -> nonneg avg_loss ->
  Forall row_ok (wilder_loop period avg_gain avg_loss gl).
Proof.
  induction gl as [|[g l] gl IH]; intros ag al Hgl Hag Hal; [constructor|].
  apply Forall_cons_1 in Hgl. destruct Hgl as [[Hg Hl] Hgl]. cbn in Hg, Hl.
  cbn [wilder_loop].
  assert (nonneg (wilder_step period ag g)) by (apply wilder_step_nonneg; assumption).
  assert (nonneg (wilder_step period al l)) by (apply wilder_step_nonneg; assumption).
  constructor; [repeat split; assumption|]. apply IH; assumption.
Qed.

Lemma Forall_combine_fin (xs ys : list fnum) :
  Forall nonneg_fin xs -> Forall nonneg_fin ys ->
  Forall (fun p => nonneg_fin (fst p) /\ nonneg_fin (snd p)) (combine xs ys).
Proof.
  intros Hx. revert ys. induction Hx as [|x xs Hx _ IH]; intros ys Hy; [constructor|].
  destruct Hy as [|y ys Hy Hys]; [constructor|].
  cbn. constructor; [split; assumption|]. now apply IH.
Qed.

Lemma Forall_skipn {A : Type} (P : A -> Prop) (n : nat) (l : list A) :
  Forall P l -> Forall P (skipn n l).
Proof.
  intros H. rewrite <- (firstn_skipn n l) in H. apply Forall_app in H. tauto.
Qed.

Lemma Forall_firstn {A : Type} (P : A -> Prop) (n : nat) (l : list A) :
  Forall P l -> Forall P (firstn n l).
Proof.
  intros H. rewrite <- (firstn_skipn n l) in H. apply Forall_app in H. tauto.
Qed.

Lemma rsi_table_ok (period : nat) (prices : list fnum) :
  Forall row_ok (rsi_table period prices).
Proof.
  unfold rsi_table.
  assert (Hnan : forall k, Forall row_ok (repeat (NaN, NaN, NaN) k)).
  { intros k. apply Forall_forall. intros x Hx. apply list_elem_of_In in Hx.
    apply repeat_spec in Hx. subst x. cbn. auto. }
  destruct (period <? length prices)%nat; [|apply Hnan].
  pose proof (gains_nonneg (rsi_deltas prices)) as Hg.
  pose proof (losses_nonneg (rsi_deltas prices)) as Hl.
  assert (Hg0 : nonneg (np_mean (py_slice (rsi_gains (rsi_deltas prices)) 1 (period + 1)))).
  { apply np_mean_nonneg. unfold py_slice. now apply Forall_firstn, Forall_skipn. }
  assert (Hl0 : nonneg (np_mean (py_slice (rsi_losses (rsi_deltas prices)) 1 (period + 1)))).
  { apply np_mean_nonneg. unfold py_slice. now apply Forall_firstn, Forall_skipn. }
  apply Forall_app. split; [apply Hnan|].
  constructor; [repeat split; assumption|].
  apply wilder_loop_ok; try assumption.
  apply Forall_skipn. now apply Forall_combine_fin.
Qed.

(** C7: wherever the RSI is defined it lies in [0, 100], and an index whose
    Wilder-smoothed average loss is zero has RSI exactly 100; this holds
    for the series computed from any prices and for the indicator column
    computed from any table. *)
Theorem rsi_bounded (period : nat) (prices : list fnum) :
  (forall i r, nth_error (rsi_of_prices period prices) i = Some (fin r) ->
     (0 <= r <= 100)%Q)
  /\ (forall i avg_gain avg_loss r,
        nth_error (rsi_table period prices) i = Some (avg_gain, fin avg_loss, r) ->
        (avg_loss == 0)%Q -> r = fin 100)
  /\ (forall df source values i r,
        _compute_rsi df source period = Ok values ->
        nth_error values i = Some (fin r) -> (0 <= r <= 100)%Q).
Proof.
  assert (Hrange : forall prices i r,
             nth_error (rsi_of_prices period prices) i = Some (fin r) -> (0 <= r <= 100)%Q).
  { intros ps i r H. unfold rsi_of_prices in H. rewrite nth_error_map in H.
    destruct (nth_error (rsi_table period ps) i) as [[[ag al] x]|] eqn:E; [|discriminate].
    cbn in H. inversion H; subst x.
    pose proof (rsi_table_ok period ps) as Hok.
    rewrite Forall_forall in Hok.
    destruct (Hok (ag, al, fin r)) as (Hg & Hl & Hr).
    { apply list_elem_of_In. eapply nth_error_In. exact E. }
    symmetry in Hr. exact (rsi_value_range ag al r Hg Hl Hr). }
  split; [apply Hrange|]. split.
  - intros i ag al r E Hz.
    pose proof (rsi_table_ok period prices) as Hok.
    rewrite Forall_forall in Hok.
    destruct (Hok (ag, fin al, r)) as (_ & _ & Hr).
    { apply list_elem_of_In. eapply nth_error_In. exact E. }
    rewrite Hr. now apply rsi_value_zero_loss.
  - intros df source values i r Hc Hn. unfold _compute_rsi in Hc.
    destruct (match df_col df "Close" with Ok c => Ok c | Err _ => _ end) as [ps|e];
      cbn in Hc; [|discriminate].
    inversion Hc; subst values. eapply Hrange; eauto.
Qed.

(** ** The Open/Close moving average *)

Lemma nth_error_map_seq {A : Type} (f : nat -> A) (n i : nat) :
  (i < n)%nat -> nth_error (map f (seq 0 n)) i = Some (f i).
Proof.
  intros Hi. rewrite nth_error_map.
  rewrite (nth_error_nth' (seq 0 n) 0%nat) by (rewrite length_seq; exact Hi).
  now rewrite seq_nth.
Qed.

Lemma nth_error_repeat_lt {A : Type} (a : A) (n i : nat) :
  (i < n)%nat -> nth_error (repeat a n) i = Some a.
Proof.
  intros Hi. rewrite (nth_error_nth' (repeat a n) a) by (rewrite repeat_length; exact Hi).
  now rewrite nth_repeat.
Qed.

Lemma nth_map_fin (l : list Q) (i : nat) :
  (i < length l)%nat -> nth i (map fin l) NaN = fin (nth i l 0%Q).
Proof.
  intros Hi. rewrite (nth_indep (map fin l) NaN (fin 0)) by (rewrite length_map; exact Hi).
  apply map_nth.
Qed.

Lemma fold_fadd_fin (l : list Q) (acc : Q) :
  fold_left fadd (map fin l) (fin acc) = fin (fold_left Qplus l acc).
Proof. revert acc. induction l as [|x l IH]; intros acc; [reflexivity|apply IH]. Qed.

Lemma fold_left_Qplus (l : list Q) (acc : Q) :
  (fold_left Qplus l acc == acc + fold_right Qplus 0 l)%Q.
Proof.
  revert acc. induction l as [|x l IH]; intros acc; cbn.
  - ring.
  - rewrite IH. ring.
Qed.

Lemma firstn_skipn_seq (l : list Q) (lo len : nat) :
  (lo + len <= length l)%nat ->
  firstn len (skipn lo l) = map (fun j => nth j l 0%Q) (seq lo len).
Proof.
  revert lo len. induction l as [|x l IH]; intros lo len Hlen.
  - cbn in Hlen. assert (len = 0%nat) by lia. subst len. now destruct lo.
  - destruct lo as [|lo].
    + destruct len as [|len]; [reflexivity|].
      cbn [skipn firstn seq map nth]. f_equal.
      rewrite <- seq_shift, map_map. cbn [nth].
      apply (IH 0%nat len). cbn in Hlen. lia.
    + cbn [skipn]. rewrite <- seq_shift, map_map. cbn [nth].
      apply IH. cbn in Hlen. lia.
Qed.

(** [np.sum] of a slice of finite closes is the sum over its indices. *)
Lemma np_sum_slice (closes : list Q) (lo hi : nat) :
  (lo <= hi <= length closes)%nat ->
  exists s, np_sum (py_slice (map fin closes) lo hi) = fin s
            /\ (s == fold_right (fun j acc => nth j closes 0 + acc) 0 (seq lo (hi - lo)))%Q.
Proof.
  intros H. unfold np_sum, py_slice.
  rewrite skipn_map, firstn_map, fold_fadd_fin.
  eexists. split; [reflexivity|].
  rewrite fold_left_Qplus, firstn_skipn_seq by lia.
  rewrite Qplus_0_l. generalize (seq lo (hi - lo)). intros js.
  induction js as [|j js IH]; cbn; [reflexivity|]. now rewrite IH.
Qed.

Lemma ma_value_formula (N : nat) (opens closes : list Q) (i : nat) :
  (1 <= N)%nat -> (N - 1 <= i)%nat -> (i < length opens)%nat -> (i < length closes)%nat ->
  exists q, ma_value N (map fin opens) (map fin closes) i = fin q
            /\ (q == (nth i opens 0 + window_sum closes i N) / inject_Z (Z.of_nat N))%Q.
Proof.
  intros HN Hi Ho Hc. unfold ma_value.
  assert (HNq : ~ (inject_Z (Z.of_nat N) == 0)%Q).
  { change 0%Q with (inject_Z 0). rewrite inject_Z_injective. lia. }
  destruct (i =? 0)%nat eqn:E0.
  - apply Nat.eqb_eq in E0. subst i. assert (N = 1%nat) by lia. subst N.
    exists (nth 0 opens 0%Q). split; [now apply nth_map_fin|].
    unfold window_sum. cbn. field.
  - apply Nat.eqb_neq in E0.
    replace (Z.to_nat (Z.max 0 (Z.of_nat i - (Z.of_nat N - 1)))) with (i - (N - 1))%nat by lia.
    destruct (np_sum_slice closes (i - (N - 1)) i) as [s [Hs Hsum]]; [lia|].
    rewrite Hs, nth_map_fin by exact Ho.
    cbn [fadd lift2 fin]. change (Some (nth i opens 0 + s)%Q) with (fin (nth i opens 0 + s)%Q).
    unfold fofZ. change (Some (inject_Z (Z.of_nat N))) with (fin (inject_Z (Z.of_nat N))).
    rewrite fdiv_fin by exact HNq.
    eexists. split; [reflexivity|].
    unfold window_sum. replace (i - (i - (N - 1)))%nat with (N - 1)%nat in Hsum by lia.
    now rewrite Hsum.
Qed.

(** C5, the claim as stated fails: for [MA2] the first eligible bar is
    index 1, and its value is not the opening value alone: the two tables
    have the same opens, and the values differ with the previous close. *)
Lemma first_bar_uses_close_counterexample :
  df_columns (two_day_frame 3 3) !! "Open"%string = df_columns (two_day_frame 5 7) !! "Open"%string
  /\ _compute_moving_average no_kernels (two_day_frame 3 3) "yfinance" 2
      = Ok [NaN; fin ((1 + (0 + 3)) / inject_Z 2)]
  /\ _compute_moving_average no_kernels (two_day_frame 5 7) "yfinance" 2
      = Ok [NaN; fin ((1 + (0 + 5)) / inject_Z 2)]
  /\ ~ ((1 + (0 + 3)) / inject_Z 2 == 1)%Q
  /\ ~ ((1 + (0 + 3)) / inject_Z 2 == (1 + (0 + 5)) / inject_Z 2)%Q.
Proof. repeat split; discriminate. Qed.

(** C5 (amended): on a table with [Open] and [Close] columns and for every
    period [N >= 1], [MA<N>] is NaN below index [N-1]; at every index
    [i >= N-1] it is [(Open[i] + Close[i-(N-1)] + ... + Close[i-1]) / N],
    the first eligible bar included (the opening value alone is used only
    at index 0, which is eligible only when [N = 1]). Nothing is stated
    about a constant series: the quotient of the sum is [v] only up to the
    rounding of the floating-point operations. *)
Theorem moving_average_formula (K : kernels) (df : dataframe) (source : string)
    (N : nat) (opens closes : list Q) :
  (1 <= N)%nat ->
  df_columns df !! "Open"%string = Some (map fin opens) ->
  df_columns df !! "Close"%string = Some (map fin closes) ->
  length opens = df_len df -> length closes = df_len df ->
  exists ma,
    _compute_moving_average K df source N = Ok ma
    /\ length ma = df_len df
    /\ (forall i, (i < N - 1)%nat -> (i < df_len df)%nat -> nth_error ma i = Some NaN)
    /\ (forall i, (N - 1 <= i < df_len df)%nat ->
          exists q, nth_error ma i = Some (fin q)
                    /\ (q == (nth i opens 0 + window_sum closes i N) / inject_Z (Z.of_nat N))%Q)
    /\ (N = 1%nat -> (0 < df_len df)%nat -> nth_error ma 0 = Some (fin (nth 0 opens 0%Q))).
Proof.
  intros HN HO HC Hlo Hlc. unfold _compute_moving_average.
  set (n := df_len df) in *.
  assert (Hnan : forall i q, ~ nth_error (repeat NaN n) i = Some (fin q)).
  { intros i q H. apply nth_error_In in H. apply repeat_spec in H. discriminate. }
  destruct (n <? N)%nat eqn:En.
  - apply Nat.ltb_lt in En. exists (repeat NaN n).
    split; [reflexivity|]. split; [apply repeat_length|].
    split; [intros; now apply nth_error_repeat_lt|].
    split; [intros i Hi; lia|]. intros; lia.
  - apply Nat.ltb_ge in En. unfold df_col. rewrite HO, HC. unfold ma_open_close.
    rewrite (proj2 (Nat.ltb_ge n N) En).
    replace (N =? 0)%nat with false by (symmetry; apply Nat.eqb_neq; lia). cbn [andb].
    eexists. split; [reflexivity|].
    split; [now rewrite length_map, length_seq|].
    assert (Hlow : forall i, (i < N - 1)%nat -> (i < n)%nat ->
              nth_error (map (fun i => if (i <? N - 1)%nat then NaN
                                       else ma_value N (map fin opens) (map fin closes) i)
                             (seq 0 n)) i = Some NaN).
    { intros i Hi Hin. rewrite nth_error_map_seq by exact Hin.
      now rewrite (proj2 (Nat.ltb_lt i (N - 1)) Hi). }
    assert (Hhigh : forall i, (N - 1 <= i < n)%nat ->
              exists q, nth_error (map (fun i => if (i <? N - 1)%nat then NaN
                                        else ma_value N (map fin opens) (map fin closes) i)
                                       (seq 0 n)) i = Some (fin q)
                        /\ (q == (nth i opens 0 + window_sum closes i N)
                                  / inject_Z (Z.of_nat N))%Q).
    { intros i [Hi Hin]. rewrite nth_error_map_seq by exact Hin.
      rewrite (proj2 (Nat.ltb_ge i (N - 1)) Hi).
      destruct (ma_value_formula N opens closes i) as [q [Hq Heq]]; try lia.
      exists q. now rewrite Hq. }
    split; [exact Hlow|]. split; [exact Hhigh|].
    intros -> Hpos. rewrite nth_error_map_seq by exact Hpos.
    cbn [Nat.sub Nat.ltb Nat.leb]. unfold ma_value. cbn [Nat.eqb].
    f_equal. apply nth_map_fin. lia.
Qed.

Lemma moving_average_formula_witness :
  exists ma,
    _compute_moving_average no_kernels (two_day_frame 3 3) "yfinance" 2 = Ok ma
    /\ nth_error ma 0 = Some NaN
    /\ exists q, nth_error ma 1 = Some (fin q) /\ (q == 2)%Q.
Proof.
  destruct (moving_average_formula no_kernels (two_day_frame 3 3) "yfinance" 2 [1; 1]%Q [3; 3]%Q)
    as [ma (H1 & _ & H3 & H4 & _)]; try reflexivity; [lia|].
  exists ma. split; [exact H1|]. split; [apply H3; cbn; lia|].
  destruct (H4 1%nat) as [q [Hq Heq]]; [cbn; lia|].
  exists q. split; [exact Hq|]. rewrite Heq. reflexivity.
Defined.

(** ** The exponential moving average *)

Lemma first_valid_idx_split (prices : list fnum) (k : nat) :
  first_valid_idx prices = Some k ->
  exists p rest, prices = repeat NaN k ++ fin p :: rest.
Proof.
  revert k. induction prices as [|x prices IH]; intros k H; [discriminate|].
  cbn in H. destruct x as [q|]; cbn in H.
  - inversion H; subst k. exists q, prices. reflexivity.
  - destruct (first_valid_idx prices) as [k'|]; [|discriminate].
    inversion H; subst k. destruct (IH k' eq_refl) as [p [rest ->]].
    exists p, rest. reflexivity.
Qed.

Lemma first_valid_idx_app (k : nat) (x : Q) (rest : list fnum) :
  first_valid_idx (repeat NaN k ++ fin x :: rest) = Some k.
Proof. induction k as [|k IH]; cbn; [reflexivity|now rewrite IH]. Qed.

Lemma first_valid_idx_repeat (n : nat) : first_valid_idx (repeat NaN n) = None.
Proof. induction n as [|n IH]; cbn; [reflexivity|now rewrite IH]. Qed.

Lemma valid_values_repeat (k : nat) : valid_values (repeat NaN k) = [].
Proof. induction k as [|k IH]; [reflexivity|exact IH]. Qed.

Lemma valid_values_fin (qs : list Q) : valid_values (map fin qs) = map fin qs.
Proof. induction qs as [|q qs IH]; cbn; [reflexivity|now f_equal]. Qed.

(** A block that loses nothing when its NaNs are filtered out is a block of
    numbers. *)
Lemma full_block_fin (block : list fnum) :
  (length block <= length (valid_values block))%nat -> exists qs, block = map fin qs.
Proof.
  unfold valid_values.
  induction block as [|x block IH]; intros H; [now exists []|].
  destruct x as [q|]; cbn [List.filter isnan negb length] in H.
  - destruct IH as [qs ->]; [lia|]. now exists (q :: qs).
  - pose proof (List.filter_length_le (fun p => negb (isnan p)) block) as Hle. lia.
Qed.

Lemma np_mean_fin (qs : list Q) :
  qs <> [] ->
  np_mean (map fin qs)
  = fin (fold_left Qplus qs 0 / inject_Z (Z.of_nat (length qs)))%Q.
Proof.
  intros Hne. destruct qs as [|q qs]; [contradiction|].
  unfold np_mean. cbn [map]. change (fin q :: map fin qs) with (map fin (q :: qs)).
  unfold np_sum. rewrite fold_fadd_fin, length_map.
  apply fdiv_fin. change 0%Q with (inject_Z 0). rewrite inject_Z_injective. cbn. lia.
Qed.

Lemma ema_alpha_fin (period : nat) :
  ema_alpha period = fin (2 / inject_Z (Z.of_nat period + 1))%Q.
Proof.
  unfold ema_alpha, fofZ. apply fdiv_fin.
  change 0%Q with (inject_Z 0). rewrite inject_Z_injective. lia.
Qed.

(** The shape of a seeded result: leading NaNs, a block of [period]
    numbers, and the rest; the seed sits on the last index of the block. *)
Lemma compute_ema_shape (prices : list fnum) (period : nat) :
  (1 <= period)%nat ->
  _compute_ema prices period = repeat NaN (length prices)
  \/ exists k qs rest,
       prices = repeat NaN k ++ map fin qs ++ rest
       /\ length qs = period
       /\ _compute_ema prices period
          = repeat NaN (k + period - 1)
              ++ np_mean (map fin qs)
              :: ema_loop (ema_alpha period) (np_mean (map fin qs)) rest.
Proof.
  intros Hp. unfold _compute_ema.
  destruct (first_valid_idx prices) as [k|] eqn:Ek; [|now left].
  destruct (length prices - k <? period)%nat eqn:El; [now left|].
  apply Nat.ltb_ge in El.
  destruct (length (List.filter _ (py_slice prices k (k + period))) <? period)%nat eqn:Eb;
    [now left|].
  apply Nat.ltb_ge in Eb.
  destruct period as [|period']; [lia|]. set (period := S period') in *.
  right.
  destruct (first_valid_idx_split prices k Ek) as [p [tl Hprices]].
  assert (Hk : (k <= length prices)%nat).
  { rewrite Hprices, length_app, repeat_length. lia. }
  assert (Hblock : length (py_slice prices k (k + period)) = period).
  { unfold py_slice. rewrite length_firstn, length_skipn. lia. }
  destruct (full_block_fin (py_slice prices k (k + period))) as [qs Hqs].
  { unfold valid_values. lia. }
  exists k, qs, (skipn (k + period) prices).
  assert (Hlen : length qs = period).
  { rewrite <- Hblock, Hqs. now rewrite length_map. }
  split; [|split; [exact Hlen|]].
  - rewrite <- Hqs. unfold py_slice.
    replace (k + period - k)%nat with period by lia.
    rewrite <- (firstn_skipn k prices) at 1.
    rewrite <- (firstn_skipn period (skipn k prices)) at 1.
    rewrite skipn_skipn. replace (period + k)%nat with (k + period)%nat by lia.
    f_equal.
    rewrite Hprices. rewrite firstn_app, firstn_all2 by (rewrite repeat_length; lia).
    rewrite repeat_length, Nat.sub_diag. cbn [firstn]. now rewrite app_nil_r.
  - fold valid_values. rewrite Hqs, valid_values_fin.
    replace (k + period - 1 + 1)%nat with (k + period)%nat by lia. reflexivity.
Qed.

(** The loop after the seed, index by index. *)
Lemma ema_loop_nth (a e : Q) (rest : list fnum) (j : nat) :
  (j < length rest)%nat ->
  exists prev,
    match j with
    | O => prev = e
    | S j' => nth_error (ema_loop (fin a) (fin e) rest) j' = Some (fin prev)
    end
    /\ match nth_error rest j with
       | Some (Some p) =>
           nth_error (ema_loop (fin a) (fin e) rest) j = Some (fin ((p - prev) * a + prev)%Q)
       | _ => nth_error (ema_loop (fin a) (fin e) rest) j = Some (fin prev)
       end.
Proof.
  revert e j. induction rest as [|p rest IH]; intros e j Hj; [cbn in Hj; lia|].
  cbn [ema_loop].
  set (cur := if isnan p then fin e
              else if isnan (fin e) then NaN
              else fadd (fmul (fsub p (fin e)) (fin a)) (fin e)).
  assert (Hcur : exists c, cur = fin c
                           /\ match p with
                              | Some x => c = ((x - e) * a + e)%Q
                              | None => c = e
                              end).
  { subst cur. destruct p as [x|]; cbn; eauto. }
  destruct Hcur as [c [Hc Hcp]]. rewrite Hc.
  destruct j as [|j].
  - exists e. split; [reflexivity|]. cbn [nth_error].
    destruct p as [x|]; now subst c.
  - destruct (IH c j) as [prev [Hprev Hstep]]; [cbn in Hj; lia|].
    exists prev. split.
    + destruct j as [|j']; cbn [nth_error]; [now subst prev|exact Hprev].
    + cbn [nth_error]. exact Hstep.
Qed.

(** Whenever [_compute_ema] seeds the average ([s] is the first index with
    a value), the seed is the simple mean of the first [period] valid
    values of the input and sits on the index of the last of them; from
    there on every index has a value: a NaN input repeats the previous
    value, a number [p] gives [(p - prev) * (2 / (period + 1)) + prev]. *)
Lemma ema_after_seed (prices : list fnum) (period : nat) (s : nat) :
  (1 <= period)%nat ->
  first_valid_idx (_compute_ema prices period) = Some s ->
  let ema := _compute_ema prices period in
  let seed_values := firstn period (valid_values prices) in
  length ema = length prices
  /\ length seed_values = period
  /\ nth_error ema s = Some (np_mean seed_values)
  /\ valid_values (firstn (S s) prices) = seed_values
  /\ (exists p, nth_error prices s = Some (fin p))
  /\ (forall i, (s < i < length prices)%nat ->
        exists prev,
          nth_error ema (i - 1) = Some (fin prev)
          /\ match nth_error prices i with
             | Some (Some p) =>
                 nth_error ema i
                 = Some (fin ((p - prev) * (2 / inject_Z (Z.of_nat period + 1)) + prev)%Q)
             | _ => nth_error ema i = Some (fin prev)
             end).
Proof.
  intros Hp Hs ema seed_values. subst ema seed_values.
  destruct (compute_ema_shape prices period Hp) as [Hnan|(k & qs & rest & Hprices & Hlen & Hema)].
  { rewrite Hnan, first_valid_idx_repeat in Hs. discriminate. }
  assert (Hqs : qs <> []) by (intros ->; cbn in Hlen; lia).
  rewrite Hema in *. rewrite (np_mean_fin qs Hqs) in *.
  set (m := (fold_left Qplus qs 0 / inject_Z (Z.of_nat (length qs)))%Q) in *.
  rewrite first_valid_idx_app in Hs. inversion Hs; subst s. clear Hs.
  assert (Hvalid : valid_values prices = map fin qs ++ valid_values rest).
  { rewrite Hprices. unfold valid_values. rewrite !List.filter_app.
    fold valid_values. now rewrite valid_values_repeat, valid_values_fin. }
  assert (Hseed : firstn period (valid_values prices) = map fin qs).
  { rewrite Hvalid, firstn_app, length_map, Hlen, Nat.sub_diag. cbn [firstn].
    rewrite app_nil_r. apply firstn_all2. rewrite length_map. lia. }
  assert (Hn : length prices = (k + period + length rest)%nat).
  { rewrite Hprices, !length_app, repeat_length, length_map. lia. }
  assert (Hloop_len : forall a e l, length (ema_loop a e l) = length l).
  { intros a e l. revert e. induction l as [|x l IH]; intros e; cbn; [reflexivity|].
    now rewrite IH. }
  rewrite Hseed, (np_mean_fin qs Hqs). fold m.
  split; [rewrite length_app, repeat_length; cbn [length]; rewrite Hloop_len; lia|].
  split; [rewrite length_map; exact Hlen|].
  split.
  { rewrite nth_error_app2 by (rewrite repeat_length; lia).
    rewrite repeat_length, Nat.sub_diag. reflexivity. }
  split.
  { replace (S (k + period - 1)) with (k + period)%nat by lia.
    rewrite Hprices, firstn_app, repeat_length.
    rewrite firstn_all2 by (rewrite repeat_length; lia).
    replace (k + period - k)%nat with period by lia.
    rewrite firstn_app, length_map, Hlen, Nat.sub_diag. cbn [firstn]. rewrite app_nil_r.
    rewrite firstn_all2 by (rewrite length_map; lia).
    unfold valid_values. rewrite List.filter_app. fold valid_values.
    now rewrite valid_values_repeat, valid_values_fin. }
  split.
  { exists (nth (period - 1) qs 0%Q). rewrite Hprices.
    rewrite nth_error_app2 by (rewrite repeat_length; lia). rewrite repeat_length.
    rewrite nth_error_app1 by (rewrite length_map; lia).
    replace (k + period - 1 - k)%nat with (period - 1)%nat by lia.
    rewrite nth_error_map.
    rewrite (nth_error_nth' qs 0%Q) by lia. reflexivity. }
  intros i [Hi1 Hi2].
  rewrite ema_alpha_fin.
  set (a := (2 / inject_Z (Z.of_nat period + 1))%Q).
  destruct (ema_loop_nth a m rest (i - (k + period))) as [prev [Hprev Hstep]]; [lia|].
  exists prev.
  assert (Hpi : nth_error prices i = nth_error rest (i - (k + period))).
  { rewrite Hprices, app_assoc. rewrite nth_error_app2
      by (rewrite length_app, repeat_length, length_map; lia).
    now rewrite length_app, repeat_length, length_map, Hlen. }
  assert (Hei : forall j, (k + period <= j)%nat ->
            nth_error (repeat NaN (k + period - 1) ++ fin m :: ema_loop (fin a) (fin m) rest) j
            = nth_error (ema_loop (fin a) (fin m) rest) (j - (k + period))).
  { intros j Hj. rewrite nth_error_app2 by (rewrite repeat_length; lia).
    rewrite repeat_length.
    replace (j - (k + period - 1))%nat with (S (j - (k + period))) by lia. reflexivity. }
  split.
  - destruct (i - (k + period))%nat as [|j'] eqn:Ej.
    + subst prev. replace (i - 1)%nat with (k + period - 1)%nat by lia.
      rewrite nth_error_app2 by (rewrite repeat_length; lia).
      rewrite repeat_length, Nat.sub_diag. reflexivity.
    + rewrite Hei by lia. replace (i - 1 - (k + period))%nat with j' by lia. exact Hprev.
  - rewrite Hpi, Hei by lia. exact Hstep.
Qed.

(** The code seeds the average when the [period] entries that start at the
    first valid value are all numbers. *)
Lemma compute_ema_seeds (k : nat) (qs : list Q) (rest : list fnum) (period : nat) :
  (1 <= period)%nat -> length qs = period ->
  _compute_ema (repeat NaN k ++ map fin qs ++ rest) period
  = repeat NaN (k + period - 1)
      ++ np_mean (map fin qs)
      :: ema_loop (ema_alpha period) (np_mean (map fin qs)) rest.
Proof.
  intros Hp Hlen.
  set (prices := repeat NaN k ++ map fin qs ++ rest).
  assert (Hn : length prices = (k + period + length rest)%nat).
  { unfold prices. rewrite !length_app, repeat_length, length_map. lia. }
  assert (Hfirst : first_valid_idx prices = Some k).
  { unfold prices. destruct qs as [|q qs]; [cbn in Hlen; lia|].
    cbn [map app]. apply first_valid_idx_app. }
  assert (Hblock : py_slice prices k (k + period) = map fin qs).
  { unfold py_slice, prices. replace (k + period - k)%nat with period by lia.
    rewrite skipn_app, repeat_length, Nat.sub_diag.
    rewrite skipn_all2 by (rewrite repeat_length; lia). cbn [skipn app].
    change (skipn 0 (map fin qs ++ rest)) with (map fin qs ++ rest).
    rewrite firstn_app, length_map, Hlen, Nat.sub_diag. cbn [firstn].
    rewrite app_nil_r. apply firstn_all2. rewrite length_map. lia. }
  assert (Hrest : skipn (k + period - 1 + 1) prices = rest).
  { unfold prices. replace (k + period - 1 + 1)%nat with (k + period)%nat by lia.
    rewrite app_assoc. rewrite skipn_app.
    rewrite skipn_all2 by (rewrite length_app, repeat_length, length_map; lia).
    rewrite length_app, repeat_length, length_map, Hlen, Nat.sub_diag. reflexivity. }
  unfold _compute_ema. rewrite Hfirst, Hblock.
  replace (length prices - k <? period)%nat with false
    by (symmetry; apply Nat.ltb_ge; lia).
  fold (valid_values (map fin qs)). rewrite valid_values_fin, length_map, Hlen.
  rewrite Nat.ltb_irrefl.
  destruct period as [|p]; [lia|]. now rewrite Hrest.
Qed.

(** C6, the claim as stated fails: the first two valid values of this
    series are 1 and 3, their mean is 2 and the second of them sits at
    index 2; but the window of two entries that starts at the first valid
    value holds a gap, and [_compute_ema] returns NaN at every index. *)
Lemma ema_gap_in_seed_window_counterexample :
  firstn 2 (valid_values [fin 1; NaN; fin 3; fin 4; fin 5]) = [fin 1; fin 3]
  /\ (exists seed, np_mean [fin 1; fin 3] = fin seed /\ (seed == 2)%Q)
  /\ nth_error [fin 1; NaN; fin 3; fin 4; fin 5] 2 = Some (fin 3)
  /\ _compute_ema [fin 1; NaN; fin 3; fin 4; fin 5] 2 = [NaN; NaN; NaN; NaN; NaN]
  /\ nth_error (_compute_ema [fin 1; NaN; fin 3; fin 4; fin 5] 2) 2
     <> Some (np_mean [fin 1; fin 3]).
Proof.
  split; [reflexivity|]. split; [eexists; split; reflexivity|].
  split; [reflexivity|]. split; [reflexivity|]. discriminate.
Qed.

(** C6 (amended): for a period of at least 1, [_compute_ema] seeds the
    average exactly when the [period] entries that start at the first valid
    value are all valid (no gap inside that window, and enough entries);
    otherwise every entry of the result is NaN. When it seeds, the seed is
    the simple mean of those entries, which are the first [period] valid
    values, and sits on the last index of the window; from there on every
    index has a value: a NaN input repeats the previous value, a number [p]
    gives [(p - prev) * (2 / (period + 1)) + prev]. *)
Theorem ema_rule (prices : list fnum) (period : nat) :
  (1 <= period)%nat ->
  let ema := _compute_ema prices period in
  let seed_values := firstn period (valid_values prices) in
  ((exists s, first_valid_idx ema = Some s)
   <-> exists k qs rest, prices = repeat NaN k ++ map fin qs ++ rest /\ length qs = period)
  /\ (first_valid_idx ema = None -> ema = repeat NaN (length prices))
  /\ (forall k qs rest,
        prices = repeat NaN k ++ map fin qs ++ rest -> length qs = period ->
        first_valid_idx ema = Some (k + period - 1)%nat
        /\ seed_values = map fin qs
        /\ exists seed, np_mean (map fin qs) = fin seed
                        /\ nth_error ema (k + period - 1) = Some (fin seed))
  /\ (forall s, first_valid_idx ema = Some s ->
        length ema = length prices
        /\ length seed_values = period
        /\ nth_error ema s = Some (np_mean seed_values)
        /\ valid_values (firstn (S s) prices) = seed_values
        /\ (exists p, nth_error prices s = Some (fin p))
        /\ (forall i, (s < i < length prices)%nat ->
              exists prev,
                nth_error ema (i - 1) = Some (fin prev)
                /\ match nth_error prices i with
                   | Some (Some p) =>
                       nth_error ema i
                       = Some (fin ((p - prev) * (2 / inject_Z (Z.of_nat period + 1)) + prev)%Q)
                   | _ => nth_error ema i = Some (fin prev)
                   end)).
Proof.
  intros Hp ema seed_values.
  assert (Hseeds : forall k qs rest,
            prices = repeat NaN k ++ map fin qs ++ rest -> length qs = period ->
            first_valid_idx ema = Some (k + period - 1)%nat
            /\ seed_values = map fin qs
            /\ exists seed, np_mean (map fin qs) = fin seed
                            /\ nth_error ema (k + period - 1) = Some (fin seed)).
  { intros k qs rest Hprices Hlen. subst ema seed_values.
    assert (Hqs : qs <> []) by (intros ->; cbn in Hlen; lia).
    rewrite Hprices, (compute_ema_seeds k qs rest period Hp Hlen).
    rewrite (np_mean_fin qs Hqs).
    split; [apply first_valid_idx_app|]. split.
    - unfold valid_values. rewrite !List.filter_app. fold valid_values.
      rewrite valid_values_repeat, valid_values_fin. cbn [app].
      rewrite firstn_app, length_map, Hlen, Nat.sub_diag. cbn [firstn].
      rewrite app_nil_r. apply firstn_all2. rewrite length_map. lia.
    - eexists. split; [reflexivity|].
      rewrite nth_error_app2 by (rewrite repeat_length; lia).
      now rewrite repeat_length, Nat.sub_diag. }
  split; [|split; [|split; [exact Hseeds|]]].
  - split.
    + intros [s Hs]. subst ema.
      destruct (compute_ema_shape prices period Hp)
        as [Hnan|(k & qs & rest & Hprices & Hlen & _)].
      * rewrite Hnan, first_valid_idx_repeat in Hs. discriminate.
      * now exists k, qs, rest.
    + intros (k & qs & rest & Hprices & Hlen).
      exists (k + period - 1)%nat. apply (Hseeds k qs rest Hprices Hlen).
  - intros Hnone. subst ema.
    destruct (compute_ema_shape prices period Hp)
      as [Hnan|(k & qs & rest & Hprices & Hlen & _)]; [exact Hnan|].
    destruct (Hseeds k qs rest Hprices Hlen) as [Hs _]. congruence.
  - intros s Hs. exact (ema_after_seed prices period s Hp Hs).
Qed.

Lemma ema_rule_witness :
  first_valid_idx (_compute_ema [NaN; fin 1; fin 3; NaN; fin 5] 2) = Some 2%nat
  /\ nth_error (_compute_ema [NaN; fin 1; fin 3; NaN; fin 5] 2) 2 = Some (np_mean [fin 1; fin 3])
  /\ exists prev, nth_error (_compute_ema [NaN; fin 1; fin 3; NaN; fin 5] 2) 2 = Some (fin prev)
                  /\ nth_error (_compute_ema [NaN; fin 1; fin 3; NaN; fin 5] 2) 3 = Some (fin prev).
Proof.
  destruct (ema_rule [NaN; fin 1; fin 3; NaN; fin 5] 2) as (_ & _ & Hseeds & Hrule); [lia|].
  destruct (Hseeds 1%nat [1; 3]%Q [NaN; fin 5] eq_refl eq_refl) as (Hs & _).
  split; [exact Hs|].
  destruct (Hrule 2%nat Hs) as (_ & _ & H3 & _ & _ & H6).
  split; [exact H3|].
  destruct (H6 3%nat) as [prev [Hprev Hstep]]; [cbn; lia|].
  exists prev. split; [exact Hprev|exact Hstep].
Defined.

(** Rising prices saturate the RSI at 100, falling prices pin it to 0. *)
Example rsi_rising :
  rsi_of_prices 2 [fin 1; fin 2; fin 3; fin 4] = [NaN; NaN; fin 100; fin 100].
Proof. reflexivity. Qed.

Example rsi_falling :
  exists a b, rsi_of_prices 2 [fin 4; fin 3; fin 2; fin 1] = [NaN; NaN; fin a; fin b]
              /\ (a == 0)%Q /\ (b == 0)%Q.
Proof. eexists _, _. split; [reflexivity|]. split; reflexivity. Qed.

End IndicatorFacts.

(** ** The validator *)

Module ValidatorFacts.
Import DataValidator Examples.

Section Facts.

Variable nyse_open_dates : date -> date -> list date.
Variable parses_as_number : string -> bool.

Local Abbreviation validate := (DataValidator.validate nyse_open_dates parses_as_number).
Local Abbreviation expand := (DataValidator.expand nyse_open_dates).
Local Abbreviation fully_numeric := (DataValidator.fully_numeric parses_as_number).

Lemma dates_match_eq (actual expected : list date) :
  dates_match actual expected = true <-> actual = expected.
Proof.
  unfold dates_match. rewrite andb_true_iff, Nat.eqb_eq.
  revert expected. induction actual as [|a actual IH]; intros [|e expected]; cbn.
  - tauto.
  - split; [intros [H _]; discriminate|discriminate].
  - split; [intros [H _]; discriminate|discriminate].
  - rewrite andb_true_iff, date_eqb_eq. split.
    + intros [Hlen [-> Hall]]. f_equal. apply IH. split; [lia|exact Hall].
    + intros H. inversion H; subst. split; [reflexivity|]. split; [reflexivity|].
      apply (IH expected). reflexivity.
Qed.

Lemma to_numeric_ok_no_string (col : list cell) :
  existsb is_string col = false -> to_numeric_ok parses_as_number col = true.
Proof.
  induction col as [|c col IH]; [reflexivity|].
  destruct c; cbn; auto. discriminate.
Qed.

Lemma column_quality_numeric (col : list cell) :
  column_quality parses_as_number col = forallb (cell_numeric parses_as_number) col.
Proof.
  unfold column_quality, is_numeric_dtype. rewrite negb_involutive.
  induction col as [|c col IH]; [reflexivity|].
  cbn [existsb forallb to_numeric_ok].
  destruct c as [q| |s]; cbn [is_null is_blank is_string cell_numeric orb andb].
  - exact IH.
  - reflexivity.
  - destruct (String.eqb s "") eqn:Es; cbn [negb andb orb].
    + now rewrite orb_true_r.
    + fold (to_numeric_ok parses_as_number col).
      destruct (existsb is_null col || existsb is_blank col) eqn:Eb.
      * rewrite <- IH. now rewrite andb_false_r.
      * destruct (existsb is_string col) eqn:Estr.
        -- now rewrite <- IH.
        -- rewrite <- IH. now rewrite (to_numeric_ok_no_string col Estr).
Qed.

Lemma data_quality_numeric (t : table) :
  _validate_data_quality parses_as_number t = fully_numeric t.
Proof.
  unfold _validate_data_quality, DataValidator.fully_numeric.
  induction (t_columns t) as [|c cols IH]; [reflexivity|].
  cbn [forallb]. now rewrite IH, column_quality_numeric.
Qed.

(** C8 (amended): the validator accepts a table exactly when the declared
    frequency is daily or monthly, the table's first date is the declared
    start and its last date the declared end, the date sequence equals the
    calendar expansion of the declared range, and every cell of every
    non-date column is a numeric value (not null, not blank, not a
    non-numeric string). *)
Theorem validate_iff (name : string) (declared_start declared_end : date)
    (frequency : string) (t : table) :
  validate name declared_start declared_end frequency t = true
  <-> (frequency = "daily"%string \/ frequency = "monthly"%string)
      /\ head (t_date t) = Some declared_start
      /\ last (t_date t) = Some declared_end
      /\ t_date t = expand declared_start declared_end frequency
      /\ fully_numeric t = true.
Proof.
  unfold DataValidator.validate, _validate_single_file, DataValidator.expand.
  cbn [ff_start_date ff_end_date ff_frequency].
  unfold _validate_daily_data, _validate_monthly_data.
  rewrite !data_quality_numeric.
  destruct (py_get (t_date t) 0) as [d0|e0] eqn:E0.
  2:{ split; [discriminate|]. intros (_ & Hh & _).
      apply py_get_first in Hh. congruence. }
  destruct (py_get (t_date t) (-1)) as [d1|e1] eqn:E1.
  2:{ split; [discriminate|]. intros (_ & _ & Hl & _).
      apply py_get_last in Hl. congruence. }
  apply py_get_first in E0. apply py_get_last in E1. rewrite E0, E1.
  destruct (date_eqb d0 declared_start) eqn:Ed0; cbn [negb].
  2:{ split; [discriminate|]. intros (_ & Hh & _). inversion Hh; subst.
      rewrite date_eqb_refl in Ed0. discriminate. }
  destruct (date_eqb d1 declared_end) eqn:Ed1; cbn [negb].
  2:{ split; [discriminate|]. intros (_ & _ & Hl & _). inversion Hl; subst.
      rewrite date_eqb_refl in Ed1. discriminate. }
  apply date_eqb_eq in Ed0, Ed1. subst d0 d1.
  destruct (String.eqb frequency "daily") eqn:Ef1.
  { apply String.eqb_eq in Ef1.
    destruct (dates_match (t_date t) _) eqn:Em.
    - apply dates_match_eq in Em. split; [intros H; auto 6|]. now intros (_ & _ & _ & _ & H).
    - split; [discriminate|]. intros (_ & _ & _ & H & _). apply dates_match_eq in H. congruence. }
  destruct (String.eqb frequency "monthly") eqn:Ef2.
  { apply String.eqb_eq in Ef2.
    destruct (dates_match (t_date t) _) eqn:Em.
    - apply dates_match_eq in Em. split; [intros H; auto 6|]. now intros (_ & _ & _ & _ & H).
    - split; [discriminate|]. intros (_ & _ & _ & H & _). apply dates_match_eq in H. congruence. }
  split; [discriminate|]. intros ([H|H] & _); subst; discriminate.
Qed.

End Facts.

(** C8, the claim as stated fails: the dates of this table are exactly the
    expansion of the declared monthly range 2020.01.15 - 2020.03.01 and its
    only column is fully numeric, yet the validator rejects it, because the
    first date is not the declared start. *)
Lemma validate_declared_start_counterexample :
  DataValidator.t_date monthly_table
    = DataValidator.expand no_calendar (mkDate 2020 1 15) (mkDate 2020 3 1) "monthly"
  /\ DataValidator.fully_numeric no_parse monthly_table = true
  /\ DataValidator.validate no_calendar no_parse "CPI" (mkDate 2020 1 15) (mkDate 2020 3 1)
        "monthly" monthly_table = false.
Proof. repeat split. Qed.

End ValidatorFacts.

(** ** Normalisation (engine) *)

Module EngineFacts.
Import BacktestEngine Examples.

Lemma normalize_nth (v : fnum) (rest : list fnum) (i : nat) (x : fnum) :
  nth_error (v :: rest) i = Some x ->
  nth_error (_normalize_to_percents (v :: rest)) i = Some (fmul (fdiv x v) (fin 100)).
Proof.
  intros H. unfold _normalize_to_percents.
  rewrite nth_error_map, H. reflexivity.
Qed.

(** C9, the claim as stated fails: a non-empty series that starts at zero
    is normalised to non-finite entries, so its first element is not 100. *)
Lemma normalize_zero_start_counterexample :
  let series := [fin 0; fin 5] in
  series <> []
  /\ _normalize_to_percents series = [NaN; NaN]
  /\ ~ (exists q : Q, head (_normalize_to_percents series) = Some (fin q) /\ (q == 100)%Q).
Proof.
  cbv zeta. split; [discriminate|]. split; [reflexivity|].
  intros [q [H _]]. discriminate H.
Qed.

(** C9 (amended): for every series whose first value [v] is a non-zero
    number, normalisation maps each number [x] to [x / v * 100] (and a NaN
    to NaN), so the first element is 100; the normalised series of a
    full-period result and of an extracted sub-period result are this
    normalisation of their own portfolio values. *)
Theorem normalize_starts_at_100 (v : Q) (rest : list fnum) :
  ~ (v == 0)%Q ->
  let series := fin v :: rest in
  (forall i x, nth_error series i = Some (fin x) ->
     exists q, nth_error (_normalize_to_percents series) i = Some (fin q)
               /\ (q == x / v * 100)%Q)
  /\ (forall i, nth_error series i = Some NaN ->
        nth_error (_normalize_to_percents series) i = Some NaN)
  /\ (exists q, head (_normalize_to_percents series) = Some (fin q) /\ (q == 100)%Q)
  /\ (forall (World Kwargs : Type) (sm : @StrategyManager World Kwargs) name period w kw r logs w',
        _execute_single_backtest sm name period w kw = (Ok r, logs, w') ->
        res_normalized_values r = _normalize_to_percents (res_portfolio_values r))
  /\ (forall full period name r,
        _extract_period_from_full_result full period name = Ok r ->
        res_normalized_values r = _normalize_to_percents (res_portfolio_values r)).
Proof.
  intros Hv series. repeat split.
  - intros i x H. exists (x / v * 100)%Q. split; [|reflexivity].
    subst series. rewrite (normalize_nth _ _ _ _ H), (fdiv_fin _ _ Hv). reflexivity.
  - intros i H. subst series. rewrite (normalize_nth _ _ _ _ H). reflexivity.
  - exists (v / v * 100)%Q. split.
    + subst series. cbn [_normalize_to_percents map head].
      rewrite (fdiv_fin _ _ Hv). reflexivity.
    + field. exact Hv.
  - intros World Kwargs sm name period w kw r logs w' H.
    unfold _execute_single_backtest in H.
    destruct (execute_strategy _ _ _ _ _ _) as [[[[[d p] l]|e] lg] w0]; inversion H; reflexivity.
  - intros full period name r H. unfold _extract_period_from_full_result in H.
    destruct (scan_indices _ _ _) as [[s|] [e|]]; inversion H; reflexivity.
Qed.

Lemma normalize_starts_at_100_witness :
  ~ (2 == 0)%Q
  /\ exists q, head (_normalize_to_percents [fin 2; fin 3]) = Some (fin q) /\ (q == 100)%Q.
Proof.
  split; [discriminate|].
  apply (normalize_starts_at_100 2 [fin 3]). discriminate.
Defined.

(** ** Error isolation in the batch loop *)

Section BatchFacts.

Context {World Kwargs : Type}.
Variable no_kwargs : Kwargs.
Variable sm : @StrategyManager World Kwargs.
Variable strategy_params : gmap string Kwargs.
Variable full_period : BacktestPeriod.
Variable sub_periods : list BacktestPeriod.

Local Abbreviation step := (run_strategy no_kwargs sm strategy_params full_period sub_periods).
Local Abbreviation kwargs_of := (BacktestEngine.kwargs_of no_kwargs strategy_params).

Lemma extract_fold_log (full : BacktestResult) (name : string)
    (periods : list BacktestPeriod) (res : gmap string BacktestResult)
    (logs : list (@log_record)) :
  exists extra,
    snd (fold_left (extract_step full name) periods (res, logs)) = logs ++ extra.
Proof.
  revert res logs. induction periods as [|p ps IH]; intros res logs.
  - exists []. cbn. now rewrite app_nil_r.
  - cbn [fold_left]. unfold extract_step at 2.
    destruct (_extract_period_from_full_result full p name) as [r|e].
    + apply IH.
    + destruct (IH res (logs ++ [ErrorExtracting (period_name p) name e])) as [extra H].
      exists ([ErrorExtracting (period_name p) name e] ++ extra).
      rewrite H. now rewrite <- app_assoc.
Qed.

Lemma run_strategy_failure (b : batch) (name : string) (e : exn)
    (logs : list log_record) (w' : World) :
  _execute_single_backtest sm name full_period (world b) (kwargs_of name) = (Err e, logs, w') ->
  step b name
  = {| all_results := all_results b;
       error_log := error_log b ++ logs ++ [ErrorFullPeriod name e];
       world := w' |}.
Proof.
  intros H. unfold run_strategy. now rewrite H.
Qed.

Lemma run_strategy_log (b : batch) (name : string) :
  exists extra, error_log (step b name) = error_log b ++ extra.
Proof.
  unfold run_strategy.
  destruct (_execute_single_backtest sm name full_period (world b) (kwargs_of name))
    as [[[r|e] logs] w'].
  - destruct (extract_fold_log r name sub_periods
                (<["Full Period" := r]> ∅) (error_log b ++ logs)) as [extra H].
    destruct (fold_left _ _ _) as [sr lg]. cbn in *. subst lg.
    exists (logs ++ extra). now rewrite app_assoc.
  - cbn. eauto.
Qed.

Lemma run_strategy_other (b : batch) (name other : string) :
  name <> other -> all_results (step b name) !! other = all_results b !! other.
Proof.
  intros Hne. unfold run_strategy.
  destruct (_execute_single_backtest sm name full_period (world b) (kwargs_of name))
    as [[[r|e] logs] w'].
  - destruct (fold_left _ _ _) as [sr lg]. cbn. now rewrite lookup_insert_ne.
  - reflexivity.
Qed.

Lemma fold_log (names : list string) (b : batch) :
  exists extra, error_log (fold_left step names b) = error_log b ++ extra.
Proof.
  revert b. induction names as [|n ns IH]; intros b.
  - exists []. cbn. now rewrite app_nil_r.
  - cbn [fold_left]. destruct (IH (step b n)) as [x Hx].
    destruct (run_strategy_log b n) as [y Hy].
    exists (y ++ x). rewrite Hx, Hy. now rewrite app_assoc.
Qed.

Lemma fold_other (names : list string) (b : batch) (other : string) :
  ~ In other names ->
  all_results (fold_left step names b) !! other = all_results b !! other.
Proof.
  revert b. induction names as [|n ns IH]; intros b Hnot; [reflexivity|].
  cbn [fold_left]. rewrite IH.
  - apply run_strategy_other. intros ->. apply Hnot. now left.
  - intros Hin. apply Hnot. now right.
Qed.

End BatchFacts.

(** C4, the claim as stated fails: for a strategy whose full-period run
    raises, no result (empty or not) is recorded: its name is not a key of
    [all_results]. The second strategy of the batch is still run and
    recorded. *)
Lemma failed_strategy_not_recorded_counterexample :
  exists b,
    run_full_backtest tt (Ok two_strategies) (mkDate 2020 1 2) (mkDate 2020 1 3) [] ∅ tt = Ok b
    /\ all_results b !! "lookback"%string = None
    /\ all_results b !! "lookback"%string <> Some ∅
    /\ is_Some (all_results b !! "steady"%string).
Proof.
  eexists. split; [reflexivity|]. vm_compute. repeat split; [discriminate|eauto].
Qed.

(** C4 (amended): whenever the strategies load, [run_full_backtest] returns
    a batch; for every strategy whose full-period run raises, the loop logs
    the error, leaves [all_results] as it was (nothing is recorded under
    that name, so the strategy's looked-up result set is empty) and goes on
    to run the remaining strategies from the world the failed run left. *)
Theorem batch_error_isolation
    {World Kwargs : Type} (no_kwargs : Kwargs) (sm : @StrategyManager World Kwargs)
    (strategy_params : gmap string Kwargs) (full_start full_end : date)
    (test_periods : list BacktestPeriod) (w : World)
    (before after : list string) (name : string) (e : exn)
    (logs : list log_record) (w' : World) :
  let full_period := mkPeriod "Full Period" full_start full_end in
  let step := run_strategy no_kwargs sm strategy_params full_period test_periods in
  let b0 := fold_left step before {| all_results := ∅; error_log := []; world := w |} in
  all_strategy_names sm = before ++ name :: after ->
  NoDup (all_strategy_names sm) ->
  _execute_single_backtest sm name full_period (world b0)
    (kwargs_of no_kwargs strategy_params name) = (Err e, logs, w') ->
  exists b,
    run_full_backtest no_kwargs (Ok sm) full_start full_end test_periods strategy_params w = Ok b
    /\ b = fold_left step after
             {| all_results := all_results b0;
                error_log := error_log b0 ++ logs ++ [ErrorFullPeriod name e];
                world := w' |}
    /\ In (ErrorFullPeriod name e) (error_log b)
    /\ all_results b !! name = None
    /\ get_results_for_strategy b name = ∅.
Proof.
  intros full_period step b0 Hnames Hnodup Hfail.
  eexists. split; [reflexivity|].
  assert (Hstep : step b0 name
                  = {| all_results := all_results b0;
                       error_log := error_log b0 ++ logs ++ [ErrorFullPeriod name e];
                       world := w' |})
    by (apply run_strategy_failure; exact Hfail).
  rewrite Hnames in Hnodup. apply NoDup_ListNoDup in Hnodup.
  apply List.NoDup_remove_2 in Hnodup.
  assert (Hb : fold_left step (all_strategy_names sm)
                 {| all_results := ∅; error_log := []; world := w |}
               = fold_left step after (step b0 name)).
  { rewrite Hnames, fold_left_app. reflexivity. }
  assert (Hnone : all_results (fold_left step after (step b0 name)) !! name = None).
  { unfold step. rewrite fold_other.
    - fold step. rewrite Hstep. cbn. unfold b0, step. rewrite fold_other.
      + apply lookup_empty.
      + intros Hin. apply Hnodup. apply in_or_app. now left.
    - intros Hin. apply Hnodup. apply in_or_app. now right. }
  cbn [bind]. fold full_period. fold step. rewrite Hb.
  split; [now rewrite Hstep|]. split.
  - destruct (fold_log no_kwargs sm strategy_params full_period test_periods
                after (step b0 name)) as [extra Hx].
    fold step in Hx. rewrite Hx, Hstep. cbn.
    apply in_or_app. left. apply in_or_app. right. apply in_or_app. right. now left.
  - split; [exact Hnone|]. unfold get_results_for_strategy. now rewrite Hnone.
Qed.

Lemma batch_error_isolation_witness :
  exists b,
    run_full_backtest tt (Ok two_strategies) (mkDate 2020 1 2) (mkDate 2020 1 3) [] ∅ tt = Ok b
    /\ In (ErrorFullPeriod "lookback" (LookbackExceeded (-3))) (error_log b)
    /\ get_results_for_strategy b "lookback" = ∅.
Proof.
  destruct (batch_error_isolation tt two_strategies ∅ (mkDate 2020 1 2) (mkDate 2020 1 3)
              [] tt [] ["steady"%string] "lookback"%string (LookbackExceeded (-3))
              [ErrorExecuting "lookback" (LookbackExceeded (-3))] tt)
    as [b [H1 [_ [H3 [_ H5]]]]].
  - reflexivity.
  - apply (bool_decide_unpack _). vm_compute. exact I.
  - reflexivity.
  - exists b. auto.
Defined.

End EngineFacts.

(** ** The data manager *)

Module ManagerFacts.
Import DataManager Terms Examples.

(** *** Binary search *)

Lemma bsearch_loop_sound (fuel : nat) (l : list date) (t : date) :
  forall left right r,
  0 <= left -> right < Z.of_nat (length l) ->
  bsearch_loop fuel l t left right = Some r ->
  match r with
  | Ok i => left <= i <= right /\ l !! Z.to_nat i = Some t
  | Err e => e = ValueError (msg_date_not_found t)
  end.
Proof.
  induction fuel as [|fuel IH]; intros left right r Hl Hr H; [discriminate|].
  cbn [bsearch_loop] in H.
  destruct (left <=? right) eqn:Elr.
  2:{ inversion H; subst r. reflexivity. }
  apply Z.leb_le in Elr.
  assert (Hmid : left <= (left + right) / 2 <= right).
  { split; [apply Z.div_le_lower_bound|apply Z.div_le_upper_bound]; lia. }
  rewrite py_get_nonneg in H by lia.
  destruct (l !! Z.to_nat ((left + right) / 2)) as [d|] eqn:Ed.
  2:{ apply lookup_ge_None in Ed. lia. }
  destruct (date_eqb d t) eqn:Eeq.
  - apply date_eqb_eq in Eeq. subst d. inversion H; subst r. split; [lia|exact Ed].
  - destruct (date_ltb d t).
    + specialize (IH ((left + right) / 2 + 1) right r ltac:(lia) Hr H).
      destruct r; [|exact IH]. split; [lia|tauto].
    + specialize (IH left ((left + right) / 2 - 1) r Hl ltac:(lia) H).
      destruct r; [|exact IH]. split; [lia|tauto].
Qed.

Lemma bsearch_loop_total (fuel : nat) (l : list date) (t : date) :
  forall left right,
  0 <= left -> right < Z.of_nat (length l) ->
  Z.max 0 (right - left + 1) < Z.of_nat fuel ->
  exists r, bsearch_loop fuel l t left right = Some r.
Proof.
  induction fuel as [|fuel IH]; intros left right Hl Hr Hf; [lia|].
  cbn [bsearch_loop].
  destruct (left <=? right) eqn:Elr; [|eauto].
  apply Z.leb_le in Elr.
  assert (Hmid : left <= (left + right) / 2 <= right).
  { split; [apply Z.div_le_lower_bound|apply Z.div_le_upper_bound]; lia. }
  destruct (py_get l ((left + right) / 2)) as [d|e]; [|eauto].
  destruct (date_eqb d t); [eauto|].
  destruct (date_ltb d t); apply IH; lia.
Qed.

(** The search always returns: the fuel given by [binary_search_run] is
    never exhausted. *)
Lemma binary_search_run_total (l : list date) (t : date) :
  exists r, binary_search_run l t = Some r /\ _binary_search_date l t = r.
Proof.
  destruct (bsearch_loop_total (S (length l)) l t 0 (Z.of_nat (length l) - 1)) as [r Hr];
    try lia.
  exists r. split; [exact Hr|]. unfold _binary_search_date, binary_search_run in *.
  now rewrite Hr.
Qed.

(** Exact match: a returned index holds the target date. *)
Lemma binary_search_found (l : list date) (t : date) (i : Z) :
  _binary_search_date l t = Ok i ->
  0 <= i < Z.of_nat (length l) /\ l !! Z.to_nat i = Some t.
Proof.
  destruct (binary_search_run_total l t) as [r [Hrun Hr]]. rewrite Hr. intros ->.
  apply bsearch_loop_sound in Hrun; lia || (destruct Hrun; split; [lia|assumption]).
Qed.

(** A date that is not in the list is reported as not found. *)
Lemma binary_search_missing (l : list date) (t : date) :
  ~ In t l -> _binary_search_date l t = Err (ValueError (msg_date_not_found t)).
Proof.
  intros Hnot. destruct (binary_search_run_total l t) as [r [Hrun Hr]]. rewrite Hr.
  apply bsearch_loop_sound in Hrun; try lia.
  destruct r as [i|e]; [|now subst e].
  exfalso. apply Hnot. destruct Hrun as [_ Hi].
  apply list_elem_of_In. eapply list_elem_of_lookup_2. exact Hi.
Qed.

(** *** Start-date resolution *)

Lemma truthy_range_Some (r : option (list date)) (grid : list date) :
  truthy_range r = Some grid -> r = Some grid /\ grid <> [].
Proof.
  destruct r as [[|x l]|]; cbn; intros H; inversion H; subst. split; [reflexivity|discriminate].
Qed.

(** C10, the claim as stated fails: this store has a monthly grid only;
    2020-01-04 (a Saturday) is in no grid of the store, and the accessor is
    built all the same, because the monthly lookup searches for the first
    day of the month. *)
Lemma midmonth_start_accepted_counterexample :
  daily_date_range monthly_only_store = None
  /\ (exists grid, monthly_date_range monthly_only_store = Some grid
                   /\ ~ In (mkDate 2020 1 4) grid)
  /\ get_data_accessor monthly_only_store (mkDate 2020 1 4)
     = Ok {| acc_start_date := mkDate 2020 1 4;
             acc_daily_start_index := None;
             acc_monthly_start_index := Some 0 |}.
Proof.
  split; [reflexivity|]. split; [|reflexivity].
  eexists. split; [reflexivity|].
  cbn. intros [H|[H|[H|[]]]]; discriminate H.
Qed.

(** C10 (amended): [get_data_accessor] returns an accessor only if the
    start date is exactly present in the daily master grid, when the store
    has one, and the first day of its month is exactly present in the
    monthly master grid, when the store has one; a date missing from the
    grid it is searched in raises "Date not found"; the outcome depends on
    the two grids only, not on any per-asset attribute. *)
Theorem accessor_requires_grid_dates (self : store) (d : date) :
  (forall acc, get_data_accessor self d = Ok acc ->
     acc_start_date acc = d
     /\ match truthy_range (daily_date_range self) with
        | Some grid => exists i, acc_daily_start_index acc = Some i
                                 /\ 0 <= i /\ grid !! Z.to_nat i = Some d
        | None => acc_daily_start_index acc = None
        end
     /\ match truthy_range (monthly_date_range self) with
        | Some grid => exists i, acc_monthly_start_index acc = Some i
                                 /\ 0 <= i /\ grid !! Z.to_nat i = Some (replace_day1 d)
        | None => acc_monthly_start_index acc = None
        end)
  /\ (forall grid, truthy_range (daily_date_range self) = Some grid -> ~ In d grid ->
        get_data_accessor self d = Err (ValueError (msg_date_not_found d)))
  /\ (forall grid, truthy_range (monthly_date_range self) = Some grid ->
        ~ In (replace_day1 d) grid ->
        get_data_accessor self d = Err (ValueError (msg_date_not_found d))
        \/ get_data_accessor self d = Err (ValueError (msg_date_not_found (replace_day1 d))))
  /\ (forall other : store,
        daily_date_range other = daily_date_range self ->
        monthly_date_range other = monthly_date_range self ->
        get_data_accessor other d = get_data_accessor self d).
Proof.
  unfold get_data_accessor. repeat split.
  - destruct (truthy_range (daily_date_range self)) as [g|]; cbn [bind] in H.
    + destruct (_binary_search_date g d); cbn [bind] in H; [|discriminate].
      destruct (truthy_range (monthly_date_range self)) as [g'|]; cbn [bind] in H.
      * destruct (_binary_search_date g' (replace_day1 d)); cbn [bind] in H; [|discriminate].
        now inversion H.
      * now inversion H.
    + destruct (truthy_range (monthly_date_range self)) as [g'|]; cbn [bind] in H.
      * destruct (_binary_search_date g' (replace_day1 d)); cbn [bind] in H; [|discriminate].
        now inversion H.
      * now inversion H.
  - destruct (truthy_range (daily_date_range self)) as [g|]; cbn [bind] in H.
    + destruct (_binary_search_date g d) as [i|] eqn:Ei; cbn [bind] in H; [|discriminate].
      apply binary_search_found in Ei.
      exists i. split; [|tauto].
      destruct (truthy_range (monthly_date_range self)) as [g'|]; cbn [bind] in H.
      * destruct (_binary_search_date g' (replace_day1 d)); cbn [bind] in H; [|discriminate].
        now inversion H.
      * now inversion H.
    + destruct (truthy_range (monthly_date_range self)) as [g'|]; cbn [bind] in H.
      * destruct (_binary_search_date g' (replace_day1 d)); cbn [bind] in H; [|discriminate].
        now inversion H.
      * now inversion H.
  - assert (Hm : forall x, match truthy_range (monthly_date_range self) with
                           | Some grid =>
                               let? i := _binary_search_date grid (replace_day1 d) in Ok (Some i)
                           | None => Ok None
                           end = Ok x ->
                 match truthy_range (monthly_date_range self) with
                 | Some grid => exists i, x = Some i /\ 0 <= i
                                          /\ grid !! Z.to_nat i = Some (replace_day1 d)
                 | None => x = None
                 end).
    { intros x Hx. destruct (truthy_range (monthly_date_range self)) as [g'|].
      - destruct (_binary_search_date g' (replace_day1 d)) as [i|] eqn:Ei;
          cbn [bind] in Hx; [|discriminate].
        apply binary_search_found in Ei. inversion Hx; subst x. exists i. tauto.
      - now inversion Hx. }
    destruct (match truthy_range (daily_date_range self) with
              | Some grid => let? i := _binary_search_date grid d in Ok (Some i)
              | None => Ok None
              end) as [di|]; cbn [bind] in H; [|discriminate].
    destruct (match truthy_range (monthly_date_range self) with
              | Some grid => let? i := _binary_search_date grid (replace_day1 d) in Ok (Some i)
              | None => Ok None
              end) as [mi|] eqn:Em; cbn [bind] in H; [|discriminate].
    specialize (Hm mi eq_refl). inversion H; subst acc. cbn. exact Hm.
  - intros grid Hg Hnot. rewrite Hg. cbn [bind].
    now rewrite (binary_search_missing grid d Hnot).
  - intros grid Hg Hnot. rewrite Hg.
    rewrite (binary_search_missing grid (replace_day1 d) Hnot). cbn [bind].
    destruct (truthy_range (daily_date_range self)) as [g|]; cbn [bind]; [|now right].
    destruct (_binary_search_date g d) as [i|e] eqn:Ei; cbn [bind]; [now right|].
    left. destruct (binary_search_run_total g d) as [r [Hrun Hr]].
    rewrite Hr in Ei. subst r. apply bsearch_loop_sound in Hrun; try lia. now subst e.
  - intros other Hd Hm. now rewrite Hd, Hm.
Qed.

(** *** Ordered grids *)

Lemma date_compare_antisym (a b : date) :
  date_compare b a = CompOpp (date_compare a b).
Proof.
  destruct a as [y1 m1 d1], b as [y2 m2 d2]. unfold date_compare. cbn.
  rewrite (Z.compare_antisym y1 y2), (Z.compare_antisym m1 m2), (Z.compare_antisym d1 d2).
  destruct (y1 ?= y2); cbn; try reflexivity.
  destruct (m1 ?= m2); cbn; reflexivity.
Qed.

Lemma date_lt_irrefl (a : date) : ~ date_lt a a.
Proof.
  unfold date_lt. rewrite (proj2 (date_compare_eq a a) eq_refl). discriminate.
Qed.

Lemma date_lt_asym (a b : date) : date_lt a b -> ~ date_lt b a.
Proof.
  unfold date_lt. intros H. rewrite date_compare_antisym, H. discriminate.
Qed.

Lemma increasing_lookup (grid : list date) (i j : nat) (a b : date) :
  increasing grid -> grid !! i = Some a -> grid !! j = Some b -> (i < j)%nat -> date_lt a b.
Proof.
  intros Hs. revert i j. induction Hs as [|x l Hs IH Hx]; intros i j Ha Hb Hij.
  - discriminate.
  - destruct j as [|j]; [lia|]. cbn in Hb. destruct i as [|i]; cbn in Ha.
    + inversion Ha; subst x. rewrite Forall_forall in Hx.
      apply Hx. eapply list_elem_of_lookup_2. exact Hb.
    + apply (IH i j); [assumption|assumption|lia].
Qed.

(** In an increasing grid, an earlier date sits at a smaller index. *)
Lemma increasing_index_lt (grid : list date) (i j : nat) (a b : date) :
  increasing grid -> grid !! i = Some a -> grid !! j = Some b -> date_lt a b -> (i < j)%nat.
Proof.
  intros Hs Ha Hb Hab.
  destruct (Nat.lt_trichotomy i j) as [H|[H|H]]; [exact H| |].
  - subst j. rewrite Ha in Hb. inversion Hb; subst b. now apply date_lt_irrefl in Hab.
  - pose proof (increasing_lookup grid j i b a Hs Hb Ha H) as Hba.
    now apply date_lt_asym in Hab.
Qed.

Lemma replace_day1_lt (d a : date) :
  1 <= day d -> date_lt d a -> date_lt (replace_day1 d) a.
Proof.
  destruct d as [y m dd], a as [ya ma da]. unfold date_lt, date_compare, replace_day1.
  cbn [year month day]. intros Hd. destruct (y ?= ya); try discriminate; [|reflexivity].
  destruct (m ?= ma); try discriminate; [|reflexivity].
  intros H. rewrite Z.compare_lt_iff in H. apply Z.compare_lt_iff. lia.
Qed.

(** *** The negative-index guard *)

Lemma truthy_range_nonempty (grid : list date) (i : nat) (a : date) :
  grid !! i = Some a -> truthy_range (Some grid) = Some grid.
Proof. destruct grid; [discriminate|reflexivity]. Qed.

Lemma get_value_guard (K : TechnicalIndicators.kernels) (acc : accessor) (self : store)
    (name property : string) (df : dataframe) (info : file_info) (i d : Z) :
  dataframes self !! actual_name_of self name = Some df ->
  filenames self !! actual_name_of self name = Some info ->
  data_index_of self acc (actual_name_of self name) (fi_frequency info) i = Ok d ->
  d < 0 ->
  get_value K acc self name i property = (Err (LookbackExceeded d), self).
Proof.
  intros Hdf Hfn Hidx Hneg. unfold get_value, dict_get.
  rewrite Hdf, Hfn, Hidx. now rewrite (proj2 (Z.ltb_lt d 0) Hneg).
Qed.

(** What an accessor holds: the indices of the start date in the daily
    grid and of the first day of its month in the monthly grid. *)
Lemma accessor_indices (self : store) (d : date) (acc : accessor) :
  get_data_accessor self d = Ok acc ->
  acc_start_date acc = d
  /\ match truthy_range (daily_date_range self) with
     | Some grid => exists i, acc_daily_start_index acc = Some i
                              /\ 0 <= i /\ grid !! Z.to_nat i = Some d
     | None => acc_daily_start_index acc = None
     end
  /\ match truthy_range (monthly_date_range self) with
     | Some grid => exists i, acc_monthly_start_index acc = Some i
                              /\ 0 <= i /\ grid !! Z.to_nat i = Some (replace_day1 d)
     | None => acc_monthly_start_index acc = None
     end.
Proof.
  unfold get_data_accessor. intros H.
  destruct (truthy_range (daily_date_range self)) as [g|]; cbn [bind] in H.
  - destruct (_binary_search_date g d) as [i|] eqn:Ei; cbn [bind] in H; [|discriminate].
    apply binary_search_found in Ei.
    destruct (truthy_range (monthly_date_range self)) as [g'|]; cbn [bind] in H.
    + destruct (_binary_search_date g' (replace_day1 d)) as [j|] eqn:Ej; cbn [bind] in H;
        [|discriminate].
      apply binary_search_found in Ej. injection H as <-. cbn.
      split; [reflexivity|]. split; [exists i; tauto|exists j; tauto].
    + injection H as <-. cbn. split; [reflexivity|]. split; [exists i; tauto|reflexivity].
  - destruct (truthy_range (monthly_date_range self)) as [g'|]; cbn [bind] in H.
    + destruct (_binary_search_date g' (replace_day1 d)) as [j|] eqn:Ej; cbn [bind] in H;
        [|discriminate].
      apply binary_search_found in Ej. injection H as <-. cbn.
      split; [reflexivity|]. split; [reflexivity|exists j; tauto].
    + injection H as <-. cbn. auto.
Qed.

(** Where the claim of the guard holds: at [i = 0] no translation is made
    before the start of a grid, and an asset, daily or monthly, whose own
    coverage starts after the backtest start date of the accessor raises
    the lookback-exceeded error. *)
Lemma late_coverage_raises (K : TechnicalIndicators.kernels) (acc : accessor)
    (self : store) (name property : string) :
  let actual := actual_name_of self name in
  (forall df info grid d,
        dataframes self !! actual = Some df ->
        filenames self !! actual = Some info ->
        fi_frequency info = "daily"%string ->
        get_data_accessor self d = Ok acc ->
        daily_date_range self = Some grid -> increasing grid ->
        coverage_starts_after grid (daily_data_start_index self) actual d ->
        exists idx, idx < 0
                    /\ get_value K acc self name 0 property = (Err (LookbackExceeded idx), self))
  /\ (forall df info grid d,
        dataframes self !! actual = Some df ->
        filenames self !! actual = Some info ->
        fi_frequency info = "monthly"%string ->
        get_data_accessor self d = Ok acc ->
        monthly_date_range self = Some grid -> increasing grid ->
        1 <= day d ->
        coverage_starts_after grid (monthly_data_start_index self) actual d ->
        exists idx, idx < 0
                    /\ get_value K acc self name 0 property = (Err (LookbackExceeded idx), self)).
Proof.
  intros actual. split.
  - intros df info grid d Hdf Hfn Hfreq Hacc Hgrid Hinc (s & a & Hs & Hs0 & Ha & Hlt).
    destruct (accessor_indices self d acc Hacc) as (_ & Hd & _).
    rewrite Hgrid, (truthy_range_nonempty grid _ _ Ha) in Hd.
    destruct Hd as (k & Hk & Hk0 & Hkd).
    assert (Hks : (Z.to_nat k < Z.to_nat s)%nat)
      by (eapply increasing_index_lt; eauto).
    exists (k + 0 - s). split; [lia|].
    apply (get_value_guard K acc self name property df info); try assumption; [|lia].
    fold actual. unfold data_index_of, dict_get. rewrite Hfreq. cbn [String.eqb Ascii.eqb Bool.eqb].
    now rewrite Hk, Hs.
  - intros df info grid d Hdf Hfn Hfreq Hacc Hgrid Hinc Hday (s & a & Hs & Hs0 & Ha & Hlt).
    destruct (accessor_indices self d acc Hacc) as (Hstart & Hd & Hm).
    rewrite Hgrid, (truthy_range_nonempty grid _ _ Ha) in Hm.
    destruct Hm as (m & Hm & Hm0 & Hmd).
    assert (Hms : (Z.to_nat m < Z.to_nat s)%nat).
    { eapply increasing_index_lt; eauto. now apply replace_day1_lt. }
    exists (m + (12 * (year d - year d) + (month d - month d)) - s). split; [lia|].
    apply (get_value_guard K acc self name property df info); try assumption; [|lia].
    fold actual. unfold data_index_of, dict_get. rewrite Hfreq. cbn [String.eqb Ascii.eqb Bool.eqb].
    rewrite Hm, Hs.
    destruct (truthy_range (daily_date_range self)) as [gd|] eqn:Egd.
    + destruct Hd as (k & Hk & Hk0 & Hkd). rewrite Hk.
      apply truthy_range_Some in Egd. destruct Egd as [Egd _]. rewrite Egd.
      unfold range_get. rewrite Z.add_0_r, py_get_nonneg by exact Hk0.
      rewrite Hkd. reflexivity.
    + rewrite Hd, Hstart. reflexivity.
Qed.

(** The translation of a monthly asset's index reads the daily grid at
    [daily_start_index + i] with Python's list indexing (line 238), before
    the guard: for a position before the start of the grid (but not further
    back than its length) the date is taken from the end of the grid, and
    the months are counted up to that date. *)
Lemma monthly_index_before_grid (self : store) (acc : accessor) (actual : string)
    (i s m own : Z) (grid : list date) (d1 d2 : date) :
  acc_daily_start_index acc = Some s ->
  acc_monthly_start_index acc = Some m ->
  daily_date_range self = Some grid ->
  monthly_data_start_index self !! actual = Some own ->
  0 <= s -> grid !! Z.to_nat s = Some d1 ->
  s + i < 0 ->
  grid !! Z.to_nat (Z.of_nat (length grid) + (s + i)) = Some d2 ->
  0 <= Z.of_nat (length grid) + (s + i) ->
  data_index_of self acc actual "monthly" i
  = Ok (m + (12 * (year d2 - year d1) + (month d2 - month d1)) - own).
Proof.
  intros Hs Hm Hgrid Hown Hs0 Hd1 Hneg Hd2 Hwrap.
  unfold data_index_of. cbn [String.eqb Ascii.eqb Bool.eqb]. rewrite Hm, Hs, Hgrid.
  unfold range_get. rewrite (py_get_nonneg grid s Hs0), Hd1. cbn [bind].
  assert (Hget : py_get grid (s + i) = Ok d2).
  { unfold py_get. rewrite (proj2 (Z.ltb_lt (s + i) 0) Hneg).
    rewrite (proj2 (Z.ltb_ge _ 0) Hwrap).
    replace (Z.of_nat (length grid) <=? Z.of_nat (length grid) + (s + i)) with false
      by (symmetry; apply Z.leb_gt; lia).
    cbn [orb]. now rewrite nth_error_lookup, Hd2. }
  rewrite Hget. cbn [bind]. unfold dict_get. now rewrite Hown.
Qed.

(** C1 (defect): with the accessor for 2020-01-02, the first session of the
    daily grid, one bar of lookback ([i = -1]) lies before the start of the
    grid. The daily asset raises the lookback-exceeded error there. For the
    monthly asset the translation reads the daily grid at index [-1], which
    is its last session (2020-03-02): the resolved index is 2, the guard
    passes, and the call returns the last element of the asset's array
    (March) where the month before January was asked for. *)
Theorem monthly_lookback_returns_tail :
  let read := fun name i => get_value no_kernels accessor_day1 quarter_store name i "" in
  get_data_accessor quarter_store day1 = Ok accessor_day1
  /\ head q1_sessions = Some day1
  /\ last q1_sessions = Some (mkDate 2020 3 2)
  /\ data_arrays quarter_store !! "CPI"%string = Some [fin 1; fin 2; fin 3]
  /\ read "SPY"%string (-1) = (Err (LookbackExceeded (-1)), quarter_store)
  /\ read "CPI"%string 0 = (Ok (SNum (fin 1)), quarter_store)
  /\ data_index_of quarter_store accessor_day1 "CPI" "monthly" (-1) = Ok 2
  /\ read "CPI"%string (-1) = (Ok (SNum (fin 3)), quarter_store).
Proof.
  cbv zeta. repeat match goal with |- _ /\ _ => split end; reflexivity.
Qed.

(** The same read on a grid that ends in the month of the start date: the
    last session is in January, and the call returns the January value. *)
Example monthly_translation_before_grid :
  fst (get_value no_kernels accessor_day1 small_store "CPI" (-1) "") = Ok (SNum (fin 1)).
Proof. reflexivity. Qed.

(** *** Reads and the state of the store *)

(** C3, the claim as stated fails: a read that triggers the computation of
    an indicator stores the computed column in the asset's dataframe and in
    the array cache, so the store after the call differs from the store
    before it. *)
Lemma indicator_read_mutates_counterexample :
  exists value after,
    get_value no_kernels accessor_day1 small_store "A" 1 "MA2" = (Ok (SNum (fin value)), after)
    /\ data_arrays small_store !! "A_MA2"%string = None
    /\ data_arrays after !! "A_MA2"%string = Some [NaN; fin value]
    /\ after <> small_store.
Proof.
  eexists _, _. split; [reflexivity|]. split; [reflexivity|]. split; [reflexivity|].
  intros H. apply (f_equal (fun s => data_arrays s !! "A_MA2"%string)) in H.
  vm_compute in H. discriminate H.
Qed.

(** C3 (amended): a read through an accessor either leaves the store
    exactly as it was, or it computed an indicator that was neither a
    column of the resolved asset nor in the array cache, and then the only
    change is that column added to the asset's dataframe and the array
    stored under [<asset>_<property>]; start indices, date grids, date
    arrays, file names and backups are never changed. The store a read
    leaves does not depend on the accessor or the index used, for calls
    that get past the index guard. *)
Theorem read_changes_only_indicator_cache (K : TechnicalIndicators.kernels)
    (acc : accessor) (self : store) (name : string) (i : Z) (property : string) :
  let actual := actual_name_of self name in
  let cache_key := String.append actual (String.append "_" property) in
  let after := snd (get_value K acc self name i property) in
  (after = self
   \/ exists df info values,
        dataframes self !! actual = Some df
        /\ filenames self !! actual = Some info
        /\ df_columns df !! property = None
        /\ data_arrays self !! cache_key = None
        /\ TechnicalIndicators.compute_indicator K df (fi_source info)
             (max_lookback_days self) property = Ok (Some values)
        /\ after = set_data_arrays
                     (set_dataframes self
                        (<[actual := df_set_col df property values]> (dataframes self)))
                     (<[cache_key := values]> (data_arrays self)))
  /\ (daily_data_start_index after = daily_data_start_index self
      /\ monthly_data_start_index after = monthly_data_start_index self
      /\ daily_date_range after = daily_date_range self
      /\ monthly_date_range after = monthly_date_range self
      /\ date_arrays after = date_arrays self
      /\ filenames after = filenames self
      /\ original_dataframes_backup after = original_dataframes_backup self
      /\ original_daily_indices_backup after = original_daily_indices_backup self
      /\ original_monthly_indices_backup after = original_monthly_indices_backup self)
  /\ (forall (acc' : accessor) (i' : Z) info d d',
        filenames self !! actual = Some info ->
        data_index_of self acc actual (fi_frequency info) i = Ok d -> 0 <= d ->
        data_index_of self acc' actual (fi_frequency info) i' = Ok d' -> 0 <= d' ->
        snd (get_value K acc' self name i' property) = after).
Proof.
  intros actual cache_key after.
  assert (Hshape :
    after = self
    \/ exists df info values,
         dataframes self !! actual = Some df
         /\ filenames self !! actual = Some info
         /\ df_columns df !! property = None
         /\ data_arrays self !! cache_key = None
         /\ TechnicalIndicators.compute_indicator K df (fi_source info)
              (max_lookback_days self) property = Ok (Some values)
         /\ after = set_data_arrays
                      (set_dataframes self
                         (<[actual := df_set_col df property values]> (dataframes self)))
                      (<[cache_key := values]> (data_arrays self))).
  { subst after. unfold get_value. fold actual.
    destruct (dataframes self !! actual) as [df|] eqn:Edf; [|now left].
    unfold dict_get.
    destruct (filenames self !! actual) as [info|] eqn:Einfo; [|now left].
    destruct (data_index_of self acc actual (fi_frequency info) i) as [d|]; [|now left].
    destruct (d <? 0); [now left|].
    destruct (String.eqb property ""); [destruct (data_arrays self !! actual); now left|].
    destruct (String.eqb property "Date"); [destruct (date_arrays self !! actual); now left|].
    unfold _get_property_value, dict_get. rewrite Edf. fold cache_key.
    destruct (df_columns df !! property) eqn:Ecol; [now left|].
    destruct (data_arrays self !! cache_key) eqn:Ecache; [now left|].
    destruct (TechnicalIndicators.compute_indicator K df (fi_source info)
                (max_lookback_days self) property) as [[values|]|] eqn:Ecomp;
      [|now left|now left].
    right. exists df, info, values. cbn [snd]. auto 10. }
  split; [exact Hshape|]. split.
  - destruct Hshape as [->|(df & info & values & _ & _ & _ & _ & _ & ->)];
      repeat split; reflexivity.
  - intros acc' i' info d d' Hinfo Hd Hd0 Hd' Hd0'. subst after.
    unfold get_value. fold actual.
    destruct (dataframes self !! actual) as [df|] eqn:Edf; [|reflexivity].
    unfold dict_get. rewrite Hinfo, Hd, Hd'.
    rewrite (proj2 (Z.ltb_ge d 0) Hd0), (proj2 (Z.ltb_ge d' 0) Hd0').
    destruct (String.eqb property ""); [destruct (data_arrays self !! actual); reflexivity|].
    destruct (String.eqb property "Date"); [destruct (date_arrays self !! actual); reflexivity|].
    unfold _get_property_value, dict_get. rewrite Edf.
    destruct (df_columns df !! property); [reflexivity|].
    destruct (data_arrays self !! _); [reflexivity|].
    destruct (TechnicalIndicators.compute_indicator _ _ _ _ _) as [[values|]|]; reflexivity.
Qed.

(** *** Redirection and restoration *)

(** Restoration never writes the array caches. *)
Lemma restore_ignores_arrays (self : store) :
  data_arrays (restore_original_data self) = data_arrays self
  /\ date_arrays (restore_original_data self) = date_arrays self.
Proof.
  unfold restore_original_data. destruct (bool_decide _); split; reflexivity.
Qed.

(** C2 (defect): after [apply] the redirected asset reads like its
    substitute, but [restore_original_data] puts back the dataframes and
    the start indices only; the cached value and date arrays that
    [_apply_redirection] overwrote stay those of the substitute, so the
    default property and ['Date'] do not return the original values. *)
Theorem restore_keeps_substitute_arrays :
  let read := fun self name i property =>
                fst (get_value no_kernels accessor_day1 self name i property) in
  let swapped := apply small_store [("A"%string, "B"%string)] in
  let restored := restore_original_data swapped in
  let swapped' := apply small_store [("LATE"%string, "A"%string)] in
  let restored' := restore_original_data swapped' in
  (* before, during, after: the default property of A *)
  read small_store "A" 0 "" = Ok (SNum (fin 10))
  /\ read swapped "A" 0 "" = read swapped "B" 0 ""
  /\ read restored "A" 0 "" = Ok (SNum (fin 20))
  (* the dataframe and the offsets are restored, the arrays are not *)
  /\ dataframes restored = dataframes small_store
  /\ daily_data_start_index restored = daily_data_start_index small_store
  /\ data_arrays restored !! "A"%string = data_arrays small_store !! "B"%string
  (* the same for the dates of an asset with another coverage *)
  /\ read small_store "LATE" 1 "Date" = Ok (SDate day2)
  /\ read restored' "LATE" 1 "Date" = Ok (SDate day1)
  /\ read small_store "LATE" 1 "" = Ok (SNum (fin 30))
  /\ read restored' "LATE" 1 "" = Ok (SNum (fin 10)).
Proof.
  cbv zeta. repeat match goal with |- _ /\ _ => split end; vm_compute; reflexivity.
Qed.

End ManagerFacts.

(* ================================================================== *)
(** * Further properties *)
(* ================================================================== *)

(** ** The order on dates *)

Module DateOrder.

Lemma date_lt_spec (a b : date) :
  date_lt a b <->
  year a < year b
  \/ (year a = year b /\ (month a < month b \/ (month a = month b /\ day a < day b))).
Proof.
  unfold date_lt, date_compare.
  destruct (Z.compare_spec (year a) (year b)) as [Hy|Hy|Hy];
    destruct (Z.compare_spec (month a) (month b)) as [Hm|Hm|Hm];
    destruct (Z.compare_spec (day a) (day b)) as [Hd|Hd|Hd];
    split; intros H; try discriminate; try reflexivity; lia.
Qed.

Lemma date_leb_spec (a b : date) : date_leb a b = true <-> ~ date_lt b a.
Proof.
  unfold date_leb, date_lt. rewrite (ManagerFacts.date_compare_antisym a b).
  destruct (date_compare a b); cbn; split; intros H;
    try reflexivity; try discriminate; try (intros H'; discriminate H').
  exfalso. now apply H.
Qed.

Lemma date_leb_false (a b : date) : date_leb a b = false <-> date_lt b a.
Proof.
  rewrite <- not_true_iff_false, date_leb_spec. split; [|tauto].
  intros H. unfold date_lt in *. destruct (date_compare b a); try reflexivity;
    exfalso; apply H; discriminate.
Qed.

Lemma date_lt_trans (a b c : date) : date_lt a b -> date_lt b c -> date_lt a c.
Proof. rewrite !date_lt_spec. lia. Qed.

Lemma date_lt_leb (a b : date) : date_lt a b -> date_leb a b = true.
Proof.
  intros H. apply date_leb_spec. now apply ManagerFacts.date_lt_asym.
Qed.

Lemma date_leb_refl (a : date) : date_leb a a = true.
Proof. apply date_leb_spec. apply ManagerFacts.date_lt_irrefl. Qed.

Lemma date_leb_lt_trans (a b c : date) : date_leb a b = true -> date_lt b c -> date_lt a c.
Proof. rewrite date_leb_spec, !date_lt_spec. lia. Qed.

Lemma date_lt_leb_trans (a b c : date) : date_lt a b -> date_leb b c = true -> date_lt a c.
Proof. rewrite date_leb_spec, !date_lt_spec. lia. Qed.

Lemma date_ltb_lt (a b : date) : date_ltb a b = true <-> date_lt a b.
Proof. unfold date_ltb, date_lt. destruct (date_compare a b); split; congruence. Qed.

Lemma date_trichotomy (a b : date) : date_lt a b \/ a = b \/ date_lt b a.
Proof.
  destruct (date_compare a b) eqn:E.
  - right. left. now apply date_compare_eq.
  - now left.
  - right. right. unfold date_lt. rewrite ManagerFacts.date_compare_antisym, E. reflexivity.
Qed.

End DateOrder.

(** ** Return and drawdown *)

Module MetricFacts.
Import BacktestEngine.

Lemma Qle_bool_true (x y : Q) : (x <= y)%Q -> Qle_bool x y = true.
Proof. apply Qle_bool_iff. Qed.

Lemma Qle_bool_false (x y : Q) : (y < x)%Q -> Qle_bool x y = false.
Proof.
  intros H. destruct (Qle_bool x y) eqn:E; [|reflexivity].
  apply Qle_bool_iff in E. lra.
Qed.

(** One step of the drawdown loop from a peak that the next value reaches
    or exceeds, with no drawdown seen so far. *)
Lemma drawdown_step_rising (p x : Q) :
  (p <= x)%Q ->
  exists p', drawdown_step (fin p, fin 0) (fin x) = (fin p', fin 0) /\ (p' == x)%Q.
Proof.
  intros Hpx.
  assert (Hstep : forall p', (p' == x)%Q ->
            (let drawdown := fdiv (fsub (Some p') (Some x)) (Some p') in
             if fgt drawdown (Some 0%Q) then drawdown else Some 0%Q) = Some 0%Q).
  { intros p' Hp'. cbv zeta. unfold fsub, lift2, fdiv.
    destruct (Qeq_bool p' 0); [reflexivity|]. cbn [fgt].
    rewrite Qle_bool_true; [reflexivity|].
    assert (Hz : (p' - x == 0)%Q) by lra. rewrite Hz. unfold Qdiv. rewrite Qmult_0_l. lra. }
  unfold drawdown_step, fin. cbn [fgt].
  destruct (Qle_bool x p) eqn:E; cbn [negb].
  - apply Qle_bool_iff in E. exists p. split; [|lra].
    cbv zeta in Hstep |- *. now rewrite Hstep by lra.
  - exists x. split; [|reflexivity].
    cbv zeta in Hstep |- *. now rewrite Hstep.
Qed.

Lemma drawdown_fold_rising (qs : list Q) (p : Q) :
  StronglySorted Qle qs -> Forall (fun x => p <= x)%Q qs ->
  snd (fold_left drawdown_step (map fin qs) (fin p, fin 0)) = fin 0.
Proof.
  intros Hs. revert p. induction Hs as [|x qs Hs IH Hx]; intros p Hp; [reflexivity|].
  cbn [map fold_left]. apply Forall_cons_1 in Hp. destruct Hp as [Hpx _].
  destruct (drawdown_step_rising p x Hpx) as [p' [Hstep Hp']]. rewrite Hstep.
  apply IH. apply (Forall_impl _ _ _ Hx). intros y Hy. lra.
Qed.

(** X1: on a series of numbers that never decreases the maximum drawdown
    is zero. *)
Theorem max_drawdown_nondecreasing (qs : list Q) :
  StronglySorted Qle qs ->
  exists m, _calculate_max_drawdown (map fin qs) = fin m /\ (m == 0)%Q.
Proof.
  intros Hs. destruct qs as [|q qs]; [exists 0%Q; split; reflexivity|].
  unfold _calculate_max_drawdown. cbn [map].
  change (fin q :: map fin qs) with (map fin (q :: qs)).
  rewrite (drawdown_fold_rising (q :: qs) q Hs).
  - exists (0 * 100)%Q. split; [reflexivity|ring].
  - constructor; [lra|]. now inversion Hs.
Qed.

Lemma max_drawdown_nondecreasing_witness :
  exists m, _calculate_max_drawdown [fin 1; fin 1; fin 3] = fin m /\ (m == 0)%Q.
Proof.
  apply (max_drawdown_nondecreasing [1; 1; 3]%Q).
  repeat constructor; discriminate.
Defined.

(** One step of the loop on positive values keeps the peak positive and
    the largest drawdown in [0, 1]. *)
Lemma drawdown_step_positive (p d x : Q) :
  (0 < p)%Q -> (0 <= d <= 1)%Q -> (0 < x)%Q ->
  exists p' d', drawdown_step (fin p, fin d) (fin x) = (fin p', fin d')
                /\ (0 < p')%Q /\ (0 <= d' <= 1)%Q.
Proof.
  intros Hp Hd Hx.
  assert (Hstep : forall p', (0 < p')%Q -> (x <= p')%Q ->
            exists d', (let drawdown := fdiv (fsub (Some p') (Some x)) (Some p') in
                        if fgt drawdown (Some d) then drawdown else Some d) = Some d'
                       /\ (0 <= d' <= 1)%Q).
  { intros p' Hp' Hxp. cbv zeta. unfold fsub, lift2, fdiv.
    rewrite Qeq_bool_neq_false by lra. cbn [fgt].
    assert (H0 : (0 <= (p' - x) / p')%Q) by (apply Qle_shift_div_l; lra).
    assert (H1 : ((p' - x) / p' <= 1)%Q) by (apply Qle_shift_div_r; lra).
    destruct (negb _); eexists; (split; [reflexivity|lra]). }
  unfold drawdown_step, fin. cbn [fgt].
  destruct (Qle_bool x p) eqn:E; cbn [negb].
  - apply Qle_bool_iff in E. destruct (Hstep p Hp E) as [d' [Hd' Hr]].
    exists p, d'. cbv zeta in Hd' |- *. rewrite Hd'. auto.
  - apply IndicatorFacts.Qle_bool_false_lt in E. destruct (Hstep x Hx ltac:(lra)) as [d' [Hd' Hr]].
    exists x, d'. cbv zeta in Hd' |- *. rewrite Hd'. auto.
Qed.

(** X2: on a series of positive numbers the maximum drawdown is a
    percentage between 0 and 100, both included. *)
Theorem max_drawdown_range (qs : list Q) :
  Forall (fun x => 0 < x)%Q qs ->
  exists m, _calculate_max_drawdown (map fin qs) = fin m /\ (0 <= m <= 100)%Q.
Proof.
  intros Hpos. destruct qs as [|q qs]; [exists 0%Q; split; [reflexivity|lra]|].
  unfold _calculate_max_drawdown. cbn [map].
  change (fin q :: map fin qs) with (map fin (q :: qs)).
  assert (Hfold : forall l p d, Forall (fun x => 0 < x)%Q l -> (0 < p)%Q -> (0 <= d <= 1)%Q ->
            exists p' d', fold_left drawdown_step (map fin l) (fin p, fin d) = (fin p', fin d')
                          /\ (0 <= d' <= 1)%Q).
  { induction l as [|x l IH]; intros p d Hl Hp Hd.
    - exists p, d. split; [reflexivity|exact Hd].
    - apply Forall_cons_1 in Hl. destruct Hl as [Hx Hl]. cbn [map fold_left].
      destruct (drawdown_step_positive p d x Hp Hd Hx) as (p' & d' & Hs & Hp' & Hd').
      rewrite Hs. now apply IH. }
  destruct (Hfold (q :: qs) q 0%Q Hpos) as (p' & d' & Hf & Hd'); [now inversion Hpos|lra|].
  change (fin 0) with (fin 0%Q). rewrite Hf. cbn [snd].
  exists (d' * 100)%Q. split; [reflexivity|lra].
Qed.

Lemma max_drawdown_range_witness :
  exists m, _calculate_max_drawdown [fin 4; fin 2; fin 3] = fin m /\ (0 <= m <= 100)%Q.
Proof.
  apply (max_drawdown_range [4; 2; 3]%Q). repeat constructor.
Defined.

(** X3: for a series of at least two values that starts with a positive
    number, the total return has the sign of the move from the first to the
    last value: it is not negative when the last value is not below the
    first, not positive when it is not above, and never below -100 for a
    last value that is not negative. A series of fewer than two values has
    return 0. *)
Theorem total_return_sign (a b : Q) (mid : list fnum) :
  (0 < a)%Q ->
  (exists r, _calculate_return (fin a :: mid ++ [fin b]) = fin r
             /\ (a <= b -> 0 <= r)%Q
             /\ (b <= a -> r <= 0)%Q
             /\ (0 <= b -> -100 <= r)%Q)
  /\ _calculate_return [fin a] = fin 0
  /\ _calculate_return [] = fin 0.
Proof.
  intros Ha. split; [|split; reflexivity].
  unfold _calculate_return.
  replace (length (fin a :: mid ++ [fin b]) <? 2)%nat with false.
  2:{ symmetry. apply Nat.ltb_ge. cbn [length]. rewrite length_app. cbn. lia. }
  cbn [nth]. change (fin a :: mid ++ [fin b]) with ((fin a :: mid) ++ [fin b]).
  rewrite List.last_last. unfold fsub, lift2, fin, fdiv, fmul.
  rewrite (Qeq_bool_neq_false a 0) by lra.
  exists ((b - a) / a * 100)%Q. split; [reflexivity|].
  repeat match goal with |- _ /\ _ => split end; intros H.
  - assert (0 <= (b - a) / a)%Q by (apply Qle_shift_div_l; lra). lra.
  - assert ((b - a) / a <= 0)%Q by (apply Qle_shift_div_r; lra). lra.
  - assert (- (1) <= (b - a) / a)%Q by (apply Qle_shift_div_l; lra). lra.
Qed.

Lemma total_return_sign_witness :
  exists r, _calculate_return [fin 2; fin 5; fin 3] = fin r /\ (0 <= r)%Q /\ (-100 <= r)%Q.
Proof.
  destruct (total_return_sign 2 3 [fin 5]) as [(r & Hr & Hup & _ & Hlow) _]; [reflexivity|].
  exists r. split; [exact Hr|]. split; [apply Hup|apply Hlow]; discriminate.
Defined.

End MetricFacts.

(** ** Sub-period extraction *)

Module ExtractFacts.
Import BacktestEngine EngineMore Terms DateOrder.

(** The scan of [_extract_period_from_full_result] finds the first date on
    or after the start and the last date on or before the end. *)
Lemma scan_fold (s e : date) (l : list date) :
  forall (k : nat) (a b : option nat),
  fold_left (scan_step s e) (combine (seq k (length l)) l) (a, b)
  = (match a with
     | Some i => Some i
     | None => option_map (Nat.add k) (first_at_or_after s l)
     end,
     match last_at_or_before e l with
     | Some j => Some (k + j)%nat
     | None => b
     end).
Proof.
  induction l as [|d l IH]; intros k a b.
  - cbn. now destruct a.
  - cbn [length seq combine fold_left]. unfold scan_step at 2. rewrite IH.
    cbn [first_at_or_after last_at_or_before]. f_equal.
    + destruct a as [i|]; cbn.
      * now rewrite andb_false_r.
      * rewrite andb_true_r. destruct (date_leb s d); cbn; [f_equal; lia|].
        destruct (first_at_or_after s l); cbn; [f_equal; lia|reflexivity].
    + destruct (last_at_or_before e l) as [j|]; [f_equal; lia|].
      destruct (date_leb d e); [f_equal; lia|reflexivity].
Qed.

Lemma scan_indices_spec (l : list date) (s e : date) :
  scan_indices l s e = (first_at_or_after s l, last_at_or_before e l).
Proof.
  unfold scan_indices, enumerate. rewrite scan_fold. f_equal.
  - destruct (first_at_or_after s l); reflexivity.
  - destruct (last_at_or_before e l); reflexivity.
Qed.

Lemma first_none (s : date) (l : list date) :
  first_at_or_after s l = None <-> Forall (fun d => date_lt d s) l.
Proof.
  induction l as [|d l IH]; cbn; [split; [constructor|reflexivity]|].
  destruct (date_leb s d) eqn:E.
  - split; [discriminate|]. intros H. apply Forall_cons_1 in H. destruct H as [H _].
    apply date_leb_spec in E. contradiction.
  - apply date_leb_false in E. destruct (first_at_or_after s l); cbn.
    + split; [discriminate|]. intros H. apply Forall_cons_1 in H.
      destruct H as [_ H]. apply IH in H. discriminate.
    + split; [|reflexivity]. intros _. constructor; [exact E|now apply IH].
Qed.

Lemma last_none (e : date) (l : list date) :
  last_at_or_before e l = None <-> Forall (fun d => date_lt e d) l.
Proof.
  induction l as [|d l IH]; cbn; [split; [constructor|reflexivity]|].
  destruct (last_at_or_before e l).
  - split; [discriminate|]. intros H. apply Forall_cons_1 in H.
    destruct H as [_ H]. apply IH in H. discriminate.
  - destruct (date_leb d e) eqn:E.
    + split; [discriminate|]. intros H. apply Forall_cons_1 in H. destruct H as [H _].
      apply date_leb_spec in E. contradiction.
    + apply date_leb_false in E. split; [|reflexivity].
      intros _. constructor; [exact E|now apply IH].
Qed.

Lemma first_all (s : date) (l : list date) :
  l <> [] -> Forall (fun d => date_leb s d = true) l -> first_at_or_after s l = Some 0%nat.
Proof.
  destruct l as [|d l]; [contradiction|]. intros _ H. apply Forall_cons_1 in H.
  destruct H as [H _]. cbn. now rewrite H.
Qed.

Lemma last_some_elem (e : date) (l : list date) (j : nat) :
  last_at_or_before e l = Some j -> exists d, In d l /\ date_leb d e = true.
Proof.
  revert j. induction l as [|d l IH]; intros j; [discriminate|]. cbn.
  destruct (last_at_or_before e l) as [j'|].
  - intros _. destruct (IH j' eq_refl) as [x [Hx Hle]]. exists x. split; [now right|exact Hle].
  - destruct (date_leb d e) eqn:E; [|discriminate].
    intros _. exists d. split; [now left|exact E].
Qed.

(** On an increasing range, the window between the two indices holds
    exactly the dates of the period. *)
Lemma window_is_filter (s e : date) (l : list date) :
  increasing l ->
  match first_at_or_after s l, last_at_or_before e l with
  | Some a, Some b => py_slice l a (b + 1) = List.filter (in_window s e) l
  | _, _ => List.filter (in_window s e) l = []
  end.
Proof.
  intros Hs. induction Hs as [|d l Hs IH Hd]; [reflexivity|].
  cbn [first_at_or_after last_at_or_before List.filter].
  change (in_window s e d) with (date_leb s d && date_leb d e).
  destruct (date_leb s d) eqn:Esd.
  - (* the head is on or after the start, and so is every later date *)
    assert (Hall : Forall (fun x => date_leb s x = true) l).
    { apply (Forall_impl _ _ _ Hd). intros x Hx. apply date_lt_leb.
      eapply date_leb_lt_trans; eauto. }
    destruct (last_at_or_before e l) as [j|] eqn:El.
    + destruct (last_some_elem e l j El) as [x [Hx Hxe]].
      assert (Hde : date_leb d e = true).
      { apply date_lt_leb. eapply date_lt_leb_trans; [|exact Hxe].
        rewrite Forall_forall in Hd. apply Hd. now apply list_elem_of_In. }
      rewrite Hde. cbn [andb].
      rewrite first_all in IH by (try assumption; intros ->; contradiction).
      unfold py_slice in *. cbn [skipn] in *.
      replace (S j + 1 - 0)%nat with (S (j + 1 - 0)) by lia. cbn [firstn]. now f_equal.
    + destruct (first_at_or_after s l); destruct (date_leb d e); cbn [andb];
        rewrite ?IH; reflexivity.
  - cbn [andb]. destruct (first_at_or_after s l) as [a|]; cbn [option_map].
    + destruct (last_at_or_before e l) as [j|].
      * rewrite <- IH. reflexivity.
      * destruct (date_leb d e); [|exact IH].
        rewrite IH. unfold py_slice. now replace (0 + 1 - S a)%nat with 0%nat by lia.
    + destruct (last_at_or_before e l); [exact IH|].
      destruct (date_leb d e); exact IH.
Qed.

(** X4: on an increasing date range, a successful extraction returns
    exactly the dates of the full range that lie in the period, together
    with the portfolio values at the same positions. *)
Theorem extraction_is_the_period (full : BacktestResult) (period : BacktestPeriod)
    (name : string) (r : BacktestResult) :
  increasing (res_date_range full) ->
  _extract_period_from_full_result full period name = Ok r ->
  res_date_range r
  = List.filter (in_window (period_start_date period) (period_end_date period))
                (res_date_range full)
  /\ exists a b,
       res_date_range r = py_slice (res_date_range full) a b
       /\ res_portfolio_values r = py_slice (res_portfolio_values full) a b.
Proof.
  intros Hinc H. unfold _extract_period_from_full_result in H.
  rewrite scan_indices_spec in H.
  pose proof (window_is_filter (period_start_date period) (period_end_date period)
                (res_date_range full) Hinc) as Hw.
  destruct (first_at_or_after _ _) as [a|]; [|discriminate].
  destruct (last_at_or_before _ _) as [b|]; [|discriminate].
  inversion H; subst r. cbn. split; [exact Hw|]. exists a, (b + 1)%nat. auto.
Qed.

Lemma extraction_is_the_period_witness :
  exists r,
    _extract_period_from_full_result
      (mkResult "s" "s" "Full Period"
         [mkDate 2020 1 2; mkDate 2020 1 3; mkDate 2020 1 6; mkDate 2020 1 7]
         [fin 1; fin 2; fin 3; fin 4] [] NaN NaN None)
      (mkPeriod "p" (mkDate 2020 1 3) (mkDate 2020 1 6)) "s" = Ok r
    /\ res_date_range r = [mkDate 2020 1 3; mkDate 2020 1 6]
    /\ res_portfolio_values r = [fin 2; fin 3].
Proof.
  eexists. split; [reflexivity|].
  destruct (extraction_is_the_period
              (mkResult "s" "s" "Full Period"
                 [mkDate 2020 1 2; mkDate 2020 1 3; mkDate 2020 1 6; mkDate 2020 1 7]
                 [fin 1; fin 2; fin 3; fin 4] [] NaN NaN None)
              (mkPeriod "p" (mkDate 2020 1 3) (mkDate 2020 1 6)) "s" _
              ltac:(repeat constructor) eq_refl) as [H _].
  split; [exact H|reflexivity].
Defined.

(** X5: extraction raises exactly when no date of the full range is on or
    after the period start, or none is on or before the period end (an
    empty range included); the error is the "not found" [ValueError]. *)
Theorem extraction_fails_iff (full : BacktestResult) (period : BacktestPeriod)
    (name : string) :
  (exists e, _extract_period_from_full_result full period name = Err e)
  <-> (Forall (fun d => date_lt d (period_start_date period)) (res_date_range full)
       \/ Forall (fun d => date_lt (period_end_date period) d) (res_date_range full)).
Proof.
  unfold _extract_period_from_full_result. rewrite scan_indices_spec.
  rewrite <- first_none, <- last_none.
  destruct (first_at_or_after _ _), (last_at_or_before _ _); split;
    try (intros [e He]; discriminate He); try (intros [H|H]; discriminate H);
    eauto.
Qed.

(** X6: [extract_period_data] returns the normalised series that
    [_extract_period_from_full_result] computes for the stored result, and
    fails when it fails. *)
Theorem extract_period_data_agrees (results : gmap string (gmap string BacktestResult))
    (strategy_name period_name label : string) (extract_start extract_end : date)
    (strategy_results : gmap string BacktestResult) (res : BacktestResult) :
  results !! strategy_name = Some strategy_results ->
  strategy_results !! period_name = Some res ->
  extract_period_data results strategy_name period_name extract_start extract_end
  = (let? extracted :=
       _extract_period_from_full_result res (mkPeriod label extract_start extract_end)
         strategy_name in
     Ok (res_normalized_values extracted)).
Proof.
  intros H1 H2. unfold extract_period_data, _extract_period_from_full_result.
  rewrite H1, H2. cbn [period_start_date period_end_date].
  destruct (scan_indices _ _ _) as [[a|] [b|]]; reflexivity.
Qed.

Lemma extract_period_data_agrees_witness :
  extract_period_data
    (<["s"%string := <["Full Period"%string :=
        mkResult "s" "s" "Full Period" [mkDate 2020 1 2; mkDate 2020 1 3]
          [fin 2; fin 4] [fin 100; fin 200] (fin 100) (fin 0) None]> ∅]> ∅)
    "s" "Full Period" (mkDate 2020 1 3) (mkDate 2020 1 3)
  = Ok [fmul (fdiv (fin 4) (fin 4)) (fin 100)].
Proof.
  rewrite (extract_period_data_agrees _ "s" "Full Period" "sub" _ _
             (<["Full Period"%string :=
                mkResult "s" "s" "Full Period" [mkDate 2020 1 2; mkDate 2020 1 3]
                  [fin 2; fin 4] [fin 100; fin 200] (fin 100) (fin 0) None]> ∅)
             (mkResult "s" "s" "Full Period" [mkDate 2020 1 2; mkDate 2020 1 3]
                [fin 2; fin 4] [fin 100; fin 200] (fin 100) (fin 0) None));
    reflexivity.
Defined.

End ExtractFacts.

(** ** Successful strategies in the batch *)

Module BatchMore.
Import BacktestEngine.

Section Recorded.

Variable full : BacktestResult.
Variable name : string.

Local Abbreviation estep := (extract_step full name).

Lemma extract_fold_other (periods : list BacktestPeriod)
    (m : gmap string BacktestResult) (lg : list (@log_record)) (k : string) :
  ~ In k (map period_name periods) ->
  fst (fold_left estep periods (m, lg)) !! k = m !! k.
Proof.
  revert m lg. induction periods as [|p ps IH]; intros m lg Hk; [reflexivity|].
  cbn [fold_left]. unfold extract_step at 2.
  assert (Hne : period_name p <> k) by (intros E; apply Hk; now left).
  assert (Hk' : ~ In k (map period_name ps)) by (intros E; apply Hk; now right).
  destruct (_extract_period_from_full_result full p name); rewrite IH by exact Hk'.
  - now rewrite lookup_insert_ne.
  - reflexivity.
Qed.

Lemma extract_fold_lookup (periods : list BacktestPeriod)
    (m : gmap string BacktestResult) (lg : list (@log_record)) (p : BacktestPeriod) :
  List.NoDup (map period_name periods) -> In p periods ->
  fst (fold_left estep periods (m, lg)) !! period_name p
  = match _extract_period_from_full_result full p name with
    | Ok r => Some r
    | Err _ => m !! period_name p
    end.
Proof.
  revert m lg. induction periods as [|q qs IH]; intros m lg Hnd Hin; [contradiction|].
  cbn [map] in Hnd. apply List.NoDup_cons_iff in Hnd. destruct Hnd as [Hq Hnd].
  cbn [fold_left]. unfold extract_step at 2. destruct Hin as [->|Hin].
  - destruct (_extract_period_from_full_result full p name);
      rewrite extract_fold_other by exact Hq; [apply lookup_insert_eq|reflexivity].
  - assert (Hne : period_name q <> period_name p).
    { intros E. apply Hq. rewrite E. now apply in_map. }
    destruct (_extract_period_from_full_result full q name);
      rewrite (IH _ _ Hnd Hin); [|reflexivity].
    now rewrite lookup_insert_ne.
Qed.

Lemma extract_fold_logged (periods : list BacktestPeriod)
    (m : gmap string BacktestResult) (lg : list (@log_record)) (p : BacktestPeriod) (e : exn) :
  In p periods -> _extract_period_from_full_result full p name = Err e ->
  In (ErrorExtracting (period_name p) name e) (snd (fold_left estep periods (m, lg))).
Proof.
  revert m lg. induction periods as [|q qs IH]; intros m lg Hin He; [contradiction|].
  cbn [fold_left]. destruct Hin as [->|Hin].
  - unfold extract_step at 2. rewrite He.
    destruct (EngineFacts.extract_fold_log full name qs m
                (lg ++ [ErrorExtracting (period_name p) name e])) as [extra Hx].
    rewrite Hx. apply in_or_app. left. apply in_or_app. right. now left.
  - destruct (estep (m, lg) q) as [m' lg']. now apply IH.
Qed.

End Recorded.

(** X7: a strategy whose full-period run succeeds is recorded under its
    name with the full result under "Full Period" and, for every declared
    sub-period, the extracted result when the extraction succeeds and no
    entry when it raises, in which case the error is logged; later
    strategies do not touch the record. Period names are distinct and none
    is "Full Period". *)
Theorem successful_strategy_recorded
    {World Kwargs : Type} (no_kwargs : Kwargs) (sm : @StrategyManager World Kwargs)
    (strategy_params : gmap string Kwargs) (full_start full_end : date)
    (test_periods : list BacktestPeriod) (w : World)
    (before after : list string) (name : string) (full : BacktestResult)
    (logs : list log_record) (w' : World) :
  let full_period := mkPeriod "Full Period" full_start full_end in
  let step := run_strategy no_kwargs sm strategy_params full_period test_periods in
  let b0 := fold_left step before {| all_results := ∅; error_log := []; world := w |} in
  all_strategy_names sm = before ++ name :: after ->
  List.NoDup (all_strategy_names sm) ->
  List.NoDup (map period_name test_periods) ->
  ~ In "Full Period"%string (map period_name test_periods) ->
  _execute_single_backtest sm name full_period (world b0)
    (kwargs_of no_kwargs strategy_params name) = (Ok full, logs, w') ->
  exists b strategy_results,
    run_full_backtest no_kwargs (Ok sm) full_start full_end test_periods strategy_params w = Ok b
    /\ all_results b !! name = Some strategy_results
    /\ strategy_results !! "Full Period"%string = Some full
    /\ (forall p, In p test_periods ->
          strategy_results !! period_name p
          = match _extract_period_from_full_result full p name with
            | Ok r => Some r
            | Err _ => None
            end)
    /\ (forall p e, In p test_periods ->
          _extract_period_from_full_result full p name = Err e ->
          In (ErrorExtracting (period_name p) name e) (error_log b)).
Proof.
  intros full_period step b0 Hnames Hnd Hpnd Hfull Hrun.
  rewrite Hnames in Hnd. apply List.NoDup_remove_2 in Hnd.
  set (folded := fold_left (extract_step full name) test_periods
                   (<["Full Period"%string := full]> ∅, error_log b0 ++ logs)).
  assert (Hstep : step b0 name
                  = {| all_results := <[name := fst folded]> (all_results b0);
                       error_log := snd folded;
                       world := w' |}).
  { unfold step, run_strategy. rewrite Hrun. fold folded. now destruct folded. }
  eexists. exists (fst folded). split; [reflexivity|].
  cbn [bind]. fold full_period. fold step. rewrite Hnames, fold_left_app.
  cbn [fold_left]. fold b0. rewrite Hstep.
  split; [|split; [|split]].
  - unfold step. rewrite EngineFacts.fold_other.
    + cbn. apply lookup_insert_eq.
    + intros Hin. apply Hnd. apply in_or_app. now right.
  - unfold folded. rewrite extract_fold_other by exact Hfull. apply lookup_insert_eq.
  - intros p Hp. unfold folded. rewrite (extract_fold_lookup full name _ _ _ p Hpnd Hp).
    destruct (_extract_period_from_full_result full p name); [reflexivity|].
    rewrite lookup_insert_ne; [apply lookup_empty|].
    intros E. apply Hfull. rewrite E. now apply in_map.
  - intros p e Hp He.
    destruct (EngineFacts.fold_log no_kwargs sm strategy_params full_period test_periods after
                {| all_results := <[name := fst folded]> (all_results b0);
                   error_log := snd folded; world := w' |}) as [extra Hx].
    fold step in Hx. rewrite Hx. cbn [error_log]. apply in_or_app. left.
    unfold folded. now apply extract_fold_logged.
Qed.

Lemma successful_strategy_recorded_witness :
  exists b strategy_results,
    run_full_backtest tt (Ok Examples.two_strategies) (mkDate 2020 1 2) (mkDate 2020 1 3)
      [mkPeriod "late" (mkDate 2020 1 3) (mkDate 2020 1 3);
       mkPeriod "never" (mkDate 2021 1 1) (mkDate 2021 1 2)] ∅ tt = Ok b
    /\ all_results b !! "steady"%string = Some strategy_results
    /\ is_Some (strategy_results !! "late"%string)
    /\ strategy_results !! "never"%string = None.
Proof.
  destruct (successful_strategy_recorded tt Examples.two_strategies ∅
              (mkDate 2020 1 2) (mkDate 2020 1 3)
              [mkPeriod "late" (mkDate 2020 1 3) (mkDate 2020 1 3);
               mkPeriod "never" (mkDate 2021 1 1) (mkDate 2021 1 2)] tt
              ["lookback"%string] [] "steady"%string
              (mkResult "steady" "steady" "Full Period" [mkDate 2020 1 2; mkDate 2020 1 3]
                 [fin 1; fin 2] (_normalize_to_percents [fin 1; fin 2])
                 (_calculate_return [fin 1; fin 2]) (_calculate_max_drawdown [fin 1; fin 2])
                 (Some [])) [] tt)
    as (b & sr & H1 & H2 & _ & H4 & _).
  - reflexivity.
  - repeat constructor; cbn; intuition discriminate.
  - repeat constructor; cbn; intuition discriminate.
  - cbn. intuition discriminate.
  - reflexivity.
  - exists b, sr. split; [exact H1|]. split; [exact H2|]. split.
    + pose proof (H4 (mkPeriod "late" (mkDate 2020 1 3) (mkDate 2020 1 3))
                    ltac:(now left)) as Hl.
      cbn [period_name] in Hl. rewrite Hl. vm_compute. eauto.
    + pose proof (H4 (mkPeriod "never" (mkDate 2021 1 1) (mkDate 2021 1 2))
                    ltac:(right; now left)) as Hn.
      cbn [period_name] in Hn. rewrite Hn. reflexivity.
Defined.

End BatchMore.

(** ** Binary search on an ordered grid *)

Module SearchFacts.
Import DataManager Terms DateOrder.

Lemma bsearch_loop_complete (fuel : nat) (l : list date) (t : date) :
  increasing l ->
  forall left right j r,
  0 <= left -> right < Z.of_nat (length l) ->
  left <= Z.of_nat j <= right -> l !! j = Some t ->
  bsearch_loop fuel l t left right = Some r ->
  r = Ok (Z.of_nat j).
Proof.
  intros Hinc. induction fuel as [|fuel IH]; intros left right j r Hl Hr Hj Ht H;
    [discriminate|].
  cbn [bsearch_loop] in H.
  replace (left <=? right) with true in H by (symmetry; apply Z.leb_le; lia).
  assert (Hmid : left <= (left + right) / 2 <= right).
  { split; [apply Z.div_le_lower_bound|apply Z.div_le_upper_bound]; lia. }
  rewrite py_get_nonneg in H by lia.
  destruct (l !! Z.to_nat ((left + right) / 2)) as [d|] eqn:Ed.
  2:{ apply lookup_ge_None in Ed. lia. }
  destruct (date_eqb d t) eqn:Eeq.
  - apply date_eqb_eq in Eeq. subst d. inversion H; subst r. f_equal.
    destruct (Nat.lt_trichotomy (Z.to_nat ((left + right) / 2)) j) as [Hlt|[Heq|Hgt]].
    + pose proof (ManagerFacts.increasing_lookup l _ _ _ _ Hinc Ed Ht Hlt) as Hc.
      now apply ManagerFacts.date_lt_irrefl in Hc.
    + lia.
    + pose proof (ManagerFacts.increasing_lookup l _ _ _ _ Hinc Ht Ed Hgt) as Hc.
      now apply ManagerFacts.date_lt_irrefl in Hc.
  - destruct (date_ltb d t) eqn:Elt.
    + apply date_ltb_lt in Elt.
      pose proof (ManagerFacts.increasing_index_lt l _ _ _ _ Hinc Ed Ht Elt) as Hidx.
      apply (IH ((left + right) / 2 + 1) right j r); try assumption; lia.
    + assert (Hgt : date_lt t d).
      { destruct (date_trichotomy d t) as [Hc|[Hc|Hc]]; [|subst d|exact Hc].
        - apply date_ltb_lt in Hc. congruence.
        - rewrite date_eqb_refl in Eeq. discriminate. }
      pose proof (ManagerFacts.increasing_index_lt l _ _ _ _ Hinc Ht Ed Hgt) as Hidx.
      apply (IH left ((left + right) / 2 - 1) j r); try assumption; lia.
Qed.

(** On an increasing list the search finds the index of any date the list
    holds. *)
Lemma binary_search_hits (l : list date) (t : date) (i : nat) :
  increasing l -> l !! i = Some t -> _binary_search_date l t = Ok (Z.of_nat i).
Proof.
  intros Hinc Hi.
  destruct (ManagerFacts.binary_search_run_total l t) as [r [Hrun Hr]]. rewrite Hr.
  pose proof (lookup_lt_Some _ _ _ Hi) as Hlt.
  eapply (bsearch_loop_complete _ l t Hinc 0 _ i r); eauto; lia.
Qed.

(** X8: on a strictly increasing date list the search returns index [i]
    exactly when the list holds the target date at [i]; a date that is not
    in the list gives the "Date not found" [ValueError]. *)
Theorem binary_search_exact (l : list date) (t : date) :
  increasing l ->
  (forall i : nat, _binary_search_date l t = Ok (Z.of_nat i) <-> l !! i = Some t)
  /\ (forall i : Z, _binary_search_date l t = Ok i -> 0 <= i < Z.of_nat (length l))
  /\ (~ In t l <-> _binary_search_date l t = Err (ValueError (msg_date_not_found t))).
Proof.
  intros Hinc.
  assert (Hfound : forall i : nat, l !! i = Some t -> _binary_search_date l t = Ok (Z.of_nat i))
    by (intros i Hi; now apply binary_search_hits).
  split; [|split].
  - intros i. split; [|apply Hfound].
    intros H. apply ManagerFacts.binary_search_found in H.
    destruct H as [_ H]. now rewrite Nat2Z.id in H.
  - intros i H. now apply ManagerFacts.binary_search_found in H.
  - split; [apply ManagerFacts.binary_search_missing|].
    intros H Hin. apply list_elem_of_In, list_elem_of_lookup in Hin.
    destruct Hin as [i Hi]. rewrite (Hfound i Hi) in H. discriminate.
Qed.

Lemma binary_search_exact_witness :
  _binary_search_date [mkDate 2020 1 2; mkDate 2020 1 3; mkDate 2020 1 6] (mkDate 2020 1 6)
  = Ok 2.
Proof.
  destruct (binary_search_exact [mkDate 2020 1 2; mkDate 2020 1 3; mkDate 2020 1 6]
              (mkDate 2020 1 6)) as [H _]; [repeat constructor|].
  now apply (H 2%nat).
Defined.

End SearchFacts.

(** ** Redirection and restoration of frames and offsets *)

Module RedirectFacts.
Import DataManager Terms Redirection Examples.

Ltac name_let E :=
  match goal with
  | |- context C [let x := ?a in @?b x] =>
      let s := fresh "st" in
      pose (s := a); let g := context C [b s] in change g; cbv beta;
      assert (E : s = a) by reflexivity; clearbody s
  end.

Ltac store_cbn_in E :=
  cbn [dataframes data_arrays date_arrays metadata daily_data_start_index
       monthly_data_start_index original_dataframes_backup
       original_daily_indices_backup original_monthly_indices_backup
       filenames daily_date_range monthly_date_range use_extended_data
       redirect_dict max_lookback_days set_backups set_dataframes set_data_arrays
       set_date_arrays set_metadata set_daily_data_start_index
       set_monthly_data_start_index] in E.

(** What one matched pair does to the attributes of the store: the frame,
    the arrays, the metadata and the two offsets of the original name are
    overwritten by those of the substitute (each only where both names have
    one); the old frame and the old offsets go to the backups. *)
Lemma redirect_one_matched (s : store) (o n : string) (df_o df_n : dataframe) :
  dataframes s !! o = Some df_o -> dataframes s !! n = Some df_n ->
  redirect_one s (o, n) =
  mkStore (use_extended_data s) (redirect_dict s) (max_lookback_days s)
    (<[o := df_n]> (dataframes s)) (filenames s)
    match data_arrays s !! o, data_arrays s !! n with
    | Some _, Some a => <[o := a]> (data_arrays s)
    | _, _ => data_arrays s
    end
    match date_arrays s !! o, date_arrays s !! n with
    | Some _, Some a => <[o := a]> (date_arrays s)
    | _, _ => date_arrays s
    end
    match metadata s !! o, metadata s !! n with
    | Some _, Some a => <[o := a]> (metadata s)
    | _, _ => metadata s
    end
    (daily_date_range s) (monthly_date_range s)
    match daily_data_start_index s !! o, daily_data_start_index s !! n with
    | Some _, Some new => <[o := new]> (daily_data_start_index s)
    | _, _ => daily_data_start_index s
    end
    match monthly_data_start_index s !! o, monthly_data_start_index s !! n with
    | Some _, Some new => <[o := new]> (monthly_data_start_index s)
    | _, _ => monthly_data_start_index s
    end
    (<[o := df_o]> (original_dataframes_backup s))
    match daily_data_start_index s !! o, daily_data_start_index s !! n with
    | Some old, Some _ => <[o := old]> (original_daily_indices_backup s)
    | _, _ => original_daily_indices_backup s
    end
    match monthly_data_start_index s !! o, monthly_data_start_index s !! n with
    | Some old, Some _ => <[o := old]> (original_monthly_indices_backup s)
    | _, _ => original_monthly_indices_backup s
    end.
Proof.
  intros Ho Hn.
  cbv beta iota delta [redirect_one]. rewrite Ho, Hn. cbv beta iota.
  name_let E1. name_let E2. name_let E3. name_let E4. name_let E5. name_let E6.
  destruct s as [ext rd ml dfs fns das dts md ddr mdr ddi mdi bdf bdi bmi].
  cbn [dataframes data_arrays date_arrays metadata daily_data_start_index
       monthly_data_start_index original_dataframes_backup
       original_daily_indices_backup original_monthly_indices_backup
       filenames daily_date_range monthly_date_range use_extended_data
       redirect_dict max_lookback_days] in *.
  store_cbn_in E1. subst st. store_cbn_in E2. subst st0.
  store_cbn_in E3.
  assert (E3' : st1 = mkStore ext rd ml (<[o:=df_n]> dfs) fns
                  match das !! o, das !! n with
                  | Some _, Some a => <[o := a]> das
                  | _, _ => das
                  end dts md ddr mdr ddi mdi (<[o:=df_o]> bdf) bdi bmi).
  { rewrite E3. destruct (das !! o) as [?|]; [destruct (das !! n) as [?|]|]; reflexivity. }
  clear E3. subst st1. store_cbn_in E4.
  set (das' := match das !! o, das !! n with
               | Some _, Some a => <[o := a]> das | _, _ => das end) in *.
  assert (E4' : st2 = mkStore ext rd ml (<[o:=df_n]> dfs) fns das'
                  match dts !! o, dts !! n with
                  | Some _, Some a => <[o := a]> dts
                  | _, _ => dts
                  end md ddr mdr ddi mdi (<[o:=df_o]> bdf) bdi bmi).
  { rewrite E4. destruct (dts !! o) as [?|]; [destruct (dts !! n) as [?|]|]; reflexivity. }
  clear E4. subst st2. store_cbn_in E5.
  set (dts' := match dts !! o, dts !! n with
               | Some _, Some a => <[o := a]> dts | _, _ => dts end) in *.
  assert (E5' : st3 = mkStore ext rd ml (<[o:=df_n]> dfs) fns das' dts'
                  match md !! o, md !! n with
                  | Some _, Some a => <[o := a]> md
                  | _, _ => md
                  end ddr mdr ddi mdi (<[o:=df_o]> bdf) bdi bmi).
  { rewrite E5. destruct (md !! o) as [?|]; [destruct (md !! n) as [?|]|]; reflexivity. }
  clear E5. subst st3. store_cbn_in E6.
  set (md' := match md !! o, md !! n with
              | Some _, Some a => <[o := a]> md | _, _ => md end) in *.
  subst st4.
  destruct (ddi !! o) as [?|]; [destruct (ddi !! n) as [?|]|];
    cbn [dataframes data_arrays date_arrays metadata daily_data_start_index
         monthly_data_start_index original_dataframes_backup
         original_daily_indices_backup original_monthly_indices_backup
         filenames daily_date_range monthly_date_range use_extended_data
         redirect_dict max_lookback_days set_backups set_dataframes set_data_arrays
         set_date_arrays set_metadata set_daily_data_start_index
         set_monthly_data_start_index];
    (destruct (mdi !! o) as [?|]; [destruct (mdi !! n) as [?|]|]); reflexivity.
Qed.

Lemma redirect_one_unmatched (s : store) (o n : string) :
  dataframes s !! o = None \/ dataframes s !! n = None -> redirect_one s (o, n) = s.
Proof.
  intros [H|H]; unfold redirect_one; rewrite H; [reflexivity|].
  now destruct (dataframes s !! o).
Qed.


Lemma union_insert_same {V} (a b : gmap string V) (k : string) (x y : V) :
  (<[k := x]> a ∪ <[k := y]> b) !! k = Some x.
Proof. rewrite lookup_union, lookup_insert_eq. now destruct (<[k:=y]> b !! k). Qed.

Lemma union_insert_other {V} (a b : gmap string V) (k j : string) (x y : V) :
  k <> j -> (<[k := x]> a ∪ <[k := y]> b) !! j = (a ∪ b) !! j.
Proof. intros H. now rewrite !lookup_union, !lookup_insert_ne. Qed.

(** One step of the loop keeps the store a redirected version of the
    original, as long as the name it redirects has no backup yet. *)
Lemma redirect_one_keeps (orig s : store) (o n : string) :
  original_dataframes_backup s !! o = None ->
  redirected_from orig s -> redirected_from orig (redirect_one s (o, n)).
Proof.
  intros Hfresh Inv.
  destruct (dataframes s !! o) as [df_o|] eqn:Ho;
    [|rewrite redirect_one_unmatched; auto].
  destruct (dataframes s !! n) as [df_n|] eqn:Hn;
    [|rewrite redirect_one_unmatched; auto].
  rewrite (redirect_one_matched s o n df_o df_n Ho Hn).
  destruct Inv as (I1 & I2 & I3 & I4).
  destruct (I4 o Hfresh) as (Fo & Do & Mo & BDo & BMo).
  unfold redirected_from, dict_update in *.
  cbn [dataframes daily_data_start_index monthly_data_start_index
       original_dataframes_backup original_daily_indices_backup
       original_monthly_indices_backup].
  repeat match goal with |- _ /\ _ => split end.
  - intros k. destruct (decide (o = k)) as [<-|Hk].
    + rewrite union_insert_same. congruence.
    + rewrite union_insert_other by exact Hk. apply I1.
  - intros k.
    destruct (daily_data_start_index s !! o) as [old|] eqn:E1; [|apply I2].
    destruct (daily_data_start_index s !! n) as [new|] eqn:E2; [|apply I2].
    destruct (decide (o = k)) as [<-|Hk].
    + rewrite union_insert_same. congruence.
    + rewrite union_insert_other by exact Hk. apply I2.
  - intros k.
    destruct (monthly_data_start_index s !! o) as [old|] eqn:E1; [|apply I3].
    destruct (monthly_data_start_index s !! n) as [new|] eqn:E2; [|apply I3].
    destruct (decide (o = k)) as [<-|Hk].
    + rewrite union_insert_same. congruence.
    + rewrite union_insert_other by exact Hk. apply I3.
  - intros k Hb.
    destruct (decide (o = k)) as [<-|Hk]; [now rewrite lookup_insert_eq in Hb|].
    rewrite lookup_insert_ne in Hb by exact Hk.
    destruct (I4 k Hb) as (F & D & M & BD & BM).
    rewrite lookup_insert_ne by exact Hk.
    repeat match goal with |- _ /\ _ => split end; try exact F.
    + destruct (daily_data_start_index s !! o), (daily_data_start_index s !! n);
        rewrite ?lookup_insert_ne by exact Hk; exact D.
    + destruct (monthly_data_start_index s !! o), (monthly_data_start_index s !! n);
        rewrite ?lookup_insert_ne by exact Hk; exact M.
    + destruct (daily_data_start_index s !! o), (daily_data_start_index s !! n);
        rewrite ?lookup_insert_ne by exact Hk; exact BD.
    + destruct (monthly_data_start_index s !! o), (monthly_data_start_index s !! n);
        rewrite ?lookup_insert_ne by exact Hk; exact BM.
Qed.

(** A step only adds a frame backup under the name it redirects. *)
Lemma redirect_one_backup_other (s : store) (o n k : string) :
  o <> k ->
  original_dataframes_backup (redirect_one s (o, n)) !! k
  = original_dataframes_backup s !! k.
Proof.
  intros Hk.
  destruct (dataframes s !! o) as [df_o|] eqn:Ho;
    [|rewrite redirect_one_unmatched; auto].
  destruct (dataframes s !! n) as [df_n|] eqn:Hn;
    [|rewrite redirect_one_unmatched; auto].
  rewrite (redirect_one_matched s o n df_o df_n Ho Hn).
  cbn [original_dataframes_backup]. now rewrite lookup_insert_ne.
Qed.

Lemma redirect_fold_keeps (orig : store) (rd : list (string * string)) :
  forall s,
    List.NoDup (map fst rd) ->
    (forall k, In k (map fst rd) -> original_dataframes_backup s !! k = None) ->
    redirected_from orig s ->
    redirected_from orig (fold_left redirect_one rd s).
Proof.
  induction rd as [|[o n] rd IH]; intros s Hnd Hfresh Inv; [exact Inv|].
  cbn [fold_left]. cbn [map fst] in Hnd, Hfresh.
  inversion Hnd as [|? ? Hnot Hnd']; subst.
  apply IH; [exact Hnd'| |].
  - intros k Hk. rewrite redirect_one_backup_other.
    + apply Hfresh. now right.
    + intros ->. exact (Hnot Hk).
  - apply redirect_one_keeps; [|exact Inv]. apply Hfresh. now left.
Qed.

Lemma redirected_from_self (s s0 : store) :
  no_backups s ->
  dataframes s0 = dataframes s ->
  daily_data_start_index s0 = daily_data_start_index s ->
  monthly_data_start_index s0 = monthly_data_start_index s ->
  original_dataframes_backup s0 = original_dataframes_backup s ->
  original_daily_indices_backup s0 = original_daily_indices_backup s ->
  original_monthly_indices_backup s0 = original_monthly_indices_backup s ->
  redirected_from s s0.
Proof.
  intros (B1 & B2 & B3) E1 E2 E3 E4 E5 E6.
  unfold redirected_from, dict_update.
  rewrite E1, E2, E3, E4, E5, E6, B1, B2, B3.
  repeat match goal with |- _ /\ _ => split end; intros k;
    rewrite ?lookup_union, ?lookup_empty.
  - now destruct (dataframes s !! k).
  - now destruct (daily_data_start_index s !! k).
  - now destruct (monthly_data_start_index s !! k).
  - intros _. repeat match goal with |- _ /\ _ => split end; reflexivity.
Qed.

(** Restoring a redirected version of [orig] gives back the frames and
    offsets of [orig] and leaves no backup. *)
Lemma restore_redirected (orig s : store) :
  redirected_from orig s ->
  let r := restore_original_data s in
  dataframes r = dataframes orig
  /\ daily_data_start_index r = daily_data_start_index orig
  /\ monthly_data_start_index r = monthly_data_start_index orig
  /\ no_backups r.
Proof.
  intros (I1 & I2 & I3 & I4). cbv zeta. unfold restore_original_data, no_backups.
  destruct (bool_decide (original_dataframes_backup s = ∅)) eqn:E.
  - apply bool_decide_eq_true in E.
    assert (N : forall k, original_dataframes_backup s !! k = None)
      by (intros k; rewrite E; apply lookup_empty).
    assert (B2 : original_daily_indices_backup s = ∅)
      by (apply map_eq; intros k; rewrite lookup_empty; apply (I4 k (N k))).
    assert (B3 : original_monthly_indices_backup s = ∅)
      by (apply map_eq; intros k; rewrite lookup_empty; apply (I4 k (N k))).
    repeat match goal with |- _ /\ _ => split end; try assumption;
      apply map_eq; intros k; apply (I4 k (N k)).
  - cbn [dataframes daily_data_start_index monthly_data_start_index
         original_dataframes_backup original_daily_indices_backup
         original_monthly_indices_backup set_backups set_dataframes
         set_daily_data_start_index set_monthly_data_start_index].
    repeat match goal with |- _ /\ _ => split end; try reflexivity;
      apply map_eq; intros k; [apply I1|apply I2|apply I3].
Qed.

(** X9: Applying a redirection map (with distinct keys, as a dict has) to a
    store without pending backups and then restoring gives back the frames,
    the daily and the monthly offsets the store had before, and leaves the
    three backups empty.  *)
Theorem redirect_restore_roundtrip (self : store) (rd : list (string * string)) :
  no_backups self ->
  List.NoDup (map fst rd) ->
  let r := restore_original_data (apply self rd) in
  dataframes r = dataframes self
  /\ daily_data_start_index r = daily_data_start_index self
  /\ monthly_data_start_index r = monthly_data_start_index self
  /\ no_backups r.
Proof.
  intros Hb Hnd. apply restore_redirected.
  unfold apply, _apply_redirection. cbn [redirect_dict].
  apply redirect_fold_keeps; [exact Hnd| |].
  - intros k _. cbn [original_dataframes_backup].
    destruct Hb as (-> & _). apply lookup_empty.
  - apply redirected_from_self; [exact Hb|reflexivity..].
Qed.

Lemma redirect_restore_roundtrip_witness :
  no_backups small_store
  /\ List.NoDup (map fst [("A", "B"); ("LATE", "A"); ("GONE", "A")]%string)
  /\ (let r := restore_original_data
                 (apply small_store [("A", "B"); ("LATE", "A"); ("GONE", "A")]%string) in
      dataframes r = dataframes small_store
      /\ daily_data_start_index r = daily_data_start_index small_store
      /\ monthly_data_start_index r = monthly_data_start_index small_store
      /\ no_backups r).
Proof.
  assert (H1 : no_backups small_store).
  { unfold no_backups. cbn. auto. }
  assert (H2 : List.NoDup (map fst [("A", "B"); ("LATE", "A"); ("GONE", "A")]%string)).
  { apply NoDup_ListNoDup. apply (bool_decide_unpack _). vm_compute. exact I. }
  split; [exact H1|]. split; [exact H2|].
  apply (redirect_restore_roundtrip small_store _ H1 H2).
Defined.

(** A step touches no other name than the one it redirects. *)
Lemma redirect_one_other (s : store) (o n k : string) :
  o <> k ->
  let s' := redirect_one s (o, n) in
  dataframes s' !! k = dataframes s !! k
  /\ data_arrays s' !! k = data_arrays s !! k
  /\ date_arrays s' !! k = date_arrays s !! k
  /\ metadata s' !! k = metadata s !! k
  /\ daily_data_start_index s' !! k = daily_data_start_index s !! k
  /\ monthly_data_start_index s' !! k = monthly_data_start_index s !! k.
Proof.
  intros Hk. cbv zeta.
  destruct (dataframes s !! o) as [df_o|] eqn:Ho;
    [|rewrite redirect_one_unmatched; auto 10].
  destruct (dataframes s !! n) as [df_n|] eqn:Hn;
    [|rewrite redirect_one_unmatched; auto 10].
  rewrite (redirect_one_matched s o n df_o df_n Ho Hn).
  cbn [dataframes data_arrays date_arrays metadata daily_data_start_index
       monthly_data_start_index].
  repeat match goal with |- _ /\ _ => split end.
  - now rewrite lookup_insert_ne.
  - destruct (data_arrays s !! o), (data_arrays s !! n);
      rewrite ?lookup_insert_ne by exact Hk; reflexivity.
  - destruct (date_arrays s !! o), (date_arrays s !! n);
      rewrite ?lookup_insert_ne by exact Hk; reflexivity.
  - destruct (metadata s !! o), (metadata s !! n);
      rewrite ?lookup_insert_ne by exact Hk; reflexivity.
  - destruct (daily_data_start_index s !! o), (daily_data_start_index s !! n);
      rewrite ?lookup_insert_ne by exact Hk; reflexivity.
  - destruct (monthly_data_start_index s !! o), (monthly_data_start_index s !! n);
      rewrite ?lookup_insert_ne by exact Hk; reflexivity.
Qed.

(** [m !! o] after the step, for a map that is overwritten when both names
    have an entry in it. *)
Lemma overwritten_lookup {V} (m : gmap string V) (o n : string) :
  match m !! o, m !! n with
  | Some _, Some a => <[o := a]> m
  | _, _ => m
  end !! o
  = match m !! o, m !! n with
    | Some _, Some a => Some a
    | _, _ => m !! o
    end.
Proof.
  destruct (m !! o) eqn:E1, (m !! n) eqn:E2; rewrite ?lookup_insert_eq; auto.
Qed.

(** What the step leaves under the redirected name. *)
Lemma redirect_one_same (s : store) (o n : string) :
  is_Some (dataframes s !! o) -> is_Some (dataframes s !! n) ->
  let s' := redirect_one s (o, n) in
  let both {V} (m : gmap string V) := is_Some (m !! o) /\ is_Some (m !! n) in
  dataframes s' !! o = dataframes s !! n
  /\ (both (data_arrays s) -> data_arrays s' !! o = data_arrays s !! n)
  /\ (both (date_arrays s) -> date_arrays s' !! o = date_arrays s !! n)
  /\ (both (metadata s) -> metadata s' !! o = metadata s !! n)
  /\ (both (daily_data_start_index s) ->
      daily_data_start_index s' !! o = daily_data_start_index s !! n)
  /\ (both (monthly_data_start_index s) ->
      monthly_data_start_index s' !! o = monthly_data_start_index s !! n).
Proof.
  intros [df_o Ho] [df_n Hn]. cbv zeta.
  rewrite (redirect_one_matched s o n df_o df_n Ho Hn).
  cbn [dataframes data_arrays date_arrays metadata daily_data_start_index
       monthly_data_start_index].
  repeat match goal with |- _ /\ _ => split end.
  - now rewrite lookup_insert_eq.
  - intros [[? E1] [? E2]]. rewrite E1, E2. rewrite lookup_insert_eq; auto.
  - intros [[? E1] [? E2]]. rewrite E1, E2. rewrite lookup_insert_eq; auto.
  - intros [[? E1] [? E2]]. rewrite E1, E2. rewrite lookup_insert_eq; auto.
  - intros [[? E1] [? E2]]. rewrite E1, E2. rewrite lookup_insert_eq; auto.
  - intros [[? E1] [? E2]]. rewrite E1, E2. rewrite lookup_insert_eq; auto.
Qed.

Lemma redirect_fold_other (rd : list (string * string)) (k : string) :
  forall s,
    ~ In k (map fst rd) ->
    let s' := fold_left redirect_one rd s in
    dataframes s' !! k = dataframes s !! k
    /\ data_arrays s' !! k = data_arrays s !! k
    /\ date_arrays s' !! k = date_arrays s !! k
    /\ metadata s' !! k = metadata s !! k
    /\ daily_data_start_index s' !! k = daily_data_start_index s !! k
    /\ monthly_data_start_index s' !! k = monthly_data_start_index s !! k.
Proof.
  induction rd as [|[o n] rd IH]; intros s Hk; cbv zeta; [auto 10|].
  cbn [fold_left]. cbn [map fst] in Hk.
  assert (Ho : o <> k) by (intros ->; apply Hk; now left).
  assert (Hk' : ~ In k (map fst rd)) by (intros H; apply Hk; now right).
  destruct (IH (redirect_one s (o, n)) Hk') as (A1 & A2 & A3 & A4 & A5 & A6).
  destruct (redirect_one_other s o n k Ho) as (B1 & B2 & B3 & B4 & B5 & B6).
  rewrite A1, A2, A3, A4, A5, A6. auto 10.
Qed.

(** X10: [_apply_redirection] is a pointwise substitution when no substitute
    is itself redirected: a name that is not a key of the map keeps its
    frame, arrays, metadata and offsets; a key whose two names both have a
    frame gets the frame of its substitute, and the arrays, the metadata and
    the offsets of the substitute wherever both names have one. *)
Theorem redirection_substitutes (self : store) (rd : list (string * string)) :
  List.NoDup (map fst rd) ->
  (forall o n, In (o, n) rd -> ~ In n (map fst rd)) ->
  let s' := apply self rd in
  (forall k, ~ In k (map fst rd) ->
     dataframes s' !! k = dataframes self !! k
     /\ data_arrays s' !! k = data_arrays self !! k
     /\ date_arrays s' !! k = date_arrays self !! k
     /\ metadata s' !! k = metadata self !! k
     /\ daily_data_start_index s' !! k = daily_data_start_index self !! k
     /\ monthly_data_start_index s' !! k = monthly_data_start_index self !! k)
  /\ (forall o n, In (o, n) rd ->
        is_Some (dataframes self !! o) -> is_Some (dataframes self !! n) ->
        let both {V} (m : gmap string V) := is_Some (m !! o) /\ is_Some (m !! n) in
        dataframes s' !! o = dataframes self !! n
        /\ (both (data_arrays self) -> data_arrays s' !! o = data_arrays self !! n)
        /\ (both (date_arrays self) -> date_arrays s' !! o = date_arrays self !! n)
        /\ (both (metadata self) -> metadata s' !! o = metadata self !! n)
        /\ (both (daily_data_start_index self) ->
            daily_data_start_index s' !! o = daily_data_start_index self !! n)
        /\ (both (monthly_data_start_index self) ->
            monthly_data_start_index s' !! o = monthly_data_start_index self !! n)).
Proof.
  intros Hnd Hsub. cbv zeta. unfold apply, _apply_redirection. cbn [redirect_dict].
  set (s0 := mkStore _ _ _ _ _ _ _ _ _ _ _ _ _ _ _).
  change (dataframes self) with (dataframes s0).
  change (data_arrays self) with (data_arrays s0).
  change (date_arrays self) with (date_arrays s0).
  change (metadata self) with (metadata s0).
  change (daily_data_start_index self) with (daily_data_start_index s0).
  change (monthly_data_start_index self) with (monthly_data_start_index s0).
  clearbody s0. split; [intros k Hk; apply (redirect_fold_other rd k s0 Hk)|].
  revert s0 Hnd Hsub.
  induction rd as [|[o1 n1] rd IH]; intros s Hnd Hsub o n Hin Fo Fn; [destruct Hin|].
  cbn [fold_left]. cbn [map fst] in Hnd.
  inversion Hnd as [|? ? Hnot Hnd']; subst.
  destruct Hin as [[= -> ->]|Hin].
  - (* the pair processed now: the later pairs leave [o] alone *)
    destruct (redirect_fold_other rd o (redirect_one s (o, n)) Hnot)
      as (A1 & A2 & A3 & A4 & A5 & A6).
    rewrite A1, A2, A3, A4, A5, A6.
    exact (redirect_one_same s o n Fo Fn).
  - (* a later pair: this step changes neither of its names *)
    assert (Ho : o1 <> o).
    { intros ->. apply Hnot. apply in_map_iff. now exists (o, n). }
    assert (Hn : o1 <> n).
    { intros ->. apply (Hsub o n); [now right|]. now left. }
    destruct (redirect_one_other s o1 n1 o Ho) as (B1 & B2 & B3 & B4 & B5 & B6).
    destruct (redirect_one_other s o1 n1 n Hn) as (C1 & C2 & C3 & C4 & C5 & C6).
    assert (Hsub' : forall o n, In (o, n) rd -> ~ In n (map fst rd)).
    { intros o' n' H' H''. apply (Hsub o' n'); [now right|]. now right. }
    specialize (IH (redirect_one s (o1, n1)) Hnd' Hsub' o n Hin).
    cbv zeta in IH.
    rewrite B1, B2, B3, B4, B5, B6, C1, C2, C3, C4, C5, C6 in IH.
    apply IH; assumption.
Qed.

Lemma redirection_substitutes_witness :
  List.NoDup (map fst [("A", "B"); ("LATE", "B")]%string)
  /\ (forall o n, In (o, n) [("A", "B"); ("LATE", "B")]%string ->
        ~ In n (map fst [("A", "B"); ("LATE", "B")]%string))
  /\ dataframes (apply small_store [("A", "B"); ("LATE", "B")]%string) !! "LATE"%string
     = Some frame_B.
Proof.
  assert (H1 : List.NoDup (map fst [("A", "B"); ("LATE", "B")]%string)).
  { apply NoDup_ListNoDup. apply (bool_decide_unpack _). vm_compute. exact I. }
  assert (H2 : forall o n, In (o, n) [("A", "B"); ("LATE", "B")]%string ->
                 ~ In n (map fst [("A", "B"); ("LATE", "B")]%string)).
  { intros o n [[= <- <-]|[[= <- <-]|[]]] [G|[G|[]]]; discriminate. }
  split; [exact H1|]. split; [exact H2|].
  destruct (redirection_substitutes small_store _ H1 H2) as [_ Hs].
  destruct (Hs "LATE"%string "B"%string) as [Hf _].
  - right. now left.
  - now exists frame_LATE.
  - now exists frame_B.
  - rewrite Hf. reflexivity.
Defined.

End RedirectFacts.

(** ** Reads through an accessor *)

Module ReadFacts.
Import DataManager Terms Examples MoreExamples.

Lemma insert_present_is_Some {V} (m : gmap string V) (k j : string) (x : V) :
  is_Some (m !! k) -> (is_Some (<[k := x]> m !! j) <-> is_Some (m !! j)).
Proof.
  intros Hk. destruct (decide (k = j)) as [<-|Hne].
  - rewrite lookup_insert_eq. split; [intros _; exact Hk|intros _; now exists x].
  - now rewrite lookup_insert_ne.
Qed.

(** Caching an indicator column does not change how names are resolved. *)
Lemma actual_name_after_caching (self : store) (name k key : string)
    (df' : dataframe) (vals : list fnum) :
  is_Some (dataframes self !! k) ->
  actual_name_of
    (set_data_arrays (set_dataframes self (<[k := df']> (dataframes self)))
       (<[key := vals]> (data_arrays self))) name
  = actual_name_of self name.
Proof.
  intros Hk. unfold actual_name_of.
  cbn [use_extended_data dataframes set_data_arrays set_dataframes].
  destruct (use_extended_data self); [|reflexivity].
  rewrite (bool_decide_ext _ _ (insert_present_is_Some _ k _ df' Hk)). reflexivity.
Qed.

Section Reads.
Variable K : TechnicalIndicators.kernels.

(** X11: a read is repeatable. Whatever a call of the accessor returns and
    whatever store it leaves, the same call on the store it left returns the
    same outcome and leaves that store unchanged: an indicator is computed
    at most once, the second read finds the cached column. *)
Theorem repeated_read_is_stable (acc : accessor) (self : store) (name : string)
    (i : Z) (property : string) (r : result scalar) (after : store) :
  get_value K acc self name i property = (r, after) ->
  get_value K acc after name i property = (r, after).
Proof.
  intros H. pose proof H as H0. unfold get_value in H.
  set (an := actual_name_of self name) in *.
  destruct (dataframes self !! an) as [df|] eqn:Edf;
    [|injection H as <- <-; exact H0].
  destruct (dict_get (filenames self) an) as [info|e] eqn:Efn;
    [|injection H as <- <-; exact H0].
  destruct (data_index_of self acc an (fi_frequency info) i) as [d|e] eqn:Ed;
    [|injection H as <- <-; exact H0].
  destruct (d <? 0) eqn:Eneg; [injection H as <- <-; exact H0|].
  destruct (String.eqb property "") eqn:Ep1.
  { destruct (data_arrays self !! an); injection H as <- <-; exact H0. }
  destruct (String.eqb property "Date") eqn:Ep2.
  { destruct (date_arrays self !! an); injection H as <- <-; exact H0. }
  unfold _get_property_value in H.
  assert (Edg : dict_get (dataframes self) an = Ok df)
    by (unfold dict_get; now rewrite Edf).
  rewrite Edg in H.
  destruct (df_columns df !! property) as [col|] eqn:Ecol;
    [injection H as <- <-; exact H0|].
  destruct (data_arrays self !! String.append an (String.append "_" property))
    as [arr|] eqn:Ecache; [injection H as <- <-; exact H0|].
  destruct (TechnicalIndicators.compute_indicator K df (fi_source info)
              (max_lookback_days self) property) as [[vals|]|e] eqn:Eci;
    [|injection H as <- <-; exact H0|injection H as <- <-; exact H0].
  injection H as <- <-. clear H0.
  unfold get_value.
  rewrite actual_name_after_caching by (rewrite Edf; eauto).
  fold an.
  cbn [dataframes filenames data_arrays date_arrays set_data_arrays set_dataframes].
  rewrite lookup_insert_eq. rewrite Efn.
  change (data_index_of _ acc an (fi_frequency info) i)
    with (data_index_of self acc an (fi_frequency info) i).
  rewrite Ed, Eneg, Ep1, Ep2.
  unfold _get_property_value, dict_get.
  cbn [dataframes data_arrays set_data_arrays set_dataframes].
  rewrite lookup_insert_eq. cbn [df_columns df_set_col].
  rewrite lookup_insert_eq. reflexivity.
Qed.

(** Where a successful ['Date'] read of a daily asset looks: at position
    [daily_start_index + i - own offset] of the asset's date array. *)
Lemma daily_date_read_position (acc : accessor) (self : store) (name : string)
    (i start own : Z) (dates : list date) (info : file_info)
    (d : date) (after : store) :
  let actual := actual_name_of self name in
  acc_daily_start_index acc = Some start ->
  filenames self !! actual = Some info ->
  fi_frequency info = "daily"%string ->
  daily_data_start_index self !! actual = Some own ->
  date_arrays self !! actual = Some dates ->
  get_value K acc self name i "Date" = (Ok (SDate d), after) ->
  0 <= start + i - own
  /\ dates !! Z.to_nat (start + i - own) = Some d
  /\ after = self.
Proof.
  intros actual Hstart Hinfo Hfreq Hown Hdates H.
  unfold get_value in H. fold actual in H.
  destruct (dataframes self !! actual) as [df|]; [|discriminate].
  unfold dict_get in H at 1. rewrite Hinfo in H.
  unfold data_index_of in H. rewrite Hfreq in H. cbn [String.eqb Ascii.eqb Bool.eqb] in H.
  rewrite Hstart in H. unfold dict_get in H. rewrite Hown in H. cbn [bind] in H.
  destruct (start + i - own <? 0) eqn:Eneg; [discriminate|].
  apply Z.ltb_ge in Eneg.
  cbn [String.eqb Ascii.eqb Bool.eqb] in H. rewrite Hdates in H.
  destruct (py_get dates (start + i - own)) as [x|e] eqn:Eget; [|discriminate].
  cbn [bind] in H. injection H as -> <-.
  rewrite (py_get_nonneg _ _ Eneg) in Eget.
  destruct (dates !! Z.to_nat (start + i - own)) as [y|] eqn:El; [|discriminate].
  injection Eget as ->. auto.
Qed.

(** X12: daily dates are aligned with the master grid. For a daily asset
    whose date array is the part of the daily grid that starts at the
    asset's own offset, a successful ['Date'] read at simulated day [i]
    returns the grid's date at position [daily_start_index + i], whatever
    the asset; the store is left as it was. *)
Theorem daily_date_read_aligned (acc : accessor) (self : store) (name : string)
    (i start own : Z) (grid dates : list date) (info : file_info)
    (d : date) (after : store) :
  let actual := actual_name_of self name in
  daily_date_range self = Some grid ->
  acc_daily_start_index acc = Some start ->
  filenames self !! actual = Some info ->
  fi_frequency info = "daily"%string ->
  daily_data_start_index self !! actual = Some own ->
  0 <= own ->
  date_arrays self !! actual = Some dates ->
  (forall (j : nat) x, dates !! j = Some x -> grid !! (Z.to_nat own + j)%nat = Some x) ->
  get_value K acc self name i "Date" = (Ok (SDate d), after) ->
  0 <= start + i /\ grid !! Z.to_nat (start + i) = Some d /\ after = self.
Proof.
  intros actual Hgrid Hstart Hinfo Hfreq Hown Hpos Hdates Hslice H.
  destruct (daily_date_read_position acc self name i start own dates info d after
              Hstart Hinfo Hfreq Hown Hdates H) as (Hidx & El & Hafter).
  apply Hslice in El.
  replace (Z.to_nat own + Z.to_nat (start + i - own))%nat
    with (Z.to_nat (start + i)) in El by lia.
  repeat match goal with |- _ /\ _ => split end; [lia|exact El|exact Hafter].
Qed.

(** X22: the first simulated day is the backtest start date. With an
    accessor built by [get_data_accessor] for a start date, a successful
    ['Date'] read at day 0 of a daily asset whose date array is the part of
    the daily grid from its own offset on returns that start date. *)
Theorem first_day_is_start_date (self : store) (start_date : date) (acc : accessor)
    (name : string) (own : Z) (grid dates : list date) (info : file_info)
    (d : date) (after : store) :
  let actual := actual_name_of self name in
  get_data_accessor self start_date = Ok acc ->
  daily_date_range self = Some grid -> grid <> [] ->
  filenames self !! actual = Some info ->
  fi_frequency info = "daily"%string ->
  daily_data_start_index self !! actual = Some own ->
  0 <= own ->
  date_arrays self !! actual = Some dates ->
  (forall (j : nat) x, dates !! j = Some x -> grid !! (Z.to_nat own + j)%nat = Some x) ->
  get_value K acc self name 0 "Date" = (Ok (SDate d), after) ->
  d = start_date.
Proof.
  intros actual Hacc Hgrid Hne Hinfo Hfreq Hown Hpos Hdates Hslice H.
  unfold get_data_accessor in Hacc. rewrite Hgrid in Hacc.
  assert (Ht : truthy_range (Some grid) = Some grid)
    by (destruct grid; [contradiction|reflexivity]).
  rewrite Ht in Hacc.
  destruct (_binary_search_date grid start_date) as [s|] eqn:Es; [|discriminate].
  cbn [bind] in Hacc.
  assert (Hs : acc_daily_start_index acc = Some s).
  { destruct (truthy_range (monthly_date_range self)) as [mg|].
    - destruct (_binary_search_date mg (replace_day1 start_date)); [|discriminate].
      cbn [bind] in Hacc. now injection Hacc as <-.
    - cbn [bind] in Hacc. now injection Hacc as <-. }
  apply ManagerFacts.binary_search_found in Es. destruct Es as [Hrange Hfound].
  destruct (daily_date_read_position acc self name 0 s own dates info d after
              Hs Hinfo Hfreq Hown Hdates H) as (Hidx & El & _).
  apply Hslice in El.
  replace (Z.to_nat own + Z.to_nat (s + 0 - own))%nat with (Z.to_nat s) in El by lia.
  congruence.
Qed.

(** X23: name resolution. When extended data is preferred and the store
    holds [ext_<name>] (and no [ext_ext_<name>]), a read of [name] is the
    read of [ext_<name>]: same outcome, same store left. Without the
    preference, or without the extended variant, the name is read as it
    is. *)
Theorem extended_name_is_read (acc : accessor) (self : store) (name : string)
    (i : Z) (property : string) :
  let ext_name := String.append "ext_" name in
  (use_extended_data self = true ->
   is_Some (dataframes self !! ext_name) ->
   dataframes self !! String.append "ext_" ext_name = None ->
   get_value K acc self name i property = get_value K acc self ext_name i property)
  /\ (use_extended_data self = false \/ dataframes self !! ext_name = None ->
      actual_name_of self name = name).
Proof.
  intros ext_name. split.
  - intros Hext Hsome Hnone.
    assert (E1 : actual_name_of self name = ext_name).
    { unfold actual_name_of. rewrite Hext. fold ext_name.
      now rewrite (bool_decide_eq_true_2 _ Hsome). }
    assert (E2 : actual_name_of self ext_name = ext_name).
    { unfold actual_name_of. rewrite Hext.
      rewrite bool_decide_eq_false_2; [reflexivity|].
      rewrite Hnone. intros [? Hx]. discriminate Hx. }
    unfold get_value. rewrite E1, E2. reflexivity.
  - intros [Hoff|Hnone]; unfold actual_name_of.
    + now rewrite Hoff.
    + destruct (use_extended_data self); [|reflexivity].
      fold ext_name. rewrite bool_decide_eq_false_2; [reflexivity|].
      rewrite Hnone. intros [? Hx]. discriminate Hx.
Qed.

End Reads.

Lemma repeated_read_is_stable_witness :
  data_arrays small_store !! "A_MA2"%string = None
  /\ (let first := get_value no_kernels accessor_day1 small_store "A" 1 "MA2" in
      get_value no_kernels accessor_day1 (snd first) "A" 1 "MA2" = first).
Proof.
  split; [reflexivity|]. cbv zeta.
  eapply (repeated_read_is_stable no_kernels accessor_day1 small_store "A" 1 "MA2").
  reflexivity.
Defined.

Lemma daily_date_read_aligned_witness :
  fst (get_value no_kernels accessor_day1 small_store "LATE" 1 "Date") = Ok (SDate day2)
  /\ [day1; day2] !! Z.to_nat (0 + 1) = Some day2.
Proof.
  split; [reflexivity|].
  refine (proj1 (proj2 (daily_date_read_aligned no_kernels accessor_day1 small_store
            "LATE" 1 0 1 [day1; day2] [day2] (daily_info day2) day2 small_store
            _ _ _ _ _ _ _ _ _))); try reflexivity; try lia.
  intros [|[|j]] x Hx; try discriminate Hx. exact Hx.
Defined.

Lemma first_day_is_start_date_witness :
  get_data_accessor small_store day1 = Ok accessor_day1
  /\ exists d, get_value no_kernels accessor_day1 small_store "B" 0 "Date"
               = (Ok (SDate d), small_store)
               /\ d = day1.
Proof.
  split; [reflexivity|]. exists day1.
  assert (H : get_value no_kernels accessor_day1 small_store "B" 0 "Date"
              = (Ok (SDate day1), small_store)) by reflexivity.
  split; [exact H|].
  refine (first_day_is_start_date no_kernels small_store day1 accessor_day1 "B" 0
            [day1; day2] [day1; day2] (daily_info day1) day1 small_store
            _ _ _ _ _ _ _ _ _ H); try reflexivity; try lia; try discriminate.
  intros j x Hx. exact Hx.
Defined.

Lemma extended_name_is_read_witness :
  get_value no_kernels accessor_day1 extended_store "A" 1 ""
  = get_value no_kernels accessor_day1 extended_store "ext_A" 1 ""
  /\ fst (get_value no_kernels accessor_day1 extended_store "A" 1 "") = Ok (SNum (fin 21)).
Proof.
  split; [|reflexivity].
  apply (proj1 (extended_name_is_read no_kernels accessor_day1 extended_store "A" 1 ""));
    [reflexivity|now exists frame_B|reflexivity].
Defined.

End ReadFacts.

(** ** Shapes and special cases of the indicators *)

Module IndicatorMore.
Import TechnicalIndicators Terms Examples IndicatorFacts.

Lemma rsi_deltas_length (prices : list fnum) :
  length (rsi_deltas prices) = length prices.
Proof.
  destruct prices as [|p tl]; [reflexivity|].
  cbn [rsi_deltas length]. f_equal. rewrite length_zip_with. cbn [length]. lia.
Qed.

Lemma wilder_loop_length (period : nat) (gl : list (fnum * fnum)) :
  forall ag al, length (wilder_loop period ag al gl) = length gl.
Proof.
  induction gl as [|[g l] gl IH]; intros ag al; [reflexivity|].
  cbn [wilder_loop length]. now rewrite IH.
Qed.

Lemma rsi_table_length (period : nat) (prices : list fnum) :
  length (rsi_table period prices) = length prices.
Proof.
  unfold rsi_table. destruct (period <? length prices)%nat eqn:E.
  - apply Nat.ltb_lt in E.
    rewrite length_app, repeat_length. cbn [length].
    rewrite wilder_loop_length, length_skipn, length_combine.
    unfold rsi_gains, rsi_losses. rewrite !length_map, rsi_deltas_length. lia.
  - apply repeat_length.
Qed.

Lemma ema_loop_length (alpha : fnum) (prices : list fnum) :
  forall prev, length (ema_loop alpha prev prices) = length prices.
Proof.
  induction prices as [|p rest IH]; intros prev; [reflexivity|].
  cbn [ema_loop length]. now rewrite IH.
Qed.

Lemma compute_ema_length (prices : list fnum) (period : nat) :
  length (_compute_ema prices period) = length prices.
Proof.
  unfold _compute_ema.
  destruct (first_valid_idx prices) as [k|]; [|apply repeat_length].
  destruct (length prices - k <? period)%nat eqn:El; [apply repeat_length|].
  apply Nat.ltb_ge in El.
  destruct (length (List.filter _ _) <? period)%nat; [apply repeat_length|].
  destruct period as [|p]; [apply repeat_length|].
  rewrite length_app, repeat_length. cbn [length].
  rewrite ema_loop_length, length_skipn. lia.
Qed.

Lemma ma_open_close_length (period : nat) (opens closes v : list fnum) (n : nat) :
  ma_open_close period opens closes n = Ok v -> length v = n.
Proof.
  unfold ma_open_close.
  destruct (n <? period)%nat.
  - intros [= <-]. apply repeat_length.
  - destruct ((period =? 0) && (n =? 0))%nat; [discriminate|].
    intros [= <-]. now rewrite length_map, length_seq.
Qed.

(** X13: the RSI and EMA series have the length of their input, and the RSI
    is NaN below the period; a moving average computed from the [Open] and
    [Close] columns has the length of the table. *)
Theorem indicator_shapes :
  (forall period prices,
      length (rsi_of_prices period prices) = length prices
      /\ forall i, (i < period)%nat -> (i < length prices)%nat ->
           nth_error (rsi_of_prices period prices) i = Some NaN)
  /\ (forall prices period, length (_compute_ema prices period) = length prices)
  /\ (forall K df source period opens closes v,
        df_col df "Open" = Ok opens -> df_col df "Close" = Ok closes ->
        _compute_moving_average K df source period = Ok v ->
        length v = df_len df).
Proof.
  split; [intros period prices; split|split].
  - unfold rsi_of_prices. now rewrite length_map, rsi_table_length.
  - intros i Hp Hn. unfold rsi_of_prices. rewrite nth_error_map.
    unfold rsi_table. destruct (period <? length prices)%nat.
    + rewrite nth_error_app1 by (rewrite repeat_length; exact Hp).
      now rewrite nth_error_repeat_lt.
    + now rewrite nth_error_repeat_lt.
  - intros prices period. apply compute_ema_length.
  - intros K df source period opens closes v Ho Hc.
    unfold _compute_moving_average. rewrite Ho, Hc.
    destruct (df_len df <? period)%nat.
    + intros [= <-]. apply repeat_length.
    + apply ma_open_close_length.
Qed.

(** *** RSI on monotone prices *)

(** The differences of consecutive values of a list sorted by [R]. *)
Lemma deltas_of_sorted (R : Q -> Q -> Prop) (P : Q -> Prop) :
  (forall a b, R a b -> P (b - a)%Q) ->
  forall tl q, StronglySorted R (q :: tl) ->
    Forall (fun d => exists x, d = fin x /\ P x)
           (zip_with fsub (map fin tl) (map fin (q :: tl))).
Proof.
  intros HR. induction tl as [|t tl IH]; intros q Hs; [constructor|].
  cbn [map zip_with]. apply StronglySorted_inv in Hs. destruct Hs as [Hs Hq].
  constructor.
  - exists (t - q)%Q. split; [reflexivity|]. apply HR.
    apply Forall_cons_1 in Hq. tauto.
  - exact (IH t Hs).
Qed.

Lemma losses_of_rising (ds : list fnum) :
  Forall (fun d => exists x, d = fin x /\ (0 <= x)%Q) ds ->
  Forall (fun l => l = fin 0) (rsi_losses ds).
Proof.
  intros H. unfold rsi_losses. apply Forall_map.
  apply (Forall_impl _ _ _ H). intros d (x & -> & Hx).
  unfold flt, fgt, fin. cbn.
  now rewrite (proj2 (Qle_bool_iff 0 x) Hx).
Qed.

Lemma gains_of_falling (ds : list fnum) :
  Forall (fun d => exists x, d = fin x /\ (x <= 0)%Q) ds ->
  Forall (fun g => g = fin 0) (rsi_gains ds).
Proof.
  intros H. unfold rsi_gains. apply Forall_map.
  apply (Forall_impl _ _ _ H). intros d (x & -> & Hx).
  unfold fgt, fin. cbn.
  now rewrite (proj2 (Qle_bool_iff x 0) Hx).
Qed.

Lemma losses_of_falling (ds : list fnum) :
  Forall (fun d => exists x, d = fin x /\ (x < 0)%Q) ds ->
  Forall (fun l => exists y, l = fin y /\ (0 < y)%Q) (rsi_losses ds).
Proof.
  intros H. unfold rsi_losses. apply Forall_map.
  apply (Forall_impl _ _ _ H). intros d (x & -> & Hx).
  unfold flt, fgt, fin. cbn.
  destruct (Qle_bool 0 x) eqn:E.
  - apply Qle_bool_iff in E. lra.
  - cbn. exists (0 - x)%Q. split; [reflexivity|lra].
Qed.

(** Sums and means of numbers. *)
Lemma fold_fadd_zero (ls : list fnum) :
  Forall (fun l => l = fin 0) ls ->
  forall acc, (acc == 0)%Q -> exists s, fold_left fadd ls (fin acc) = fin s /\ (s == 0)%Q.
Proof.
  induction 1 as [|l ls -> _ IH]; intros acc Hacc; [now exists acc|].
  cbn [fold_left]. apply (IH (acc + 0)%Q). lra.
Qed.

Lemma fold_fadd_positive (ls : list fnum) :
  Forall (fun l => exists y, l = fin y /\ (0 < y)%Q) ls ->
  forall acc, exists s, fold_left fadd ls (fin acc) = fin s
                        /\ (acc <= s)%Q /\ (ls <> [] -> (acc < s)%Q).
Proof.
  induction 1 as [|l ls (y & -> & Hy) _ IH]; intros acc.
  - exists acc. split; [reflexivity|]. split; [lra|]. intros H; contradiction.
  - cbn [fold_left]. destruct (IH (acc + y)%Q) as (s & Hs & Hle & _).
    exists s. split; [exact Hs|]. split; [lra|]. intros _. lra.
Qed.

Lemma inject_nat_pos (n : nat) : (0 < n)%nat -> (0 < inject_Z (Z.of_nat n))%Q.
Proof. intros H. change 0%Q with (inject_Z 0). rewrite <- Zlt_Qlt. lia. Qed.

Lemma np_mean_zero (ls : list fnum) :
  ls <> [] -> Forall (fun l => l = fin 0) ls ->
  exists m, np_mean ls = fin m /\ (m == 0)%Q.
Proof.
  intros Hne H. destruct (fold_fadd_zero ls H 0%Q) as (s & Hs & Hs0); [reflexivity|].
  assert (Hn : (0 < inject_Z (Z.of_nat (length ls)))%Q).
  { apply inject_nat_pos. destruct ls; [contradiction|cbn; lia]. }
  exists (s / inject_Z (Z.of_nat (length ls)))%Q. split.
  - destruct ls as [|l ls]; [contradiction|].
    unfold np_mean, np_sum. change (fin 0) with (Some 0%Q) in Hs at 1.
    unfold fin in Hs at 1. unfold fin at 1. rewrite Hs. unfold fofZ.
    apply fdiv_fin. lra.
  - rewrite Hs0. field. lra.
Qed.

Lemma np_mean_positive (ls : list fnum) :
  ls <> [] -> Forall (fun l => exists y, l = fin y /\ (0 < y)%Q) ls ->
  exists m, np_mean ls = fin m /\ (0 < m)%Q.
Proof.
  intros Hne H. destruct (fold_fadd_positive ls H 0%Q) as (s & Hs & _ & Hpos).
  specialize (Hpos Hne).
  assert (Hn : (0 < inject_Z (Z.of_nat (length ls)))%Q).
  { apply inject_nat_pos. destruct ls; [contradiction|cbn; lia]. }
  exists (s / inject_Z (Z.of_nat (length ls)))%Q. split.
  - destruct ls as [|l ls]; [contradiction|].
    unfold np_mean, np_sum. rewrite Hs. unfold fofZ.
    apply fdiv_fin. lra.
  - apply Qlt_shift_div_l; lra.
Qed.

(** One smoothing step of an average that is zero, with a zero addend. *)
Lemma wilder_step_zero (period : nat) (q : Q) :
  (1 <= period)%nat -> (q == 0)%Q ->
  exists q', wilder_step period (fin q) (fin 0) = fin q' /\ (q' == 0)%Q.
Proof.
  intros Hp Hq. unfold wilder_step, fmul, fadd, lift2, fofZ, fin.
  assert (Hn : (0 < inject_Z (Z.of_nat period))%Q) by (apply inject_nat_pos; lia).
  eexists. split; [apply fdiv_fin; lra|].
  rewrite Hq. field. lra.
Qed.

Lemma wilder_step_positive (period : nat) (l y : Q) :
  (1 <= period)%nat -> (0 < l)%Q -> (0 < y)%Q ->
  exists l', wilder_step period (fin l) (fin y) = fin l' /\ (0 < l')%Q.
Proof.
  intros Hp Hl Hy. unfold wilder_step, fmul, fadd, lift2, fofZ, fin.
  assert (Hn : (0 < inject_Z (Z.of_nat period))%Q) by (apply inject_nat_pos; lia).
  assert (Hn1 : (0 <= inject_Z (Z.of_nat period - 1))%Q).
  { change 0%Q with (inject_Z 0). rewrite <- Zle_Qle. lia. }
  eexists. split; [apply fdiv_fin; lra|].
  assert (0 <= l * inject_Z (Z.of_nat period - 1))%Q
    by (apply Qmult_le_0_compat; lra).
  apply Qlt_shift_div_l; lra.
Qed.

Lemma rsi_value_zero_gain (g l : Q) :
  (g == 0)%Q -> (0 < l)%Q ->
  exists r, rsi_value (fin g) (fin l) = fin r /\ (r == 0)%Q.
Proof.
  intros Hg Hl. unfold rsi_value.
  change (feq0 (fin l)) with (Qeq_bool l 0).
  rewrite (Qeq_bool_neq_false l 0) by lra.
  assert (Hrs : (g / l == 0)%Q) by (rewrite Hg; field; lra).
  rewrite (fdiv_fin g l) by lra.
  change (fadd (fin 1) (fin (g / l))) with (fin (1 + g / l)).
  rewrite (fdiv_fin 100 (1 + g / l)) by lra.
  exists (100 - 100 / (1 + g / l))%Q. split; [reflexivity|]. rewrite Hrs. field.
Qed.

Lemma wilder_loop_rising (period : nat) (gl : list (fnum * fnum)) :
  (1 <= period)%nat ->
  Forall (fun p => snd p = fin 0) gl ->
  forall ag q, (q == 0)%Q ->
    Forall (fun row => snd row = fin 100) (wilder_loop period ag (fin q) gl).
Proof.
  intros Hp. induction 1 as [|[g l] gl Hl _ IH]; intros ag q Hq; [constructor|].
  cbn [snd] in Hl. subst l. cbn [wilder_loop].
  destruct (wilder_step_zero period q Hp Hq) as (q' & -> & Hq').
  constructor; [cbn [snd]; now apply rsi_value_zero_loss|].
  now apply IH.
Qed.

Lemma wilder_loop_falling (period : nat) (gl : list (fnum * fnum)) :
  (1 <= period)%nat ->
  Forall (fun p => fst p = fin 0 /\ exists y, snd p = fin y /\ (0 < y)%Q) gl ->
  forall g l, (g == 0)%Q -> (0 < l)%Q ->
    Forall (fun row => exists r, snd row = fin r /\ (r == 0)%Q)
           (wilder_loop period (fin g) (fin l) gl).
Proof.
  intros Hp. induction 1 as [|[g1 l1] gl [Hg1 (y & Hl1 & Hy)] _ IH]; intros g l Hg Hl;
    [constructor|].
  cbn [fst snd] in Hg1, Hl1. subst g1 l1. cbn [wilder_loop].
  destruct (wilder_step_zero period g Hp Hg) as (g' & -> & Hg').
  destruct (wilder_step_positive period l y Hp Hl Hy) as (l' & -> & Hl').
  constructor; [cbn [snd]; now apply rsi_value_zero_gain|].
  now apply IH.
Qed.

Lemma Forall_combine_both {A B} (P : A -> Prop) (R : B -> Prop)
    (xs : list A) (ys : list B) :
  Forall P xs -> Forall R ys ->
  Forall (fun p => P (fst p) /\ R (snd p)) (combine xs ys).
Proof.
  intros Hx. revert ys. induction Hx as [|x xs Hx _ IH]; intros ys Hy; [constructor|].
  destruct Hy as [|y ys Hy Hys]; [constructor|].
  cbn. constructor; [split; assumption|]. now apply IH.
Qed.

Lemma Forall_combine_right {A B} (R : B -> Prop) (xs : list A) (ys : list B) :
  Forall R ys -> Forall (fun p => R (snd p)) (combine xs ys).
Proof.
  revert ys. induction xs as [|x xs IH]; intros ys Hy; [constructor|].
  destruct Hy as [|y ys Hy Hys]; [constructor|].
  cbn. constructor; [assumption|]. now apply IH.
Qed.

(** Reading a defined index of the table. *)
Lemma rsi_read (period : nat) (prices : list fnum) (P : fnum -> Prop) (i : nat)
    (rows : list (fnum * fnum * fnum)) :
  rsi_table period prices = repeat (NaN, NaN, NaN) period ++ rows ->
  Forall (fun row => P (snd row)) rows ->
  (period <= i < length prices)%nat ->
  exists x, nth_error (rsi_of_prices period prices) i = Some x /\ P x.
Proof.
  intros Ht Hrows [Hlo Hhi].
  unfold rsi_of_prices. rewrite nth_error_map.
  assert (Hlen : (i < length (rsi_table period prices))%nat)
    by (rewrite rsi_table_length; exact Hhi).
  destruct (nth_error (rsi_table period prices) i) as [row|] eqn:E;
    [|apply nth_error_None in E; lia].
  exists (snd row). split; [reflexivity|].
  rewrite Ht in E. rewrite nth_error_app2 in E by (rewrite repeat_length; exact Hlo).
  apply nth_error_In in E. rewrite Forall_forall in Hrows.
  apply Hrows. now apply list_elem_of_In.
Qed.

(** X14: on prices that never fall (constant prices included) the RSI is
    exactly 100 at every index from the period on. *)
Theorem rsi_of_rising_prices (period : nat) (qs : list Q) (i : nat) :
  (1 <= period)%nat ->
  StronglySorted Qle qs ->
  (period <= i < length qs)%nat ->
  nth_error (rsi_of_prices period (map fin qs)) i = Some (fin 100).
Proof.
  intros Hp Hs Hi.
  assert (Hi' : (period <= i < length (map fin qs))%nat) by (now rewrite length_map).
  destruct qs as [|q tl]; [cbn in Hi; lia|].
  assert (Hd : Forall (fun d => exists x, d = fin x /\ (0 <= x)%Q)
                      (rsi_deltas (map fin (q :: tl)))).
  { cbn [map rsi_deltas]. constructor; [exists 0%Q; split; [reflexivity|lra]|].
    apply (deltas_of_sorted Qle); [intros a b Hab; lra|exact Hs]. }
  pose proof (losses_of_rising _ Hd) as Hl.
  set (prices := map fin (q :: tl)) in *.
  assert (Hn : (period <? length prices)%nat = true) by (apply Nat.ltb_lt; lia).
  assert (Hlen : length (rsi_losses (rsi_deltas prices)) = length prices).
  { unfold rsi_losses. now rewrite length_map, rsi_deltas_length. }
  destruct (np_mean_zero (py_slice (rsi_losses (rsi_deltas prices)) 1 (period + 1)))
    as (l0 & Hl0 & Hl0z).
  { intros Hnil. apply (f_equal (@length fnum)) in Hnil.
    unfold py_slice in Hnil. rewrite length_firstn, length_skipn in Hnil.
    cbn [length] in Hnil. lia. }
  { unfold py_slice. now apply Forall_firstn, Forall_skipn. }
  destruct (rsi_read period prices (fun x => x = fin 100) i
              ((np_mean (py_slice (rsi_gains (rsi_deltas prices)) 1 (period + 1)),
                fin l0,
                rsi_value (np_mean (py_slice (rsi_gains (rsi_deltas prices)) 1 (period + 1)))
                          (fin l0))
               :: wilder_loop period
                    (np_mean (py_slice (rsi_gains (rsi_deltas prices)) 1 (period + 1)))
                    (fin l0)
                    (skipn (period + 1)
                       (combine (rsi_gains (rsi_deltas prices))
                                (rsi_losses (rsi_deltas prices))))))
    as (x & Hx & ->); [| |exact Hi'|exact Hx].
  - unfold rsi_table. rewrite Hn, Hl0. reflexivity.
  - constructor; [cbn [snd]; now apply rsi_value_zero_loss|].
    apply wilder_loop_rising; [exact Hp| |exact Hl0z].
    apply Forall_skipn. now apply (Forall_combine_right (fun l => l = fin 0)).
Qed.

Lemma rsi_of_rising_prices_witness :
  nth_error (rsi_of_prices 2 (map fin [5; 5; 6; 8]%Q)) 3 = Some (fin 100).
Proof.
  apply (rsi_of_rising_prices 2 [5; 5; 6; 8]%Q 3); [lia| |cbn; lia].
  repeat (constructor; [|repeat (constructor; [|]); try (cbv; discriminate)]);
    constructor.
Defined.

(** X15: on strictly falling prices the RSI is a number equal to 0 at every
    index from the period on. *)
Theorem rsi_of_falling_prices (period : nat) (qs : list Q) (i : nat) :
  (1 <= period)%nat ->
  StronglySorted (fun a b => (b < a)%Q) qs ->
  (period <= i < length qs)%nat ->
  exists r, nth_error (rsi_of_prices period (map fin qs)) i = Some (fin r) /\ (r == 0)%Q.
Proof.
  intros Hp Hs Hi.
  assert (Hi' : (period <= i < length (map fin qs))%nat) by (now rewrite length_map).
  destruct qs as [|q tl]; [cbn in Hi; lia|].
  assert (Hd : Forall (fun d => exists x, d = fin x /\ (x < 0)%Q)
                      (zip_with fsub (map fin tl) (map fin (q :: tl)))).
  { apply (deltas_of_sorted (fun a b => (b < a)%Q)); [|exact Hs].
    intros a b Hab. cbv beta in Hab. lra. }
  set (D := zip_with fsub (map fin tl) (map fin (q :: tl))) in *.
  assert (HlenD : length D = length tl).
  { subst D. rewrite length_zip_with, !length_map. cbn [length]. lia. }
  assert (Hg : Forall (fun g => g = fin 0) (rsi_gains D)).
  { apply gains_of_falling. apply (Forall_impl _ _ _ Hd).
    intros d (x & -> & Hx). exists x. split; [reflexivity|lra]. }
  pose proof (losses_of_falling D Hd) as Hl.
  cbn [length] in Hi.
  destruct (np_mean_zero (firstn period (rsi_gains D))) as (g0 & Hg0 & Hg0z).
  { intros Hnil. apply (f_equal (@length fnum)) in Hnil.
    unfold rsi_gains in Hnil. rewrite length_firstn, length_map in Hnil.
    cbn [length] in Hnil. lia. }
  { now apply Forall_firstn. }
  destruct (np_mean_positive (firstn period (rsi_losses D))) as (l0 & Hl0 & Hl0p).
  { intros Hnil. apply (f_equal (@length fnum)) in Hnil.
    unfold rsi_losses in Hnil. rewrite length_firstn, length_map in Hnil.
    cbn [length] in Hnil. lia. }
  { now apply Forall_firstn. }
  assert (Ht : rsi_table period (map fin (q :: tl))
               = repeat (NaN, NaN, NaN) period
                   ++ (fin g0, fin l0, rsi_value (fin g0) (fin l0))
                   :: wilder_loop period (fin g0) (fin l0)
                        (skipn period (combine (rsi_gains D) (rsi_losses D)))).
  { unfold rsi_table.
    assert (Hn : (period <? length (map fin (q :: tl)))%nat = true).
    { apply Nat.ltb_lt. rewrite length_map. cbn [length]. lia. }
    rewrite Hn.
    change (rsi_deltas (map fin (q :: tl))) with (fin 0 :: D).
    assert (Eg : rsi_gains (fin 0 :: D) = fin 0 :: rsi_gains D) by reflexivity.
    assert (El : rsi_losses (fin 0 :: D) = fin 0 :: rsi_losses D) by reflexivity.
    rewrite Eg, El. unfold py_slice.
    replace (period + 1 - 1)%nat with period by lia.
    replace (period + 1)%nat with (S period) by lia.
    cbn [skipn combine].
    change (skipn 0 (rsi_gains D)) with (rsi_gains D).
    change (skipn 0 (rsi_losses D)) with (rsi_losses D).
    rewrite Hg0, Hl0. reflexivity. }
  destruct (rsi_read period (map fin (q :: tl))
              (fun x => exists r, x = fin r /\ (r == 0)%Q) i _ Ht)
    as (x & Hx & r & -> & Hr); [|exact Hi'|now exists r].
  constructor; [cbn [snd]; now apply rsi_value_zero_gain|].
  apply wilder_loop_falling; [exact Hp| |exact Hg0z|exact Hl0p].
  apply Forall_skipn.
  now apply (Forall_combine_both (fun g => g = fin 0)
               (fun l => exists y, l = fin y /\ (0 < y)%Q)).
Qed.

Lemma rsi_of_falling_prices_witness :
  exists r, nth_error (rsi_of_prices 2 (map fin [9; 7; 6; 2]%Q)) 3 = Some (fin r)
            /\ (r == 0)%Q.
Proof.
  apply (rsi_of_falling_prices 2 [9; 7; 6; 2]%Q 3); [lia| |cbn; lia].
  repeat (constructor; [|repeat (constructor; [|]); try reflexivity]);
    constructor.
Defined.

End IndicatorMore.

(** ** Monthly tables accepted by the validator *)

Module MonthlyFacts.
Import DataValidator Terms Examples.

Lemma month_start_lt (a b : Z) : a < b -> date_lt (month_start a) (month_start b).
Proof.
  intros H. unfold date_lt, date_compare, month_start. cbn [year month day].
  destruct (Z.compare_spec (a / 12) (b / 12)) as [E|E|E].
  - assert (Hm : a mod 12 + 1 < b mod 12 + 1)
      by (Z.div_mod_to_equations; lia).
    apply Z.compare_lt_iff in Hm. now rewrite Hm.
  - reflexivity.
  - exfalso. Z.div_mod_to_equations. lia.
Qed.

Lemma sorted_map_seq {A : Type} (R : A -> A -> Prop) (f : nat -> A) :
  (forall i j, (i < j)%nat -> R (f i) (f j)) ->
  forall n a, StronglySorted R (map f (seq a n)).
Proof.
  intros Hf. induction n as [|n IH]; intros a; [constructor|].
  cbn [seq map]. constructor; [apply IH|].
  apply Forall_forall. intros x Hx. apply list_elem_of_In, in_map_iff in Hx.
  destruct Hx as (j & <- & Hj). apply in_seq in Hj. apply Hf. lia.
Qed.

Lemma pd_date_range_MS_increasing (s e : date) : increasing (pd_date_range_MS s e).
Proof.
  unfold increasing, pd_date_range_MS. apply sorted_map_seq.
  intros i j Hij. apply month_start_lt. lia.
Qed.

Lemma pd_date_range_MS_first_days (s e : date) :
  Forall (fun d => day d = 1 /\ 1 <= month d <= 12) (pd_date_range_MS s e).
Proof.
  unfold pd_date_range_MS. apply Forall_forall. intros d Hd.
  apply list_elem_of_In, in_map_iff in Hd. destruct Hd as (k & <- & _).
  unfold month_start. cbn [day month]. split; [reflexivity|].
  Z.div_mod_to_equations. lia.
Qed.

Lemma month_start_index (d : date) :
  day d = 1 -> 1 <= month d <= 12 -> month_start (month_index d) = d.
Proof.
  intros Hd Hm. unfold month_start, month_index. destruct d as [y m dd].
  cbn [year month day] in *. subst dd. f_equal; Z.div_mod_to_equations; lia.
Qed.

Section Monthly.

Variable nyse_open_dates : date -> date -> list date.
Variable parses_as_number : string -> bool.

(** X17: a table accepted as monthly has a declared start and a declared
    end that are first days of a month, its dates are the first days of the
    consecutive months from the start to the end, in strictly increasing
    order, one row per month. *)
Theorem validated_monthly_table (name : string) (declared_start declared_end : date)
    (t : table) :
  DataValidator.validate nyse_open_dates parses_as_number
    name declared_start declared_end "monthly" t = true ->
  day declared_start = 1 /\ day declared_end = 1
  /\ increasing (t_date t)
  /\ Forall (fun d => day d = 1 /\ 1 <= month d <= 12) (t_date t)
  /\ Z.of_nat (length (t_date t))
     = month_index declared_end - month_index declared_start + 1
  /\ (forall k : nat, (k < length (t_date t))%nat ->
        t_date t !! k = Some (month_start (month_index declared_start + Z.of_nat k))).
Proof.
  unfold DataValidator.validate, _validate_single_file.
  cbn [ff_start_date ff_end_date ff_frequency String.eqb Ascii.eqb Bool.eqb].
  destruct (py_get (t_date t) 0) as [d0|] eqn:E0; [|discriminate].
  destruct (py_get (t_date t) (-1)) as [d1|] eqn:E1; [|discriminate].
  destruct (date_eqb d0 declared_start) eqn:Ed0; [|discriminate].
  destruct (date_eqb d1 declared_end) eqn:Ed1; [|discriminate].
  cbn [negb]. unfold _validate_monthly_data.
  destruct (dates_match _ _) eqn:Em; [|discriminate]. intros _.
  apply ValidatorFacts.dates_match_eq in Em.
  apply date_eqb_eq in Ed0, Ed1. subst d0 d1.
  apply py_get_first in E0. apply py_get_last in E1.
  pose proof (pd_date_range_MS_first_days declared_start declared_end) as Hall.
  rewrite <- Em in Hall.
  assert (Hs : day declared_start = 1 /\ 1 <= month declared_start <= 12).
  { rewrite Forall_forall in Hall. apply Hall.
    destruct (t_date t); [discriminate|]. injection E0 as ->. now left. }
  assert (He : day declared_end = 1 /\ 1 <= month declared_end <= 12).
  { rewrite Forall_forall in Hall. apply Hall.
    rewrite last_lookup in E1. now apply list_elem_of_lookup_2 in E1. }
  assert (Hlen : length (t_date t)
                 = Z.to_nat (month_index declared_end - month_index declared_start + 1)).
  { rewrite Em. unfold pd_date_range_MS. rewrite length_map, length_seq.
    destruct Hs as [-> _]. reflexivity. }
  assert (Hpos : (0 < length (t_date t))%nat).
  { destruct (t_date t); [discriminate|cbn; lia]. }
  repeat match goal with |- _ /\ _ => split end.
  - apply Hs.
  - apply He.
  - rewrite Em. apply pd_date_range_MS_increasing.
  - exact Hall.
  - lia.
  - intros k Hk. rewrite Em at 1. unfold pd_date_range_MS.
    destruct Hs as [-> _]. cbn [Z.eqb Pos.eqb].
    rewrite list_lookup_fmap.
    rewrite <- Hlen.
    assert (Hseq : seq 0 (length (t_date t)) !! k = Some k).
    { rewrite <- nth_error_lookup. rewrite nth_error_nth' with (d := 0%nat)
        by (rewrite length_seq; exact Hk).
      now rewrite seq_nth. }
    rewrite Hseq. reflexivity.
Qed.

End Monthly.

Lemma validated_monthly_table_witness :
  DataValidator.validate no_calendar no_parse
    "CPI" (mkDate 2020 2 1) (mkDate 2020 3 1) "monthly" monthly_table = true
  /\ increasing (t_date monthly_table).
Proof.
  assert (H : DataValidator.validate no_calendar no_parse
                "CPI" (mkDate 2020 2 1) (mkDate 2020 3 1) "monthly" monthly_table = true)
    by reflexivity.
  split; [exact H|].
  apply (validated_monthly_table no_calendar no_parse _ _ _ _ H).
Defined.

End MonthlyFacts.

(** ** The caches and offsets built by the constructor *)

Module InitFacts.
Import DataManager Terms Examples ManagerInit DateOrder.

Lemma items_lookup {V : Type} (m : gmap string V) (name : string) (v : V) :
  In (name, v) (items m) <-> m !! name = Some v.
Proof.
  unfold items. rewrite <- list_elem_of_In. apply elem_of_map_to_list.
Qed.

Lemma items_nodup {V : Type} (m : gmap string V) : List.NoDup (map fst (items m)).
Proof. apply NoDup_ListNoDup. exact (NoDup_fst_map_to_list m). Qed.

Lemma in_keys {V : Type} (l : list (string * V)) (name : string) (v : V) :
  In (name, v) l -> In name (map fst l).
Proof. intros H. apply in_map_iff. now exists (name, v). Qed.

(** *** [_create_numpy_cache] *)

Section Cache.

Variable parse_filename : string -> result file_info.

Local Abbreviation cache_asset := (ManagerInit.cache_asset parse_filename).

Lemma cache_asset_step (s s1 : store) (name filename : string) :
  cache_asset s (name, filename) = Ok s1 ->
  exists df info,
    dataframes s !! name = Some df
    /\ parse_filename filename = Ok info
    /\ s1 = mkStore (use_extended_data s) (redirect_dict s) (max_lookback_days s)
              (dataframes s) (filenames s)
              match df_columns df !! default_label (fi_source info) with
              | Some col => <[name := col]> (data_arrays s)
              | None => data_arrays s
              end
              (<[name := df_date df]> (date_arrays s))
              (<[name := info]> (metadata s))
              (daily_date_range s) (monthly_date_range s)
              (daily_data_start_index s) (monthly_data_start_index s)
              (original_dataframes_backup s) (original_daily_indices_backup s)
              (original_monthly_indices_backup s).
Proof.
  unfold ManagerInit.cache_asset, dict_get.
  destruct (dataframes s !! name) as [df|]; [|discriminate].
  cbn [bind]. destruct (parse_filename filename) as [info|]; [|discriminate].
  cbn [bind]. intros [= <-]. exists df, info. split; [reflexivity|]. split; [reflexivity|].
  destruct (df_columns df !! default_label (fi_source info)); reflexivity.
Qed.

Lemma cache_asset_raises (s : store) (name filename : string) (e : exn) :
  cache_asset s (name, filename) = Err e ->
  (dataframes s !! name = None /\ e = KeyError name)
  \/ (is_Some (dataframes s !! name) /\ parse_filename filename = Err e).
Proof.
  unfold ManagerInit.cache_asset, dict_get.
  destruct (dataframes s !! name) as [df|]; cbn [bind].
  - destruct (parse_filename filename) as [info|e']; [discriminate|].
    cbn [bind]. intros [= <-]. right. eauto.
  - intros [= <-]. now left.
Qed.

(** What the loop has done when it ends without an exception. *)
Lemma cache_loop_ok (l : list (string * string)) :
  forall s s',
    List.NoDup (map fst l) ->
    for_each cache_asset l s = Ok s' ->
    dataframes s' = dataframes s /\ filenames s' = filenames s
    /\ daily_date_range s' = daily_date_range s
    /\ monthly_date_range s' = monthly_date_range s
    /\ daily_data_start_index s' = daily_data_start_index s
    /\ monthly_data_start_index s' = monthly_data_start_index s
    /\ (forall name, ~ In name (map fst l) ->
          metadata s' !! name = metadata s !! name
          /\ data_arrays s' !! name = data_arrays s !! name
          /\ date_arrays s' !! name = date_arrays s !! name)
    /\ (forall name filename, In (name, filename) l ->
          exists df info,
            dataframes s !! name = Some df
            /\ parse_filename filename = Ok info
            /\ metadata s' !! name = Some info
            /\ date_arrays s' !! name = Some (df_date df)
            /\ data_arrays s' !! name
               = match df_columns df !! default_label (fi_source info) with
                 | Some col => Some col
                 | None => data_arrays s !! name
                 end).
Proof.
  induction l as [|[n1 f1] l IH]; intros s s' Hnd H.
  - cbn in H. injection H as <-.
    repeat match goal with |- _ /\ _ => split end; try reflexivity.
    + intros name _. auto.
    + intros name filename [].
  - cbn [for_each] in H.
    destruct (cache_asset s (n1, f1)) as [s1|e] eqn:E1; [|discriminate].
    cbn [bind] in H. cbn [map fst] in Hnd.
    inversion Hnd as [|? ? Hnot Hnd']; subst.
    destruct (IH s1 s' Hnd' H) as (A1 & A2 & A3 & A4 & A5 & A6 & Aother & Ain).
    destruct (cache_asset_step s s1 n1 f1 E1) as (df1 & i1 & Hdf1 & Hi1 & ->).
    cbn [dataframes filenames daily_date_range monthly_date_range
         daily_data_start_index monthly_data_start_index metadata data_arrays
         date_arrays] in *.
    repeat match goal with |- _ /\ _ => split end; try assumption.
    + intros name Hname.
      assert (Hne : n1 <> name) by (intros ->; apply Hname; now left).
      destruct (Aother name) as (B1 & B2 & B3); [intros Hin; apply Hname; now right|].
      rewrite B1, B2, B3. rewrite !lookup_insert_ne by exact Hne.
      repeat split.
      destruct (df_columns df1 !! default_label (fi_source i1));
        rewrite ?lookup_insert_ne by exact Hne; reflexivity.
    + intros name filename [[= -> ->]|Hin].
      * destruct (Aother name Hnot) as (B1 & B2 & B3).
        exists df1, i1. rewrite B1, B2, B3, !lookup_insert_eq.
        repeat split; [exact Hdf1|exact Hi1|].
        destruct (df_columns df1 !! default_label (fi_source i1));
          rewrite ?lookup_insert_eq; reflexivity.
      * assert (Hne : n1 <> name).
        { intros ->. apply Hnot. exact (in_keys _ _ _ Hin). }
        destruct (Ain name filename Hin) as (df & info & C1 & C2 & C3 & C4 & C5).
        exists df, info. repeat split; try assumption.
        rewrite C5. destruct (df_columns df !! default_label (fi_source info));
          [reflexivity|].
        destruct (df_columns df1 !! default_label (fi_source i1));
          rewrite ?lookup_insert_ne by exact Hne; reflexivity.
Qed.

(** The loop raises at the first entry that has no frame or whose name the
    parser rejects; it never changes the frames, so the test on the frames
    can be made on the store it started from. *)
Lemma cache_loop_raises (l : list (string * string)) :
  forall s e,
    for_each cache_asset l s = Err e ->
    exists name filename,
      In (name, filename) l
      /\ ((dataframes s !! name = None /\ e = KeyError name)
          \/ (is_Some (dataframes s !! name) /\ parse_filename filename = Err e)).
Proof.
  induction l as [|[n1 f1] l IH]; intros s e H; [discriminate|].
  cbn [for_each] in H.
  destruct (cache_asset s (n1, f1)) as [s1|e1] eqn:E1; cbn [bind] in H.
  - destruct (cache_asset_step s s1 n1 f1 E1) as (df1 & i1 & Hdf1 & _ & Hs1).
    assert (Hsame : dataframes s1 = dataframes s) by (rewrite Hs1; reflexivity).
    destruct (IH s1 e H) as (name & filename & Hin & Hcase).
    rewrite Hsame in Hcase. exists name, filename. split; [now right|exact Hcase].
  - injection H as ->. exists n1, f1. split; [now left|].
    exact (cache_asset_raises s n1 f1 e E1).
Qed.

(** X18: [_create_numpy_cache] raises only at a file that has no dataframe
    (a [KeyError] on its name) or whose name the file-name parser rejects
    (the parser's error). When it returns, every file name has been parsed
    and has its parsed fields as metadata, the dates of its frame as date
    array and, when the frame has the default column of the file's source,
    that column as data array; the frames and the entries of other names
    are as before. *)
Theorem create_numpy_cache_spec (raw_filenames : gmap string string) (self : store) :
  match _create_numpy_cache parse_filename raw_filenames self with
  | Ok s' =>
      dataframes s' = dataframes self
      /\ (forall name, raw_filenames !! name = None ->
            metadata s' !! name = metadata self !! name
            /\ data_arrays s' !! name = data_arrays self !! name
            /\ date_arrays s' !! name = date_arrays self !! name)
      /\ (forall name filename, raw_filenames !! name = Some filename ->
            exists df info,
              dataframes self !! name = Some df
              /\ parse_filename filename = Ok info
              /\ metadata s' !! name = Some info
              /\ date_arrays s' !! name = Some (df_date df)
              /\ data_arrays s' !! name
                 = match df_columns df !! default_label (fi_source info) with
                   | Some col => Some col
                   | None => data_arrays self !! name
                   end)
  | Err e =>
      exists name filename,
        raw_filenames !! name = Some filename
        /\ ((dataframes self !! name = None /\ e = KeyError name)
            \/ (is_Some (dataframes self !! name) /\ parse_filename filename = Err e))
  end.
Proof.
  unfold _create_numpy_cache.
  pose proof (cache_loop_raises (items raw_filenames) self) as Herr.
  pose proof (cache_loop_ok (items raw_filenames) self) as Hok.
  destruct (for_each _ (items raw_filenames) self) as [s'|e].
  - destruct (Hok s' (items_nodup _) eq_refl)
      as (A1 & _ & _ & _ & _ & _ & Aother & Ain).
    repeat match goal with |- _ /\ _ => split end; try assumption.
    + intros name Hnone. apply Aother. intros Hin.
      apply in_map_iff in Hin. destruct Hin as ([n f] & Hn & Hin). cbn in Hn. subst n.
      apply items_lookup in Hin. congruence.
    + intros name filename Hin. apply Ain. now apply items_lookup.
  - destruct (Herr e eq_refl) as (name & filename & Hin & Hcase).
    exists name, filename. split; [now apply items_lookup|exact Hcase].
Qed.

End Cache.

(** *** [_create_date_indices] *)

Lemma filter_keys_nodup {V : Type} (f : string * V -> bool) (l : list (string * V)) :
  List.NoDup (map fst l) -> List.NoDup (map fst (List.filter f l)).
Proof.
  induction l as [|x l IH]; intros H; [constructor|].
  cbn [map] in H. inversion H as [|? ? Hnot Hnd]; subst.
  cbn [List.filter]. destruct (f x); [|now apply IH].
  cbn [map]. constructor; [|now apply IH].
  intros Hin. apply Hnot. apply in_map_iff in Hin. destruct Hin as (y & Hy & Hin).
  apply filter_In in Hin. apply in_map_iff. exists y. tauto.
Qed.

(** The loop over the daily files: it only writes daily offsets, one per
    file, each pointing at the file's start date in the grid. *)
Lemma index_daily_loop (grid : list date) (l : list (string * file_info)) :
  forall s s',
    List.NoDup (map fst l) ->
    for_each (index_daily grid) l s = Ok s' ->
    s' = set_daily_data_start_index s (daily_data_start_index s')
    /\ (forall name, ~ In name (map fst l) ->
          daily_data_start_index s' !! name = daily_data_start_index s !! name)
    /\ (forall name info, In (name, info) l ->
          exists i, daily_data_start_index s' !! name = Some i
                    /\ 0 <= i < Z.of_nat (length grid)
                    /\ grid !! Z.to_nat i = Some (fi_start_date info)).
Proof.
  induction l as [|[n1 i1] l IH]; intros s s' Hnd H.
  - cbn in H. injection H as <-. split; [now destruct s|].
    split; [auto|intros name info []].
  - cbn [for_each index_daily] in H.
    destruct (_binary_search_date grid (fi_start_date i1)) as [k|] eqn:Ek; [|discriminate].
    cbn [bind] in H. cbn [map fst] in Hnd.
    inversion Hnd as [|? ? Hnot Hnd']; subst.
    destruct (IH _ s' Hnd' H) as (A1 & Aother & Ain).
    apply ManagerFacts.binary_search_found in Ek.
    split; [|split].
    + rewrite A1 at 1. reflexivity.
    + intros name Hname.
      rewrite Aother by (intros Hin; apply Hname; now right).
      cbn [daily_data_start_index set_daily_data_start_index].
      apply lookup_insert_ne. intros ->. apply Hname. now left.
    + intros name info [[= -> ->]|Hin]; [|exact (Ain name info Hin)].
      exists k. rewrite (Aother name Hnot).
      cbn [daily_data_start_index set_daily_data_start_index].
      rewrite lookup_insert_eq. tauto.
Qed.

Lemma index_monthly_loop (grid : list date) (l : list (string * file_info)) :
  forall s s',
    List.NoDup (map fst l) ->
    for_each (index_monthly grid) l s = Ok s' ->
    s' = set_monthly_data_start_index s (monthly_data_start_index s')
    /\ (forall name, ~ In name (map fst l) ->
          monthly_data_start_index s' !! name = monthly_data_start_index s !! name)
    /\ (forall name info, In (name, info) l ->
          exists i, monthly_data_start_index s' !! name = Some i
                    /\ 0 <= i < Z.of_nat (length grid)
                    /\ grid !! Z.to_nat i = Some (replace_day1 (fi_start_date info))).
Proof.
  induction l as [|[n1 i1] l IH]; intros s s' Hnd H.
  - cbn in H. injection H as <-. split; [now destruct s|].
    split; [auto|intros name info []].
  - cbn [for_each index_monthly] in H.
    destruct (_binary_search_date grid (replace_day1 (fi_start_date i1))) as [k|] eqn:Ek;
      [|discriminate].
    cbn [bind] in H. cbn [map fst] in Hnd.
    inversion Hnd as [|? ? Hnot Hnd']; subst.
    destruct (IH _ s' Hnd' H) as (A1 & Aother & Ain).
    apply ManagerFacts.binary_search_found in Ek.
    split; [|split].
    + rewrite A1 at 1. reflexivity.
    + intros name Hname.
      rewrite Aother by (intros Hin; apply Hname; now right).
      cbn [monthly_data_start_index set_monthly_data_start_index].
      apply lookup_insert_ne. intros ->. apply Hname. now left.
    + intros name info [[= -> ->]|Hin]; [|exact (Ain name info Hin)].
      exists k. rewrite (Aother name Hnot).
      cbn [monthly_data_start_index set_monthly_data_start_index].
      rewrite lookup_insert_eq. tauto.
Qed.

Lemma daily_file (self : store) (name : string) (info : file_info) :
  filenames self !! name = Some info -> fi_frequency info = "daily"%string ->
  In (name, info) (List.filter is_daily (items (filenames self))).
Proof.
  intros H Hf. apply filter_In. split; [now apply items_lookup|].
  unfold is_daily. cbn [snd]. rewrite Hf. reflexivity.
Qed.

Lemma monthly_file (self : store) (name : string) (info : file_info) :
  filenames self !! name = Some info -> fi_frequency info = "monthly"%string ->
  In (name, info) (List.filter is_monthly (items (filenames self))).
Proof.
  intros H Hf. apply filter_In. split; [now apply items_lookup|].
  unfold is_monthly, is_daily. cbn [snd]. rewrite Hf. reflexivity.
Qed.

Section Indices.

Variable get_nyse_dates : date -> date -> list date.

Lemma create_daily_range_ok (self s1 : store) :
  create_daily_range get_nyse_dates self = Ok s1 ->
  filenames s1 = filenames self
  /\ monthly_date_range s1 = monthly_date_range self
  /\ monthly_data_start_index s1 = monthly_data_start_index self
  /\ (forall name info,
        filenames self !! name = Some info -> fi_frequency info = "daily"%string ->
        exists grid i,
          daily_date_range s1 = Some grid
          /\ daily_data_start_index s1 !! name = Some i
          /\ 0 <= i < Z.of_nat (length grid)
          /\ grid !! Z.to_nat i = Some (fi_start_date info)).
Proof.
  unfold create_daily_range. intros H.
  pose proof (daily_file self) as Hin.
  pose proof (filter_keys_nodup is_daily _ (items_nodup (filenames self))) as Hnd.
  destruct (List.filter is_daily (items (filenames self))) as [|first rest] eqn:El.
  - injection H as <-. repeat split. intros name info Hn Hf.
    destruct (Hin name info Hn Hf).
  - cbv zeta in H.
    set (grid := get_nyse_dates _ _) in H.
    destruct (index_daily_loop grid _ _ _ Hnd H) as (A1 & _ & Ain).
    rewrite A1. cbn [filenames monthly_date_range monthly_data_start_index
                     daily_date_range daily_data_start_index
                     set_daily_data_start_index set_daily_date_range].
    repeat split. intros name info Hn Hf.
    destruct (Ain name info (Hin name info Hn Hf)) as (i & Hi & Hr & Hg).
    exists grid, i. tauto.
Qed.

Lemma create_monthly_range_ok (self s1 : store) :
  create_monthly_range self = Ok s1 ->
  filenames s1 = filenames self
  /\ daily_date_range s1 = daily_date_range self
  /\ daily_data_start_index s1 = daily_data_start_index self
  /\ (forall name info,
        filenames self !! name = Some info -> fi_frequency info = "monthly"%string ->
        exists grid i,
          monthly_date_range s1 = Some grid
          /\ monthly_data_start_index s1 !! name = Some i
          /\ 0 <= i < Z.of_nat (length grid)
          /\ grid !! Z.to_nat i = Some (replace_day1 (fi_start_date info))).
Proof.
  unfold create_monthly_range. intros H.
  pose proof (monthly_file self) as Hin.
  pose proof (filter_keys_nodup is_monthly _ (items_nodup (filenames self))) as Hnd.
  destruct (List.filter is_monthly (items (filenames self))) as [|first rest] eqn:El.
  - injection H as <-. repeat split. intros name info Hn Hf.
    destruct (Hin name info Hn Hf).
  - cbv zeta in H.
    set (grid := DataValidator.pd_date_range_MS _ _) in H.
    destruct (index_monthly_loop grid _ _ _ Hnd H) as (A1 & _ & Ain).
    rewrite A1. cbn [filenames monthly_date_range monthly_data_start_index
                     daily_date_range daily_data_start_index
                     set_monthly_data_start_index set_monthly_date_range].
    repeat split. intros name info Hn Hf.
    destruct (Ain name info (Hin name info Hn Hf)) as (i & Hi & Hr & Hg).
    exists grid, i. tauto.
Qed.

(** X19: when [_create_date_indices] returns, the start offset recorded
    for every daily file is a position of the master daily grid that holds
    the file's declared start date, and the offset recorded for every
    monthly file is a position of the master monthly grid that holds the
    first day of the month of the file's declared start date. *)
Theorem start_offsets_point_at_start_dates (self s' : store) :
  _create_date_indices get_nyse_dates self = Ok s' ->
  forall name info,
    filenames self !! name = Some info ->
    (fi_frequency info = "daily"%string ->
       exists grid i,
         daily_date_range s' = Some grid
         /\ daily_data_start_index s' !! name = Some i
         /\ 0 <= i < Z.of_nat (length grid)
         /\ grid !! Z.to_nat i = Some (fi_start_date info))
    /\ (fi_frequency info = "monthly"%string ->
          exists grid i,
            monthly_date_range s' = Some grid
            /\ monthly_data_start_index s' !! name = Some i
            /\ 0 <= i < Z.of_nat (length grid)
            /\ grid !! Z.to_nat i = Some (replace_day1 (fi_start_date info))).
Proof.
  unfold _create_date_indices. intros H name info Hn.
  destruct (create_daily_range get_nyse_dates self) as [s1|] eqn:E1; [|discriminate].
  cbn [bind] in H.
  destruct (create_daily_range_ok self s1 E1) as (F1 & _ & _ & Hd).
  destruct (create_monthly_range_ok s1 s' H) as (F2 & D1 & D2 & Hm).
  split; intros Hf.
  - rewrite D1, D2. exact (Hd name info Hn Hf).
  - apply Hm; [now rewrite F1|exact Hf].
Qed.

End Indices.

Lemma start_offsets_point_at_start_dates_witness :
  exists s',
    _create_date_indices (fun _ _ => [day1; day2]) small_store = Ok s'
    /\ exists grid i,
         daily_date_range s' = Some grid
         /\ daily_data_start_index s' !! "LATE"%string = Some i
         /\ 0 <= i < Z.of_nat (length grid)
         /\ grid !! Z.to_nat i = Some day2.
Proof.
  destruct (_create_date_indices (fun _ _ => [day1; day2]) small_store) as [s'|e] eqn:E;
    [|vm_compute in E; discriminate E].
  exists s'. split; [reflexivity|].
  apply (proj1 (start_offsets_point_at_start_dates (fun _ _ => [day1; day2])
                  small_store s' E "LATE"%string (daily_info day2) eq_refl)).
  reflexivity.
Defined.

(** *** The monthly block cannot raise on validated monthly files *)

Lemma min_date_spec (rest : list date) :
  forall first,
    In (min_date first rest) (first :: rest)
    /\ forall d, In d (first :: rest) -> ~ date_lt d (min_date first rest).
Proof.
  induction rest as [|x rest IH]; intros first.
  - cbn. split; [now left|]. intros d [<-|[]]. apply ManagerFacts.date_lt_irrefl.
  - unfold min_date. cbn [fold_left].
    fold (min_date (if date_ltb x first then x else first) rest).
    destruct (IH (if date_ltb x first then x else first)) as [Hin Hmin].
    set (m := min_date _ rest) in *.
    assert (Hf : ~ date_lt (if date_ltb x first then x else first) m)
      by (apply Hmin; now left).
    split.
    + destruct Hin as [Hin|Hin]; [|right; now right].
      rewrite <- Hin. destruct (date_ltb x first); [right; now left|now left].
    + intros d [Hd|[Hd|Hd]]; [subst d|subst d|apply Hmin; now right].
      * destruct (date_ltb x first) eqn:E; [|exact Hf].
        apply date_ltb_lt in E. intros Hc. apply Hf. exact (date_lt_trans _ _ _ E Hc).
      * destruct (date_ltb x first) eqn:E; [exact Hf|].
        intros Hc. apply Hf. revert E Hc. rewrite <- not_true_iff_false, date_ltb_lt.
        rewrite !date_lt_spec. lia.
Qed.

Lemma max_date_spec (rest : list date) :
  forall first,
    In (max_date first rest) (first :: rest)
    /\ forall d, In d (first :: rest) -> ~ date_lt (max_date first rest) d.
Proof.
  induction rest as [|x rest IH]; intros first.
  - cbn. split; [now left|]. intros d [<-|[]]. apply ManagerFacts.date_lt_irrefl.
  - unfold max_date. cbn [fold_left].
    fold (max_date (if date_ltb first x then x else first) rest).
    destruct (IH (if date_ltb first x then x else first)) as [Hin Hmax].
    set (m := max_date _ rest) in *.
    assert (Hf : ~ date_lt m (if date_ltb first x then x else first))
      by (apply Hmax; now left).
    split.
    + destruct Hin as [Hin|Hin]; [|right; now right].
      rewrite <- Hin. destruct (date_ltb first x); [right; now left|now left].
    + intros d [Hd|[Hd|Hd]]; [subst d|subst d|apply Hmax; now right].
      * destruct (date_ltb first x) eqn:E; [|exact Hf].
        apply date_ltb_lt in E. intros Hc. apply Hf. exact (date_lt_trans _ _ _ Hc E).
      * destruct (date_ltb first x) eqn:E; [exact Hf|].
        intros Hc. apply Hf. revert E Hc. rewrite <- not_true_iff_false, date_ltb_lt.
        rewrite !date_lt_spec. lia.
Qed.

Lemma month_index_mono (a b : date) :
  1 <= month a <= 12 -> 1 <= month b <= 12 -> ~ date_lt b a ->
  DataValidator.month_index a <= DataValidator.month_index b.
Proof.
  unfold DataValidator.month_index. rewrite date_lt_spec. lia.
Qed.

Lemma index_monthly_total (grid : list date) (l : list (string * file_info)) :
  (forall it, In it l ->
     exists i, _binary_search_date grid (replace_day1 (fi_start_date (snd it))) = Ok i) ->
  forall s, exists s', for_each (index_monthly grid) l s = Ok s'.
Proof.
  induction l as [|[n1 i1] l IH]; intros H s; [now exists s|].
  cbn [for_each index_monthly].
  destruct (H (n1, i1)) as [i Hi]; [now left|]. cbn [snd] in Hi. rewrite Hi.
  cbn [bind]. apply IH. intros it Hit. apply H. now right.
Qed.

(** A monthly file as the validator accepts it: start and end are in
    months 1 to 12, the start is a first day of a month, and the end is not
    before the start. *)
Lemma monthly_start_in_grid (mn mx st en : date) :
  day mn = 1 ->
  1 <= month mn <= 12 -> 1 <= month mx <= 12 ->
  day st = 1 -> 1 <= month st <= 12 -> 1 <= month en <= 12 ->
  ~ date_lt st mn -> ~ date_lt en st -> ~ date_lt mx en ->
  exists k : nat, DataValidator.pd_date_range_MS mn mx !! k = Some (replace_day1 st).
Proof.
  intros Hmn Vmn Vmx Hst Vst Ven H1 H2 H3.
  pose proof (month_index_mono mn st Vmn Vst H1) as M1.
  pose proof (month_index_mono st en Vst Ven H2) as M2.
  pose proof (month_index_mono en mx Ven Vmx H3) as M3.
  exists (Z.to_nat (DataValidator.month_index st - DataValidator.month_index mn)).
  unfold DataValidator.pd_date_range_MS. rewrite Hmn. cbn [Z.eqb Pos.eqb].
  rewrite list_lookup_fmap.
  assert (Hseq : forall n k, (k < n)%nat -> seq 0 n !! k = Some k).
  { intros n k Hk. rewrite <- nth_error_lookup.
    rewrite nth_error_nth' with (d := 0%nat) by (rewrite length_seq; exact Hk).
    now rewrite seq_nth. }
  rewrite Hseq by lia. cbn [fmap option_fmap option_map]. f_equal.
  rewrite Z2Nat.id by lia.
  replace (DataValidator.month_index mn
           + (DataValidator.month_index st - DataValidator.month_index mn))
    with (DataValidator.month_index st) by lia.
  rewrite (MonthlyFacts.month_start_index st Hst Vst).
  destruct st as [y m d]. cbn in Hst. subst d. reflexivity.
Qed.

(** X20: the monthly block of [_create_date_indices] cannot raise when
    every monthly file has months between 1 and 12 in its declared dates,
    a declared start that is the first day of a month and a declared end
    that is not before the start, as the files accepted by the validator
    have. *)
Theorem monthly_offsets_never_raise (self : store) :
  (forall name info,
     filenames self !! name = Some info -> fi_frequency info = "monthly"%string ->
     day (fi_start_date info) = 1
     /\ 1 <= month (fi_start_date info) <= 12
     /\ 1 <= month (fi_end_date info) <= 12
     /\ ~ date_lt (fi_end_date info) (fi_start_date info)) ->
  exists s', create_monthly_range self = Ok s'.
Proof.
  intros Hvalid. unfold create_monthly_range.
  assert (Hfile : forall it, In it (List.filter is_monthly (items (filenames self))) ->
            day (fi_start_date (snd it)) = 1
            /\ 1 <= month (fi_start_date (snd it)) <= 12
            /\ 1 <= month (fi_end_date (snd it)) <= 12
            /\ ~ date_lt (fi_end_date (snd it)) (fi_start_date (snd it))).
  { intros [name info] Hit. apply filter_In in Hit. destruct Hit as [Hin Hm].
    apply items_lookup in Hin. cbn [snd]. apply (Hvalid name info Hin).
    unfold is_monthly in Hm. apply andb_true_iff in Hm. destruct Hm as [_ Hm].
    now apply String.eqb_eq in Hm. }
  destruct (List.filter is_monthly (items (filenames self))) as [|first rest] eqn:El;
    [now exists self|].
  cbv zeta.
  set (starts := map (fun it => fi_start_date (snd it)) rest).
  set (ends := map (fun it => fi_end_date (snd it)) rest).
  destruct (min_date_spec starts (fi_start_date (snd first))) as [Hmin_in Hmin].
  destruct (max_date_spec ends (fi_end_date (snd first))) as [Hmax_in Hmax].
  set (mn := min_date _ starts) in *. set (mx := max_date _ ends) in *.
  assert (Hstart : forall d, In d (fi_start_date (snd first) :: starts) ->
                     exists it, In it (first :: rest) /\ d = fi_start_date (snd it)).
  { intros d [<-|Hd]; [exists first; split; [now left|reflexivity]|].
    apply in_map_iff in Hd. destruct Hd as (it & <- & Hit).
    exists it. split; [now right|reflexivity]. }
  assert (Hend : forall d, In d (fi_end_date (snd first) :: ends) ->
                   exists it, In it (first :: rest) /\ d = fi_end_date (snd it)).
  { intros d [<-|Hd]; [exists first; split; [now left|reflexivity]|].
    apply in_map_iff in Hd. destruct Hd as (it & <- & Hit).
    exists it. split; [now right|reflexivity]. }
  destruct (Hstart mn Hmin_in) as (it_mn & Hit_mn & Emn).
  destruct (Hend mx Hmax_in) as (it_mx & Hit_mx & Emx).
  destruct (Hfile it_mn Hit_mn) as (Dmn & Vmn & _ & _). rewrite <- Emn in Dmn, Vmn.
  destruct (Hfile it_mx Hit_mx) as (_ & _ & Vmx & _). rewrite <- Emx in Vmx.
  apply index_monthly_total. intros it Hit.
  destruct (Hfile it Hit) as (Dst & Vst & Ven & Hle).
  destruct (monthly_start_in_grid mn mx (fi_start_date (snd it)) (fi_end_date (snd it)))
    as [k Hk]; try assumption.
  - apply Hmin. destruct Hit as [<-|Hit]; [now left|right].
    apply in_map_iff. now exists it.
  - apply Hmax. destruct Hit as [<-|Hit]; [now left|right].
    apply in_map_iff. now exists it.
  - exists (Z.of_nat k). apply SearchFacts.binary_search_hits; [|exact Hk].
    apply MonthlyFacts.pd_date_range_MS_increasing.
Qed.

Lemma monthly_offsets_never_raise_witness :
  exists s', create_monthly_range small_store = Ok s'.
Proof.
  apply monthly_offsets_never_raise. intros name info Hn Hf.
  assert (Hcpi : info = cpi_info).
  { destruct (decide (name = "CPI"%string)) as [->|Hne].
    - cbn in Hn. now injection Hn as <-.
    - exfalso. unfold small_store in Hn. cbn [filenames] in Hn.
      destruct (decide (name = "A"%string)) as [->|HA];
        [vm_compute in Hn; injection Hn as <-; discriminate Hf|].
      rewrite lookup_insert_ne in Hn by congruence.
      destruct (decide (name = "B"%string)) as [->|HB];
        [vm_compute in Hn; injection Hn as <-; discriminate Hf|].
      rewrite lookup_insert_ne in Hn by congruence.
      destruct (decide (name = "LATE"%string)) as [->|HL];
        [vm_compute in Hn; injection Hn as <-; discriminate Hf|].
      rewrite lookup_insert_ne in Hn by congruence.
      rewrite lookup_insert_ne in Hn by congruence.
      rewrite lookup_empty in Hn. discriminate Hn. }
  subst info. cbn. repeat split; try lia. intros H. discriminate H.
Defined.

End InitFacts.

(** ** What the batch records *)

Module ResultFacts.
Import BacktestEngine EngineMore.

Lemma extract_fold_keeps (full : BacktestResult) (name : string)
    (periods : list BacktestPeriod) :
  forall (m : gmap string BacktestResult) (lg : list log_record) (k : string),
    is_Some (m !! k) ->
    is_Some (fst (fold_left (extract_step full name) periods (m, lg)) !! k).
Proof.
  induction periods as [|p ps IH]; intros m lg k Hk; [exact Hk|].
  cbn [fold_left]. unfold extract_step at 2.
  destruct (_extract_period_from_full_result full p name); apply IH; [|exact Hk].
  destruct (decide (period_name p = k)) as [->|Hne].
  - rewrite lookup_insert_eq. eauto.
  - now rewrite lookup_insert_ne.
Qed.

Lemma extract_fold_keys (full : BacktestResult) (name : string)
    (periods : list BacktestPeriod) :
  forall (m : gmap string BacktestResult) (lg : list log_record) (k : string),
    is_Some (fst (fold_left (extract_step full name) periods (m, lg)) !! k) ->
    is_Some (m !! k) \/ In k (map period_name periods).
Proof.
  induction periods as [|p ps IH]; intros m lg k Hk; [now left|].
  cbn [fold_left] in Hk. unfold extract_step at 2 in Hk.
  destruct (_extract_period_from_full_result full p name) as [r|e].
  - apply IH in Hk. destruct Hk as [Hk|Hk]; [|right; right; exact Hk].
    destruct (decide (period_name p = k)) as [E|Hne]; [right; left; exact E|].
    rewrite lookup_insert_ne in Hk by exact Hne. now left.
  - apply IH in Hk. destruct Hk as [Hk|Hk]; [now left|right; right; exact Hk].
Qed.

Section Batch.

Context {World Kwargs : Type}.
Variable no_kwargs : Kwargs.
Variable sm : @StrategyManager World Kwargs.
Variable strategy_params : gmap string Kwargs.
Variable full_period : BacktestPeriod.
Variable sub_periods : list BacktestPeriod.

Local Abbreviation step := (run_strategy no_kwargs sm strategy_params full_period sub_periods).

(** A record holds a full-period result, and only periods of the batch. *)
Local Abbreviation well_recorded := (fun sr : gmap string BacktestResult =>
  is_Some (sr !! "Full Period"%string)
  /\ forall p, is_Some (sr !! p) ->
       p = "Full Period"%string \/ In p (map period_name sub_periods)).

Lemma run_strategy_records (b : batch) (name : string) :
  (forall k sr, all_results b !! k = Some sr -> well_recorded sr) ->
  forall k sr, all_results (step b name) !! k = Some sr -> well_recorded sr.
Proof.
  intros Hb k sr. unfold run_strategy.
  destruct (_execute_single_backtest _ _ _ _ _) as [[[full|e] logs] w'].
  - destruct (fold_left _ _ _) as [results logs'] eqn:Ef. cbn [all_results].
    destruct (decide (name = k)) as [->|Hne].
    + rewrite lookup_insert_eq. intros [= <-].
      assert (Hr : results = fst (fold_left (extract_step full k) sub_periods
                     (<["Full Period"%string := full]> ∅, error_log b ++ logs)))
        by (now rewrite Ef).
      rewrite Hr. split.
      * apply extract_fold_keeps. rewrite lookup_insert_eq. eauto.
      * intros p Hp. apply extract_fold_keys in Hp. destruct Hp as [Hp|Hp]; [|now right].
        left. destruct (decide ("Full Period"%string = p)) as [<-|Hne]; [reflexivity|].
        rewrite lookup_insert_ne, lookup_empty in Hp by exact Hne.
        destruct Hp as [? Hp]. discriminate Hp.
    + rewrite lookup_insert_ne by exact Hne. apply Hb.
  - cbn [all_results]. apply Hb.
Qed.

Lemma run_strategy_names (b : batch) (name k : string) :
  is_Some (all_results (step b name) !! k) ->
  is_Some (all_results b !! k) \/ k = name.
Proof.
  unfold run_strategy.
  destruct (_execute_single_backtest _ _ _ _ _) as [[[full|e] logs] w'].
  - destruct (fold_left _ _ _) as [results logs']. cbn [all_results].
    destruct (decide (name = k)) as [->|Hne]; [now right|].
    rewrite lookup_insert_ne by exact Hne. now left.
  - cbn [all_results]. now left.
Qed.

Lemma run_fold_records (names : list string) :
  forall b,
    (forall k sr, all_results b !! k = Some sr -> well_recorded sr) ->
    forall k sr, all_results (fold_left step names b) !! k = Some sr -> well_recorded sr.
Proof.
  induction names as [|n names IH]; intros b Hb; [exact Hb|].
  cbn [fold_left]. apply IH. now apply run_strategy_records.
Qed.

Lemma run_fold_names (names : list string) :
  forall b k,
    is_Some (all_results (fold_left step names b) !! k) ->
    is_Some (all_results b !! k) \/ In k names.
Proof.
  induction names as [|n names IH]; intros b k Hk; [now left|].
  cbn [fold_left] in Hk. apply IH in Hk. destruct Hk as [Hk|Hk]; [|right; now right].
  apply run_strategy_names in Hk. destruct Hk as [Hk| ->]; [now left|right; now left].
Qed.

End Batch.

(** X21: in the results of a batch, every recorded strategy is one of the
    loaded strategies, its record has a result under "Full Period", and
    every period of its record is "Full Period" or a declared sub-period;
    so [get_results_for_period] on "Full Period" lists exactly the recorded
    strategies. *)
Theorem recorded_strategies {World Kwargs : Type} (no_kwargs : Kwargs)
    (load : result (@StrategyManager World Kwargs))
    (full_start full_end : date) (test_periods : list BacktestPeriod)
    (strategy_params : gmap string Kwargs) (w : World) (b : batch) :
  run_full_backtest no_kwargs load full_start full_end test_periods strategy_params w
  = Ok b ->
  forall name,
    (is_Some (get_results_for_period (all_results b) "Full Period" !! name)
     <-> is_Some (all_results b !! name))
    /\ (is_Some (all_results b !! name) ->
        exists sm, load = Ok sm /\ In name (all_strategy_names sm))
    /\ (forall sr p, all_results b !! name = Some sr -> is_Some (sr !! p) ->
          p = "Full Period"%string \/ In p (map period_name test_periods)).
Proof.
  unfold run_full_backtest. destruct load as [sm|e]; [|discriminate].
  cbn [bind]. intros [= <-] name.
  set (b0 := {| all_results := ∅; error_log := []; world := w |}).
  assert (H0 : forall k sr, all_results b0 !! k = Some sr ->
                 is_Some (sr !! "Full Period"%string)
                 /\ forall p, is_Some (sr !! p) ->
                      p = "Full Period"%string \/ In p (map period_name test_periods)).
  { intros k sr Hk. cbn in Hk. rewrite lookup_empty in Hk. discriminate Hk. }
  pose proof (run_fold_records no_kwargs sm strategy_params
                (mkPeriod "Full Period" full_start full_end) test_periods
                (all_strategy_names sm) b0 H0) as Hrec.
  split; [|split].
  - unfold get_results_for_period. rewrite lookup_omap.
    destruct (all_results (fold_left _ _ b0) !! name) as [sr|] eqn:E; cbn.
    + split; [eauto|]. intros _. apply (Hrec name sr E).
    + split; intros [? H]; discriminate H.
  - intros Hs. exists sm. split; [reflexivity|].
    apply run_fold_names in Hs. destruct Hs as [Hs|Hs]; [|exact Hs].
    cbn in Hs. rewrite lookup_empty in Hs. destruct Hs as [? Hs]. discriminate Hs.
  - intros sr p Hsr Hp. exact (proj2 (Hrec name sr Hsr) p Hp).
Qed.

Lemma recorded_strategies_witness :
  exists b,
    run_full_backtest tt (Ok Examples.two_strategies)
      (mkDate 2020 1 2) (mkDate 2020 1 3) [] ∅ tt = Ok b
    /\ is_Some (get_results_for_period (all_results b) "Full Period" !! "steady"%string)
    /\ all_results b !! "lookback"%string = None.
Proof.
  eexists. split; [reflexivity|].
  split; [|reflexivity].
  apply (proj1 (recorded_strategies tt (Ok Examples.two_strategies)
                  (mkDate 2020 1 2) (mkDate 2020 1 3) [] ∅ tt _ eq_refl "steady"%string)).
  vm_compute. eauto.
Defined.

End ResultFacts.
